(** * CalDAV synchronisation plugin: a shallow embedding of [src/main.ts]

    The plugin pushes local event notes to a CalDAV calendar and imports
    remote events that have no local counterpart.  The embedding follows the
    source function by function:

    - JavaScript values the code relies on ([undefined], truthiness, [Date],
      string helpers) are modelled in [Module JS];
    - everything the plugin calls but does not define (the HTTP transport, the
      ICS library, [moment], [uuid], the clock, the vault) is an interface,
      [Host];
    - asynchronous methods are computations in a state-and-exception monad
      over a [World] (vault, server, notices, console, [vault.create] calls,
      front-matter edits in flight).

    Modelling conventions.  A library call that can throw returns a
    [Result]: [requestUrl], [generateIcsCalendar], [convertIcsCalendar],
    [btoa], [vault.create] and [vault.read].  Where the source has a
    [try]/[catch] the error is caught there; elsewhere it rejects the
    [async] method that made the call.  [processFrontMatter] is not awaited
    by the source: its edit is put in flight and is carried out by the host
    afterwards.  The callbacks of [Promise.all] advance in rounds, from one
    [await] to the next.  A [Date] is its time value in milliseconds, or the
    invalid date; [new Date(n)] clips at the maximum time value. *)

From stdpp Require Import base strings list gmap.
From Stdlib Require Import ZArith Lia Ascii.
From Stdlib Require DecimalString.

Local Open Scope string_scope.
Local Open Scope Z_scope.

(** ** JavaScript values *)

Module JS.

(** [s.startsWith(p)] and [s.endsWith(p)]. *)
Definition startsWith (s p : string) : bool := String.prefix p s.
Definition endsWith (s p : string) : bool :=
  String.prefix (String.rev p) (String.rev s).

(** [s.slice(n)] for a non-negative [n]. *)
Fixpoint slice (n : nat) (s : string) : string :=
  match n, s with
  | O, _ => s
  | S n', String _ s' => slice n' s'
  | S _, EmptyString => EmptyString
  end.

(** Truthiness of a value of type [string | undefined]: [undefined] and
    the empty string are falsy. *)
Definition truthy (v : option string) : bool :=
  match v with
  | Some s => negb (String.eqb s "")
  | None => false
  end.

(** A template literal prints [undefined] as the word itself. *)
Definition template (v : option string) : string := default "undefined" v.

(** [n.toString()] of an integral number. *)
Definition toString (n : Z) : string :=
  DecimalString.NilZero.string_of_int (Z.to_int n).

(** *** Dates

    A [Date] holds a time value: an integral number of milliseconds since
    the epoch, at most [MAX_TIME] in absolute value, or NaN (the invalid
    date).  [getTime] returns that number; [newDate] is the constructor
    [new Date(number)], which clips. *)
Inductive Date := Instant (ms : Z) | InvalidDate.

Definition MAX_TIME : Z := 8640000000000000.

(** A JavaScript number that is either integral or NaN. *)
Inductive Number := Num (n : Z) | NaN.

Definition getTime (d : Date) : Number :=
  match d with Instant ms => Num ms | InvalidDate => NaN end.

Definition plus (a : Number) (b : Z) : Number :=
  match a with Num n => Num (n + b) | NaN => NaN end.

Definition newDate (v : Number) : Date :=
  match v with
  | Num n => if Z.abs n <=? MAX_TIME then Instant n else InvalidDate
  | NaN => InvalidDate
  end.

End JS.

(** ** Data model *)

(** [interface ObsidianEvent]. [location] is declared a string but is read
    from the front matter like the optional fields, so it may be absent. *)
Record ObsidianEvent := {
  date : string;
  start_time : option string;
  end_time : option string;
  summary : string;
  description : string;
  location : option string;
  url : option string;
  guid : option string
}.

(** The [type] tag of an ICS date object. *)
Inductive DateType := DATE | DATE_TIME.

Global Instance DateType_eq_dec : EqDecision DateType.
Proof. solve_decision. Defined.

(** [IcsDateObject] of ts-ics: [{ date: Date, type?: "DATE" | "DATE-TIME" }]. *)
Record IcsDateObject := {
  d_date : JS.Date;
  d_type : option DateType
}.

(** [IcsEvent] of ts-ics, with the properties the plugin reads or writes, as
    the values are at run time.  [convertIcsCalendar] is called without a
    schema, so nothing checks the events it returns: the summary, which a
    VEVENT need not have, can be missing although the TypeScript type
    declares it a string.  The uid and the start are properties every VEVENT
    of a calendar has. *)
Record IcsEvent := {
  ev_summary : option string;
  ev_description : option string;
  uid : string;
  created : option IcsDateObject;
  stamp : option IcsDateObject;
  ev_location : option string;
  start : IcsDateObject;
  end_ : option IcsDateObject;
  ev_url : option string
}.

(** [IcsCalendar] of ts-ics; [events] is optional. *)
Record IcsCalendar := {
  prodId : string;
  version : string;
  events : option (list IcsEvent)
}.

(** ** HTTP *)

Inductive Method := PUT | PROPFIND.

Record Request := {
  req_url : string;
  req_method : Method;
  req_headers : list (string * string);
  req_body : option string
}.

Record Response := {
  status : Z;
  text : string
}.

(** What awaiting [requestUrl] produces: a response, or a thrown error. *)
Inductive HttpOutcome := Responded (r : Response) | Failed (error : string).

(** ** Calls that may throw *)

(** A call either returns a value or throws an error. *)
Inductive Result (A : Type) := Ok (a : A) | Throw (error : string).
Global Arguments Ok {A} a.
Global Arguments Throw {A} error.

(** ** Notes *)

(** [CachedMetadata]: the parsed front matter of a note (a flat map from keys
    to strings) and [frontmatterPosition.end.offset]. *)
Record CachedMetadata := {
  frontmatter : option (gmap string string);
  frontmatterEnd : nat
}.

(** A note of the vault: what [doc.basename], [vault.read(doc)] and
    [metadataCache.getFileCache(doc)] give for it. *)
Record TFile := {
  basename : string;
  content : string;
  fileCache : option CachedMetadata
}.

(** ** The host interface

    Everything imported from [obsidian], [ts-ics], [uuid] and the JavaScript
    runtime.  The server is an arbitrary state machine; the clock and the
    identifier generator are indexed by the number of earlier calls. *)
Class Host (Server : Type) := {
  requestUrl : Server -> Request -> HttpOutcome * Server;
  uuidv4 : nat -> string;
  clock : nat -> JS.Date;
  (** [new Date(string)] *)
  parseDate : string -> JS.Date;
  (** [moment(d).format('YYYY-MM-DD')] and [moment(d).format('HH:mm')] *)
  formatDay : JS.Date -> string;
  formatHM : JS.Date -> string;
  (** [generateIcsCalendar(calendar)]; it throws when it cannot print the
      calendar, as on an invalid date *)
  generateIcsCalendar : IcsCalendar -> Result string;
  (** [convertIcsCalendar(undefined, text)]; it throws on a text it cannot
      read *)
  convertIcsCalendar : string -> Result IcsCalendar;
  (** [btoa(s)]; it throws on a character it cannot encode *)
  btoa : string -> Result string;
  (** [JSON.stringify] of a string *)
  jsonString : string -> string;
  (** [vault.create(path, data)]: why the vault refuses to create a note at
      [path], when it does *)
  create_refused : gmap string TFile -> string -> option string;
  (** what the metadata cache holds for a new note with the given text *)
  indexNote : string -> option CachedMetadata;
  (** [processFrontMatter]: the text of a note once its front matter is
      replaced by the given one, and the offset where the new front matter
      ends *)
  rewriteFrontMatter : TFile -> gmap string string -> string * nat
}.

(** ** The settings and the world *)

(** [interface ObsidianCalDAVPluginSettings]. *)
Record ObsidianCalDAVPluginSettings := {
  eventsDirectory : string;
  yandexUsername : string;
  yandexAppPassword : string;
  yandexCalendarUrl : string
}.

Section Plugin.

Context {Server : Type}.

(** The state the plugin runs in.  [vault] maps a path to its note;
    [creations] lists the [vault.create(path, data)] calls, [notices] the
    [new Notice(...)] messages and [console] the [console.error] lines, each
    in the order they were made; [pending] lists the
    [processFrontMatter(doc, fn)] calls whose edit the host has not carried
    out yet. *)
Record World := {
  settings : ObsidianCalDAVPluginSettings;
  vault : gmap string TFile;
  server : Server;
  clock_reads : nat;
  uuid_calls : nat;
  notices : list string;
  console : list string;
  creations : list (string * string);
  pending : list (string * (gmap string string -> gmap string string))
}.

Definition set_vault (v : gmap string TFile) (w : World) : World :=
  {| settings := settings w; vault := v; server := server w;
     clock_reads := clock_reads w; uuid_calls := uuid_calls w;
     notices := notices w; console := console w; creations := creations w;
     pending := pending w |}.

Definition set_server (s : Server) (w : World) : World :=
  {| settings := settings w; vault := vault w; server := s;
     clock_reads := clock_reads w; uuid_calls := uuid_calls w;
     notices := notices w; console := console w; creations := creations w;
     pending := pending w |}.

Definition set_clock_reads (n : nat) (w : World) : World :=
  {| settings := settings w; vault := vault w; server := server w;
     clock_reads := n; uuid_calls := uuid_calls w;
     notices := notices w; console := console w; creations := creations w;
     pending := pending w |}.

Definition set_uuid_calls (n : nat) (w : World) : World :=
  {| settings := settings w; vault := vault w; server := server w;
     clock_reads := clock_reads w; uuid_calls := n;
     notices := notices w; console := console w; creations := creations w;
     pending := pending w |}.

Definition set_notices (l : list string) (w : World) : World :=
  {| settings := settings w; vault := vault w; server := server w;
     clock_reads := clock_reads w; uuid_calls := uuid_calls w;
     notices := l; console := console w; creations := creations w;
     pending := pending w |}.

Definition set_console (l : list string) (w : World) : World :=
  {| settings := settings w; vault := vault w; server := server w;
     clock_reads := clock_reads w; uuid_calls := uuid_calls w;
     notices := notices w; console := l; creations := creations w;
     pending := pending w |}.

Definition set_creations (l : list (string * string)) (w : World) : World :=
  {| settings := settings w; vault := vault w; server := server w;
     clock_reads := clock_reads w; uuid_calls := uuid_calls w;
     notices := notices w; console := console w; creations := l;
     pending := pending w |}.

Definition set_pending
    (l : list (string * (gmap string string -> gmap string string)))
    (w : World) : World :=
  {| settings := settings w; vault := vault w; server := server w;
     clock_reads := clock_reads w; uuid_calls := uuid_calls w;
     notices := notices w; console := console w; creations := creations w;
     pending := l |}.

(** ** The monad of asynchronous methods

    An [async] method either returns a value or rejects with an error; in
    both cases the effects made so far stay in the world. *)
Definition M (A : Type) : Type := World -> Result A * World.

Definition ret {A} (a : A) : M A := fun w => (Ok a, w).

Definition bind {A B} (m : M A) (k : A -> M B) : M B :=
  fun w =>
    match m w with
    | (Ok a, w') => k a w'
    | (Throw e, w') => (Throw e, w')
    end.

Definition throw {A} (e : string) : M A := fun w => (Throw e, w).

(** [try { m } catch (error) { handler }] *)
Definition try_catch {A} (m : M A) (handler : string -> M A) : M A :=
  fun w =>
    match m w with
    | (Ok a, w') => (Ok a, w')
    | (Throw e, w') => handler e w'
    end.

Definition gets {A} (f : World -> A) : M A := fun w => (Ok (f w), w).
Definition modify (f : World -> World) : M unit := fun w => (Ok tt, f w).

(** A library call that returns or throws. *)
Definition call {A} (r : Result A) : M A := fun w => (r, w).

End Plugin.

Declare Scope js_scope.
Delimit Scope js_scope with js.
Notation "'let*' x := m 'in' k" := (bind m (fun x => k))
  (at level 10, x name, m at level 100, k at level 200) : js_scope.
Notation "m ;; k" := (bind m (fun _ => k))
  (at level 100, k at level 200, right associativity) : js_scope.
Local Open Scope js_scope.

(** [TFile.basename] of a path: the name after the last slash, up to its
    last dot. *)
Fixpoint until_char (stop : Ascii.ascii) (s : string) : string :=
  match s with
  | EmptyString => EmptyString
  | String c s' =>
      if Ascii.eqb c stop then EmptyString else String c (until_char stop s')
  end.

Fixpoint after_char (stop : Ascii.ascii) (s : string) : option string :=
  match s with
  | EmptyString => None
  | String c s' => if Ascii.eqb c stop then Some s' else after_char stop s'
  end.

Definition basename_of (path : string) : string :=
  let name := until_char "/" (String.rev path) in
  String.rev (default name (after_char "." name)).

Section Effects.

Context {Server : Type} `{H : Host Server}.
Local Abbreviation World := (@World Server).
Local Abbreviation M := (@M Server).

(** [new Notice(msg)] *)
Definition Notice (msg : string) : M unit :=
  modify (fun w => set_notices (notices w ++ [msg])%list w).

(** [console.error(label, detail)] *)
Definition console_error (label detail : string) : M unit :=
  modify (fun w => set_console (console w ++ [label +:+ " " +:+ detail])%list w).

(** [moment().toDate()] *)
Definition now : M JS.Date :=
  fun w => (Ok (clock (clock_reads w)), set_clock_reads (S (clock_reads w)) w).

(** [uuidv4()] *)
Definition fresh_uuid : M string :=
  fun w => (Ok (uuidv4 (uuid_calls w)), set_uuid_calls (S (uuid_calls w)) w).

(** [requestUrl(req)]: the request goes to the server; what awaiting it will
    produce is fixed by then. *)
Definition send (req : Request) : M HttpOutcome :=
  fun w =>
    match requestUrl (server w) req with
    | (outcome, s') => (Ok outcome, set_server s' w)
    end.

(** Resuming at the [await] of a request. *)
Definition receive (outcome : HttpOutcome) : M Response :=
  match outcome with
  | Responded r => ret r
  | Failed e => throw e
  end.

(** [await requestUrl(req)] *)
Definition request (req : Request) : M Response :=
  let* outcome := send req in
  receive outcome.

(** The note that [vault.create(path, data)] adds to the vault. *)
Definition created_note (path data : string) : TFile :=
  {| basename := basename_of path;
     content := data;
     fileCache := indexNote data |}.

(** [await this.app.vault.create(path, data)]: the call is recorded; the
    vault refuses it, and the call throws, or the note is added. *)
Definition vault_create (path data : string) : M unit :=
  modify (fun w => set_creations (creations w ++ [(path, data)])%list w) ;;
  let* refusal := gets (fun w => create_refused (vault w) path) in
  match refusal with
  | Some e => throw e
  | None =>
      modify (fun w =>
        set_vault (<[path := created_note path data]> (vault w)) w)
  end.

End Effects.

(** ** Mapping a local record to a calendar event ([syncEvent], first part) *)

Section Mapper.

Context {Server : Type} `{H : Host Server}.
Local Abbreviation World := (@World Server).
Local Abbreviation M := (@M Server).

Definition HOUR_MS : Z := 3600000.
Definition DAY_MS : Z := 86400000.
Definition UID_NAMESPACE : string := "@obsidian.md".

(** [local_event.guid || `${uuidv4()}@obsidian.md`]: the generator is only
    called when the guid is falsy. *)
Definition event_uid (local_event : ObsidianEvent) : M string :=
  match guid local_event with
  | Some g => if JS.truthy (Some g) then ret g
              else let* u := fresh_uuid in ret (u +:+ UID_NAMESPACE)
  | None => let* u := fresh_uuid in ret (u +:+ UID_NAMESPACE)
  end.

(** [new Date(d.getTime() + ms)] *)
Definition date_after (d : JS.Date) (ms : Z) : JS.Date :=
  JS.newDate (JS.plus (JS.getTime d) ms).

(** The [if (local_event.start_time) ... else ...] that fills [event.start]
    and [event.end]. *)
Definition event_dates (local_event : ObsidianEvent)
  : IcsDateObject * IcsDateObject :=
  if JS.truthy (start_time local_event) then
    let start :=
      parseDate (date local_event +:+ "T"
                 +:+ JS.template (start_time local_event) +:+ ":00") in
    let end' :=
      if JS.truthy (end_time local_event)
      then parseDate (date local_event +:+ "T"
                      +:+ JS.template (end_time local_event) +:+ ":00")
      else date_after start HOUR_MS in
    ({| d_date := start; d_type := Some DATE_TIME |},
     {| d_date := end'; d_type := Some DATE_TIME |})
  else
    let start := parseDate (date local_event) in
    let end' := date_after start DAY_MS in
    ({| d_date := start; d_type := Some DATE |},
     {| d_date := end'; d_type := Some DATE |}).

(** The [IcsEvent] that [syncEvent] builds before it talks to the server
    (lines 163-185). *)
Definition toIcsEvent (local_event : ObsidianEvent) : M IcsEvent :=
  let* now' := now in
  let* uuid := event_uid local_event in
  let '(start', end') := event_dates local_event in
  ret {| ev_summary := Some (summary local_event);
         ev_description := Some (description local_event);
         uid := uuid;
         created := Some {| d_date := now'; d_type := None |};
         stamp := Some {| d_date := now'; d_type := None |};
         ev_location := location local_event;
         start := start';
         end_ := Some end';
         ev_url := None |}.

End Mapper.

(** ** Reading local records *)

Section Records.

Context {Server : Type} `{H : Host Server}.
Local Abbreviation World := (@World Server).
Local Abbreviation M := (@M Server).

(** [tryCreateObsidianEvent(filename, metadata, content)] *)
Definition tryCreateObsidianEvent (filename : string)
    (metadata : option CachedMetadata) (content' : string)
  : option ObsidianEvent :=
  match metadata with
  | Some md =>
      match frontmatter md with
      | Some fm =>
          if JS.truthy (fm !! "type")
             && bool_decide (fm !! "type" = Some "calendar-event")
          then
            match fm !! "date" with
            | Some d =>
                if JS.truthy (Some d) then
                  Some {| date := d;
                          start_time := fm !! "start_time";
                          end_time := fm !! "end_time";
                          summary := filename;
                          description :=
                            JS.slice (frontmatterEnd md + 1) content';
                          location := fm !! "location";
                          url := fm !! "url";
                          guid := fm !! "guid" |}
                else None
            | None => None
            end
          else None
      | None => None
      end
  | None => None
  end.

(** The front matter of a note, as its cache has it. *)
Definition note_frontmatter (f : TFile) : option (gmap string string) :=
  match fileCache f with
  | Some md => frontmatter md
  | None => None
  end.

(** [this.app.metadataCache.getFileCache(doc)?.frontmatter] *)
Definition cached_frontmatter (v : gmap string TFile) (doc : string)
  : option (gmap string string) :=
  match v !! doc with
  | Some f => note_frontmatter f
  | None => None
  end.

(** [getUUIDFromEventFile(doc)]: the guid of the note's front matter, or the
    empty string.  The body has no [await]. *)
Definition getUUIDFromEventFile (doc : string) : M string :=
  let* frontmatter' :=
    gets (fun w => cached_frontmatter (vault w) doc) in
  match frontmatter' with
  | Some fm => if JS.truthy (fm !! "guid") then ret (default "" (fm !! "guid"))
               else ret ""
  | None => ret ""
  end.

(** [await this.app.vault.read(doc)] together with
    [this.app.metadataCache.getFileCache(doc)]; a handle whose note is gone
    makes the read reject. *)
Definition read_note (doc : string) : M TFile :=
  let* file := gets (fun w => vault w !! doc) in
  match file with
  | Some f => ret f
  | None => throw ("File not found: " +:+ doc)
  end.

(** Assigning to a front-matter key; assigning [undefined] leaves the key
    without a value. *)
Definition fm_assign (key : string) (v : option string)
    (fm : gmap string string) : gmap string string :=
  match v with
  | Some s => <[key := s]> fm
  | None => delete key fm
  end.

(** [this.app.fileManager.processFrontMatter(doc, fn)], which the source
    does not await: the call returns at once and the edit is in flight. *)
Definition processFrontMatter (doc : string)
    (fn : gmap string string -> gmap string string) : M unit :=
  modify (fun w => set_pending (pending w ++ [(doc, fn)])%list w).

(** A note after the host has carried out an edit: [fn] has been applied to
    its front matter, and the host has rewritten its text to match.  The
    front matter of the text is taken to be the one of the cache. *)
Definition edited (f : TFile)
    (fn : gmap string string -> gmap string string) : TFile :=
  let fm := fn (default ∅ (note_frontmatter f)) in
  {| basename := basename f;
     content := fst (rewriteFrontMatter f fm);
     fileCache :=
       Some {| frontmatter := Some fm;
               frontmatterEnd := snd (rewriteFrontMatter f fm) |} |}.

Definition apply_edit
    (edit : string * (gmap string string -> gmap string string))
    (v : gmap string TFile) : gmap string TFile :=
  alter (fun f => edited f (snd edit)) (fst edit) v.

(** The host carries out the edits in flight, in the order they were
    requested. *)
Definition land_edits : M unit :=
  modify (fun w =>
    set_pending []
      (set_vault (foldl (fun v edit => apply_edit edit v) (vault w) (pending w))
                 w)).

End Records.

(** ** The CalDAV client and the single-event sync routine *)

Section Client.

Context {Server : Type} `{H : Host Server}.
Local Abbreviation World := (@World Server).
Local Abbreviation M := (@M Server).

(** [status.toString().startsWith("2")] *)
Definition status_ok (r : Response) : bool :=
  JS.startsWith (JS.toString (status r)) "2".

(** [`${username}:${password}`], the argument of [btoa]. *)
Definition credentials (cfg : ObsidianCalDAVPluginSettings) : string :=
  yandexUsername cfg +:+ ":" +:+ yandexAppPassword cfg.

(** The calendar URL with a trailing slash. *)
Definition collection_url (cfg : ObsidianCalDAVPluginSettings) : string :=
  yandexCalendarUrl cfg
  +:+ (if JS.endsWith (yandexCalendarUrl cfg) "/" then "" else "/").

(** [calend], the calendar that holds the one event (lines 187-191). *)
Definition single_event_calendar (event : IcsEvent) : IcsCalendar :=
  {| prodId := "-//Example Corp.//CalDAV Client//EN";
     version := "2.0";
     events := Some [event] |}.

(** The PUT of lines 198-206; [auth] and [icsString] are the results of
    [btoa] and [generateIcsCalendar]. *)
Definition put_request (cfg : ObsidianCalDAVPluginSettings)
    (auth icsString : string) (event : IcsEvent) : Request :=
  {| req_url := collection_url cfg +:+ uid event;
     req_method := PUT;
     req_headers := [("Authorization", "Basic " +:+ auth);
                     ("Content-Type", "text/calendar")];
     req_body := Some icsString |}.

(** The PROPFIND of lines 209-213. *)
Definition check_request (cfg : ObsidianCalDAVPluginSettings)
    (auth : string) (event : IcsEvent) : Request :=
  {| req_url := collection_url cfg +:+ uid event +:+ ".ics";
     req_method := PROPFIND;
     req_headers := [("Authorization", "Basic " +:+ auth)];
     req_body := None |}.

(** [calendar.events?.[0]?.url] *)
Definition first_event_url (calendar : IcsCalendar) : option string :=
  match events calendar with
  | Some (first :: _) => ev_url first
  | _ => None
  end.

Definition SYNC_ERROR : string := "Ошибка синхронизации:".

(** The record once [syncEvent] has assigned its [guid] and [url]
    (lines 217-218). *)
Definition confirmed (local_event : ObsidianEvent) (event : IcsEvent)
    (calendar : IcsCalendar) : ObsidianEvent :=
  {| date := date local_event;
     start_time := start_time local_event;
     end_time := end_time local_event;
     summary := summary local_event;
     description := description local_event;
     location := location local_event;
     url := first_event_url calendar;
     guid := Some (uid event) |}.

(** [syncEvent(local_event)].  The result pairs the returned boolean with
    the record as the call leaves it: the source assigns [guid] and [url] on
    the object it was given.  [generateIcsCalendar] and [btoa] are called
    before the [try]; the two requests and [convertIcsCalendar] inside it. *)
Definition syncEvent (local_event : ObsidianEvent) : M (bool * ObsidianEvent) :=
  let* event := toIcsEvent local_event in
  let* icsString := call (generateIcsCalendar (single_event_calendar event)) in
  let* cfg := gets settings in
  let* auth := call (btoa (credentials cfg)) in
  try_catch
    (let* response_on_put := request (put_request cfg auth icsString event) in
     if status_ok response_on_put then
       let* response_on_check := request (check_request cfg auth event) in
       if status_ok response_on_check then
         let* calendar := call (convertIcsCalendar (text response_on_check)) in
         ret (true, confirmed local_event event calendar)
       else ret (false, local_event)
     else ret (false, local_event))
    (fun error =>
       console_error SYNC_ERROR error ;;
       ret (false, local_event)).

(** The function that [syncEventFile] hands to [processFrontMatter]
    (lines 150-153). *)
Definition store_identifiers (event : ObsidianEvent)
    (fm : gmap string string) : gmap string string :=
  fm_assign "url" (url event) (fm_assign "guid" (guid event) fm).

(** [syncEventFile(doc)] *)
Definition syncEventFile (doc : string) : M unit :=
  let* file := read_note doc in
  match tryCreateObsidianEvent (basename file) (fileCache file) (content file) with
  | Some event =>
      let* synced := syncEvent event in
      if fst synced then
        processFrontMatter doc (store_identifiers (snd synced))
      else ret tt
  | None => ret tt
  end.

Definition fetch_request (cfg : ObsidianCalDAVPluginSettings) (auth : string)
  : Request :=
  {| req_url := collection_url cfg;
     req_method := PROPFIND;
     req_headers := [("Authorization", "Basic " +:+ auth)];
     req_body := None |}.

(** [fetchCalendar()].  Nothing here is inside a [try]. *)
Definition fetchCalendar : M (option IcsCalendar) :=
  let* cfg := gets settings in
  let* auth := call (btoa (credentials cfg)) in
  let* response := request (fetch_request cfg auth) in
  if status_ok response then
    let* calendar := call (convertIcsCalendar (text response)) in
    ret (Some calendar)
  else
    console_error "Request error" (JS.toString (status response)) ;;
    ret None.

End Client.

(** ** The reconciliation engine: the [sync-all-events] command *)

Section Engine.

Context {Server : Type} `{H : Host Server}.
Local Abbreviation World := (@World Server).
Local Abbreviation M := (@M Server).

Definition LF : string := String (Ascii.ascii_of_nat 10) EmptyString.

(** [JSON.stringify(value)] inside a template literal. *)
Definition json (v : option string) : string :=
  JS.template (jsonString <$> v).

(** [lines.join('\n')] *)
Fixpoint join_lines (lines : list string) : string :=
  match lines with
  | [] => ""
  | [l] => l
  | l :: rest => l +:+ LF +:+ join_lines rest
  end.

(** [createFileWithProps(folderPath, fileName, content, props)].  [props] is
    the object's entries in insertion order. *)
Definition md_file (content' : string) (props : list (string * option string))
  : string :=
  "---" +:+ LF
  +:+ join_lines (map (fun kv => fst kv +:+ ": " +:+ json (snd kv)) props)
  +:+ LF +:+ "---" +:+ LF +:+ LF +:+ content'.

Definition createFileWithProps (folderPath fileName content' : string)
    (props : list (string * option string)) : M unit :=
  let fullPath := folderPath +:+ "/" +:+ fileName +:+ ".md" in
  vault_create fullPath (md_file content' props).

(** [summary.replace(/[\/\\:]/g, '_')] *)
Definition path_hostile (c : Ascii.ascii) : bool :=
  (Ascii.eqb c "/" || Ascii.eqb c "\" || Ascii.eqb c ":")%char.

Fixpoint safe_name (s : string) : string :=
  match s with
  | EmptyString => EmptyString
  | String c s' => String (if path_hostile c then "_"%char else c) (safe_name s')
  end.

Definition MULTIDAY_UNSUPPORTED : string :=
  "Многосуточное событие не поддерживается".
Definition ALL_SYNCED : string := "Все события синхронизированы".

(** What [value.summary.replace(...)] throws when the event has no
    summary. *)
Definition NO_SUMMARY : string :=
  "TypeError: Cannot read properties of undefined (reading 'replace')".

(** The five entries every imported record starts with. *)
Definition base_props (value : IcsEvent) : list (string * option string) :=
  [("type", Some "calendar-event");
   ("date", Some (formatDay (d_date (start value))));
   ("guid", Some (uid value));
   ("url", ev_url value);
   ("location", ev_location value)].

(** [value.description || ''] *)
Definition description_or_empty (value : IcsEvent) : string :=
  if JS.truthy (ev_description value)
  then JS.template (ev_description value) else "".

(** Lines 110-111:
    [const safeFileName = value.summary.replace(/[\/\\:]/g, '_');
     await this.createFileWithProps(this.settings.eventsDirectory,
       safeFileName, value.description || '', props)] *)
Definition create_record (value : IcsEvent)
    (props : list (string * option string)) : M unit :=
  match ev_summary value with
  | Some summary' =>
      let safeFileName := safe_name summary' in
      let* folder := gets (fun w => eventsDirectory (settings w)) in
      createFileWithProps folder safeFileName (description_or_empty value) props
  | None => throw NO_SUMMARY
  end.

(** One iteration of [for (const value of calendar.events)]. *)
Definition import_event (my_set : gset string) (value : IcsEvent) : M unit :=
  if bool_decide (uid value ∈ my_set) then ret tt
  else
    let startMoment := d_date (start value) in
    let endMoment : option JS.Date := d_date <$> end_ value in
    if bool_decide (d_type (start value) = Some DATE_TIME) then
      let props := (base_props value
                    ++ [("start_time", Some (formatHM startMoment))])%list in
      match endMoment with
      | Some e =>
          if String.eqb (formatDay e) (formatDay startMoment)
          then create_record value
                 (props ++ [("end_time", Some (formatHM e))])%list
          else Notice MULTIDAY_UNSUPPORTED (* continue *)
      | None => create_record value props
      end
    else create_record value (base_props value).

Fixpoint import_events (my_set : gset string) (values : list IcsEvent)
  : M unit :=
  match values with
  | [] => ret tt
  | value :: rest => import_event my_set value ;; import_events my_set rest
  end.

(** [getMarkdownFiles().filter(file => file.path.startsWith(`${dir}/`))] *)
Definition md_files (w : World) : list string :=
  filter (fun path =>
            JS.startsWith path (eventsDirectory (settings w) +:+ "/") = true)
         (map fst (map_to_list (vault w))).

(** *** The callbacks of [Promise.all(md_files.map(async (doc) => ...))]

    [map] starts every callback, and a callback runs without interruption up
    to its first [await], that is through the call of
    [getUUIDFromEventFile].  So the guid of every note is read before any
    callback resumes. *)
Fixpoint start_callbacks (docs : list string) : M (list (string * string)) :=
  match docs with
  | [] => ret []
  | doc :: rest =>
      let* guid' := getUUIDFromEventFile doc in
      let* started := start_callbacks rest in
      ret ((doc, guid') :: started)
  end.

(** [if (guid) my_set.add(guid)] *)
Definition my_set_add (my_set : gset string) (guid' : string) : gset string :=
  if JS.truthy (Some guid') then {[guid']} ∪ my_set else my_set.

(** What a callback holds while it pushes its note: the note, the record
    read from it, the event built from the record, and the settings and the
    credentials its requests are made with. *)
Record Pushing := {
  p_doc : string;
  p_local : ObsidianEvent;
  p_event : IcsEvent;
  p_cfg : ObsidianCalDAVPluginSettings;
  p_auth : string
}.

(** A callback suspended at an [await], with what the awaited call will
    produce, or settled. *)
Inductive Callback :=
| AtStart (doc guid' : string)
| AtPut (p : Pushing) (outcome : HttpOutcome)
| AtCheck (p : Pushing) (outcome : HttpOutcome)
| Settled (result : Result unit).

(** Running a callback: an error it throws settles it as rejected and goes
    no further. *)
Definition or_rejected (m : M Callback) : M Callback :=
  try_catch m (fun error => ret (Settled (Throw error))).

(** From the first [await] up to the [await] of the PUT: [syncEventFile]
    reads the note, and [syncEvent] runs through line 198. *)
Definition to_put (c : Callback) : M Callback :=
  match c with
  | AtStart doc _ =>
      or_rejected
        (let* file := read_note doc in
         match tryCreateObsidianEvent (basename file) (fileCache file)
                 (content file) with
         | Some local_event =>
             let* event := toIcsEvent local_event in
             let* icsString :=
               call (generateIcsCalendar (single_event_calendar event)) in
             let* cfg := gets settings in
             let* auth := call (btoa (credentials cfg)) in
             let* outcome := send (put_request cfg auth icsString event) in
             ret (AtPut {| p_doc := doc; p_local := local_event;
                           p_event := event; p_cfg := cfg; p_auth := auth |}
                        outcome)
         | None => ret (Settled (Ok tt))
         end)
  | _ => ret c
  end.

(** From the answer of the PUT up to the [await] of the verifying PROPFIND
    (lines 208-213), or to the end when the PUT failed. *)
Definition to_check (c : Callback) : M Callback :=
  match c with
  | AtPut p (Responded response_on_put) =>
      if status_ok response_on_put then
        let* outcome := send (check_request (p_cfg p) (p_auth p) (p_event p)) in
        ret (AtCheck p outcome)
      else ret (Settled (Ok tt))
  | AtPut p (Failed error) =>
      console_error SYNC_ERROR error ;;
      ret (Settled (Ok tt))
  | _ => ret c
  end.

(** From the answer of the PROPFIND to the end (lines 215-226 and
    149-154). *)
Definition to_end (c : Callback) : M Callback :=
  match c with
  | AtCheck p (Responded response_on_check) =>
      if status_ok response_on_check then
        match convertIcsCalendar (text response_on_check) with
        | Ok calendar =>
            processFrontMatter (p_doc p)
              (store_identifiers (confirmed (p_local p) (p_event p) calendar)) ;;
            ret (Settled (Ok tt))
        | Throw error =>
            console_error SYNC_ERROR error ;;
            ret (Settled (Ok tt))
        end
      else ret (Settled (Ok tt))
  | AtCheck p (Failed error) =>
      console_error SYNC_ERROR error ;;
      ret (Settled (Ok tt))
  | _ => ret c
  end.

(** One round: every callback advances to its next [await], in the order of
    the list.  Requests are answered in the order they were sent. *)
Fixpoint round (step : Callback -> M Callback) (cs : list Callback)
  : M (list Callback) :=
  match cs with
  | [] => ret []
  | c :: rest =>
      let* c' := step c in
      let* rest' := round step rest in
      ret (c' :: rest')
  end.

(** [await Promise.all(promises)]: it throws the error of the first callback
    that was rejected.  The other callbacks are not stopped by that; their
    effects are in the world all the same. *)
Fixpoint promise_all (cs : list Callback) : M unit :=
  match cs with
  | [] => ret tt
  | Settled (Throw error) :: _ => throw error
  | _ :: rest => promise_all rest
  end.

(** The push phase: lines 77-86.  Returns [my_set]. *)
Definition push_phase : M (gset string) :=
  let* docs := gets md_files in
  let* started := start_callbacks docs in
  let my_set := foldl my_set_add ∅ (map snd started) in
  let* at_put := round to_put (map (fun s => AtStart (fst s) (snd s)) started) in
  let* at_check := round to_check at_put in
  let* settled := round to_end at_check in
  promise_all settled ;;
  ret my_set.

(** The same callbacks in another schedule: each one runs to its end, and
    its edit is carried out, before the next one starts; so a guid is read
    after the pushes of the earlier notes.  It serves to show that [my_set]
    is not sensitive to the moment the guids are read. *)
Fixpoint run_callbacks_in_turn (my_set : gset string) (docs : list string)
  : M (gset string) :=
  match docs with
  | [] => ret my_set
  | doc :: rest =>
      let* guid' := getUUIDFromEventFile doc in
      try_catch (syncEventFile doc) (fun _ => ret tt) ;;
      land_edits ;;
      run_callbacks_in_turn (my_set_add my_set guid') rest
  end.

(** The import phase: lines 89-115. *)
Definition import_phase (my_set : gset string) (calendar : option IcsCalendar)
  : M unit :=
  match calendar with
  | Some cal =>
      match events cal with
      | Some values =>
          import_events my_set values ;;
          Notice ALL_SYNCED
      | None => ret tt
      end
  | None => ret tt
  end.

(** The callback of the [sync-all-events] command. *)
Definition sync_all_events : M unit :=
  let* my_set := push_phase in
  let* calendar := fetchCalendar in
  import_phase my_set calendar.

End Engine.

(** ** Vocabulary of the properties *)

(** A three-digit HTTP status, and the successful class. *)
Definition http_status (st : Z) : Prop := 100 <= st <= 599.
Definition is_2xx (st : Z) : Prop := 200 <= st <= 299.

(** How a push that was sent can fail: the PUT throws, or is answered
    outside 2xx, or the verifying PROPFIND throws, or is answered outside
    2xx. *)
Inductive push_fails {Server : Type} `{H : Host Server}
    (cfg : ObsidianCalDAVPluginSettings) (auth icsString : string)
    (event : IcsEvent) (s : Server)
  : Server -> option string -> Prop :=
| put_throws e s1 :
    requestUrl s (put_request cfg auth icsString event) = (Failed e, s1) ->
    push_fails cfg auth icsString event s s1 (Some e)
| put_rejected p s1 :
    requestUrl s (put_request cfg auth icsString event) = (Responded p, s1) ->
    http_status (status p) -> ~ is_2xx (status p) ->
    push_fails cfg auth icsString event s s1 None
| check_throws p s1 e s2 :
    requestUrl s (put_request cfg auth icsString event) = (Responded p, s1) ->
    is_2xx (status p) ->
    requestUrl s1 (check_request cfg auth event) = (Failed e, s2) ->
    push_fails cfg auth icsString event s s2 (Some e)
| check_rejected p s1 c s2 :
    requestUrl s (put_request cfg auth icsString event) = (Responded p, s1) ->
    is_2xx (status p) ->
    requestUrl s1 (check_request cfg auth event) = (Responded c, s2) ->
    http_status (status c) -> ~ is_2xx (status c) ->
    push_fails cfg auth icsString event s s2 None.

(** What a failed push leaves behind: the server has moved on, and a thrown
    error has been logged; nothing else changes. *)
Definition after_failure {Server : Type} `{H : Host Server}
    (s' : Server) (error : option string) (w : World) : World :=
  match error with
  | Some e =>
      set_console (console w ++ [SYNC_ERROR +:+ " " +:+ e])%list (set_server s' w)
  | None => set_server s' w
  end.

(** The HTTP statuses, for checking the status test on all of them. *)
Definition status_table : list Z := map Z.of_nat (seq 100 500).

(** The guid a note carries in its front matter, as [getUUIDFromEventFile]
    reads it in a given world. *)
Definition stored_guid {Server : Type} (w : @World Server) (doc : string)
  : string :=
  match cached_frontmatter (vault w) doc with
  | Some fm => if JS.truthy (fm !! "guid") then default "" (fm !! "guid") else ""
  | None => ""
  end.

(** [my_set] after the guids [guids] were offered to it. *)
Definition add_guids (my_set : gset string) (guids : list string) : gset string :=
  my_set ∪ list_to_set (filter (fun g => g <> "") guids).

(** A world in which the push of every note gets as far as its PUT: the
    credentials can be encoded, and the event built from each record can be
    printed. *)
Definition pushable {Server : Type} `{H : Host Server} (w : @World Server)
  : Prop :=
  (exists auth, btoa (credentials (settings w)) = Ok auth)
  /\ forall doc f r,
       doc ∈ md_files w -> vault w !! doc = Some f ->
       tryCreateObsidianEvent (basename f) (fileCache f) (content f) = Some r ->
       forall w0 ev w1,
         toIcsEvent r w0 = (Ok ev, w1) ->
         exists ics, generateIcsCalendar (single_event_calendar ev) = Ok ics.

(** A note whose push cannot get to its PUT: the event built from its record
    cannot be printed. *)
Definition unprintable {Server : Type} `{H : Host Server} (w : @World Server)
    (doc : string) : Prop :=
  exists f r,
    vault w !! doc = Some f
    /\ tryCreateObsidianEvent (basename f) (fileCache f) (content f) = Some r
    /\ forall w0 ev w1,
         toIcsEvent r w0 = (Ok ev, w1) ->
         exists e, generateIcsCalendar (single_event_calendar ev) = Throw e.

(** A callback that was rejected. *)
Definition rejected (c : Callback) : Prop :=
  match c with
  | Settled (Throw _) => True
  | _ => False
  end.

(** A step that changes nothing of what the user sees or the vault holds. *)
Definition quiet {Server : Type} (w w' : @World Server) : Prop :=
  notices w' = notices w /\ creations w' = creations w
  /\ settings w' = settings w /\ vault w' = vault w.

(** The world after [vault.create(path, data)] was called: the call is
    recorded, and the note is in the vault unless the vault refused. *)
Definition after_call {Server : Type} (path data : string)
    (w : @World Server) : @World Server :=
  set_creations (creations w ++ [(path, data)])%list w.

Definition after_create {Server : Type} `{H : Host Server}
    (path data : string) (w : @World Server) : @World Server :=
  set_vault (<[path := created_note path data]> (vault w))
            (after_call path data w).

(** The text of the note made for an all-day event, written out: the five
    entries between two delimiter lines, an empty line, the description. *)
Definition printed_or_undefined {Server : Type} `{H : Host Server}
    (v : option string) : string :=
  match v with
  | Some s => jsonString s
  | None => "undefined"
  end.

Definition all_day_note {Server : Type} `{H : Host Server}
    (value : IcsEvent) : string :=
  "---" +:+ LF
  +:+ "type: " +:+ jsonString "calendar-event" +:+ LF
  +:+ "date: " +:+ jsonString (formatDay (d_date (start value))) +:+ LF
  +:+ "guid: " +:+ jsonString (uid value) +:+ LF
  +:+ "url: " +:+ printed_or_undefined (ev_url value) +:+ LF
  +:+ "location: " +:+ printed_or_undefined (ev_location value) +:+ LF
  +:+ "---" +:+ LF +:+ LF
  +:+ default "" (ev_description value).

(** The text of the note made for a timed event: [start_time] follows the
    five entries, and [end_time] follows it when the event has an end. *)
Definition timed_note {Server : Type} `{H : Host Server}
    (value : IcsEvent) : string :=
  "---" +:+ LF
  +:+ "type: " +:+ jsonString "calendar-event" +:+ LF
  +:+ "date: " +:+ jsonString (formatDay (d_date (start value))) +:+ LF
  +:+ "guid: " +:+ jsonString (uid value) +:+ LF
  +:+ "url: " +:+ printed_or_undefined (ev_url value) +:+ LF
  +:+ "location: " +:+ printed_or_undefined (ev_location value) +:+ LF
  +:+ "start_time: " +:+ jsonString (formatHM (d_date (start value))) +:+ LF
  +:+ match end_ value with
      | Some e => "end_time: " +:+ jsonString (formatHM (d_date e)) +:+ LF
      | None => ""
      end
  +:+ "---" +:+ LF +:+ LF
  +:+ default "" (ev_description value).

(** What follows the front matter in the text that the host rewrites a note
    to: the description that is read from the rewritten note. *)
Definition rewritten_body {Server : Type} `{H : Host Server}
    (f : TFile) (fm : gmap string string) : string :=
  JS.slice (snd (rewriteFrontMatter f fm) + 1) (fst (rewriteFrontMatter f fm)).

(** The path of the note made for an event with the summary [s]. *)
Definition note_path {Server : Type} (w : @World Server) (s : string)
  : string :=
  eventsDirectory (settings w) +:+ "/" +:+ safe_name s +:+ ".md".

(** ** The [sync-event] command *)

Section Commands.

Context {Server : Type} `{H : Host Server}.
Local Abbreviation World := (@World Server).
Local Abbreviation M := (@M Server).

Definition NO_ACTIVE_FILE : string := "Нет активного файла для синхронизации".

(** The callback of the [sync-event] command.  [active_file] is the file of
    [this.app.workspace.activeEditor], absent when there is no active editor
    or it has no file. *)
Definition sync_event (active_file : option string) : M unit :=
  match active_file with
  | Some file => syncEventFile file
  | None => Notice NO_ACTIVE_FILE
  end.

End Commands.

(** ** The settings

    The settings object and the plugin's saved data are JavaScript objects
    with string values: maps from keys to strings.  [plugin_data] is what
    [loadData()] resolves to, [null] before anything was saved. *)

Definition DEFAULT_SETTINGS : gmap string string :=
  <["eventsDirectory" := ""]>
    (<["yandexUsername" := ""]>
       (<["yandexAppPassword" := ""]>
          (<["yandexCalendarUrl" := ""]> ∅))).

(** [Object.assign(target, source)]: the properties of the source overwrite
    those of the target; a [null] source is skipped. *)
Definition object_assign (target : gmap string string)
    (source : option (gmap string string)) : gmap string string :=
  match source with
  | Some src => src ∪ target
  | None => target
  end.

Record PluginState := {
  plugin_settings : gmap string string;
  plugin_data : option (gmap string string)
}.

(** [loadSettings()]:
    [this.settings = Object.assign({}, DEFAULT_SETTINGS, await this.loadData())] *)
Definition loadSettings (st : PluginState) : PluginState :=
  {| plugin_settings :=
       object_assign (object_assign ∅ (Some DEFAULT_SETTINGS)) (plugin_data st);
     plugin_data := plugin_data st |}.

(** [saveSettings()]: [await this.saveData(this.settings)] *)
Definition saveSettings (st : PluginState) : PluginState :=
  {| plugin_settings := plugin_settings st;
     plugin_data := Some (plugin_settings st) |}.

(** An [onChange] handler of the settings tab:
    [this.plugin.settings.<key> = value; await this.plugin.saveSettings();] *)
Definition onChange (key value : string) (st : PluginState) : PluginState :=
  saveSettings {| plugin_settings := <[key := value]> (plugin_settings st);
                  plugin_data := plugin_data st |}.

(** The four settings the plugin reads, as [this.settings.<key>] gives them
    when every key is defined. *)
Definition settings_of (obj : gmap string string)
  : ObsidianCalDAVPluginSettings :=
  {| eventsDirectory := default "" (obj !! "eventsDirectory");
     yandexUsername := default "" (obj !! "yandexUsername");
     yandexAppPassword := default "" (obj !! "yandexAppPassword");
     yandexCalendarUrl := default "" (obj !! "yandexCalendarUrl") |}.

(** ** Vocabulary of the further properties *)

(** The characters of a string. *)
Fixpoint chars (s : string) : list Ascii.ascii :=
  match s with
  | EmptyString => []
  | String c s' => c :: chars s'
  end.

(** The front-matter block that opens a created note, up to the end of its
    closing delimiter. *)
Definition header {Server : Type} `{H : Host Server}
    (props : list (string * option string)) : string :=
  "---" +:+ LF
  +:+ join_lines (map (fun kv => fst kv +:+ ": " +:+ json (snd kv)) props)
  +:+ LF +:+ "---".

(** What the import loop does with an event. *)
Inductive Fate := Known | Rejected | Materialized.

Global Instance Fate_eq_dec : EqDecision Fate.
Proof. solve_decision. Defined.

Definition fate {Server : Type} `{H : Host Server}
    (my_set : gset string) (value : IcsEvent) : Fate :=
  if bool_decide (uid value ∈ my_set) then Known
  else if bool_decide (d_type (start value) = Some DATE_TIME) then
    match end_ value with
    | Some e =>
        if String.eqb (formatDay (d_date e)) (formatDay (d_date (start value)))
        then Materialized else Rejected
    | None => Materialized
    end
  else Materialized.

Definition count_fate {Server : Type} `{H : Host Server}
    (f : Fate) (my_set : gset string) (values : list IcsEvent) : nat :=
  length (filter (fun v => fate my_set v = f) values).

(** The numbers whose decimal form starts with the digit 2, below 10000. *)
Definition starts_with_2 (st : Z) : Prop :=
  st = 2 \/ 20 <= st <= 29 \/ 200 <= st <= 299 \/ 2000 <= st <= 2999.

Definition small_numbers : list Z := map Z.of_nat (seq 0 (Z.to_nat 10000)).

(** ** A concrete host

    A host to run the plugin on: dates are read and printed in UTC, the
    server answers from a script, the ICS parser is given as a table of the
    texts it reads, the vault refuses to create a note where there is one.
    It is used to evaluate the definitions on concrete records. *)

Module TestHost.

(** Days since the epoch of a civil date, and back (proleptic Gregorian
    calendar). *)
Definition days_from_civil (y m d : Z) : Z :=
  let y' := if m <=? 2 then y - 1 else y in
  let era := y' / 400 in
  let yoe := y' - era * 400 in
  let mp := if 2 <? m then m - 3 else m + 9 in
  let doy := (153 * mp + 2) / 5 + d - 1 in
  let doe := yoe * 365 + yoe / 4 - yoe / 100 + doy in
  era * 146097 + doe - 719468.

Definition civil_from_days (z : Z) : Z * Z * Z :=
  let z' := z + 719468 in
  let era := z' / 146097 in
  let doe := z' - era * 146097 in
  let yoe := (doe - doe / 1460 + doe / 36524 - doe / 146096) / 365 in
  let doy := doe - (365 * yoe + yoe / 4 - yoe / 100) in
  let mp := (5 * doy + 2) / 153 in
  let d := doy - (153 * mp + 2) / 5 + 1 in
  let m := if mp <? 10 then mp + 3 else mp - 9 in
  let y := yoe + era * 400 in
  (if m <=? 2 then y + 1 else y, m, d).

Fixpoint digits (s : string) (acc : Z) : option Z :=
  match s with
  | EmptyString => Some acc
  | String c s' =>
      match Ascii.is_nat c with
      | Some n => digits s' (10 * acc + Z.of_nat n)
      | None => None
      end
  end.

Definition field (s : string) (pos len : nat) : option Z :=
  digits (String.substring pos len s) 0.

Definition sep (s : string) (pos : nat) (c : string) : bool :=
  String.eqb (String.substring pos 1 s) c.

Definition civil_date (s : string) : option Z :=
  match field s 0 4, field s 5 2, field s 8 2 with
  | Some y, Some m, Some d =>
      if sep s 4 "-" && sep s 7 "-"
         && (1 <=? m) && (m <=? 12) && (1 <=? d) && (d <=? 31)
      then Some (days_from_civil y m d) else None
  | _, _, _ => None
  end.

Definition time_of_day (s : string) : option Z :=
  match field s 11 2, field s 14 2, field s 17 2 with
  | Some h, Some mi, Some sec =>
      if sep s 10 "T" && sep s 13 ":" && sep s 16 ":"
         && (h <? 24) && (mi <? 60) && (sec <? 60)
      then Some ((h * 60 + mi) * 60000 + sec * 1000) else None
  | _, _, _ => None
  end.

(** [new Date(s)] for [YYYY-MM-DD] and [YYYY-MM-DDTHH:mm:ss]. *)
Definition parse (s : string) : JS.Date :=
  match String.length s with
  | 10%nat =>
      match civil_date s with
      | Some days => JS.Instant (days * 86400000)
      | None => JS.InvalidDate
      end
  | 19%nat =>
      match civil_date s, time_of_day s with
      | Some days, Some ms => JS.Instant (days * 86400000 + ms)
      | _, _ => JS.InvalidDate
      end
  | _ => JS.InvalidDate
  end.

Definition pad2 (n : Z) : string :=
  if n <? 10 then "0" +:+ JS.toString n else JS.toString n.

Definition pad4 (n : Z) : string :=
  if n <? 10 then "000" +:+ JS.toString n
  else if n <? 100 then "00" +:+ JS.toString n
  else if n <? 1000 then "0" +:+ JS.toString n
  else JS.toString n.

Definition day (d : JS.Date) : string :=
  match d with
  | JS.Instant ms =>
      let '(y, m, d') := civil_from_days (ms / 86400000) in
      pad4 y +:+ "-" +:+ pad2 m +:+ "-" +:+ pad2 d'
  | JS.InvalidDate => "Invalid date"
  end.

Definition hm (d : JS.Date) : string :=
  match d with
  | JS.Instant ms =>
      let minutes := (ms mod 86400000) / 60000 in
      pad2 (minutes / 60) +:+ ":" +:+ pad2 (minutes mod 60)
  | JS.InvalidDate => "Invalid date"
  end.

Definition QUOTE : string := String (Ascii.ascii_of_nat 34) EmptyString.

(** The server replays [script]; when the script is over, the network is
    down. *)
Definition scripted (script : list HttpOutcome) (req : Request)
  : HttpOutcome * list HttpOutcome :=
  match script with
  | o :: rest => (o, rest)
  | [] => (Failed "net::ERR_INTERNET_DISCONNECTED", [])
  end.

(** Base64 of a text of ASCII characters; any other character is refused. *)
Definition b64_digit (n : N) : string :=
  String.substring (N.to_nat n) 1
    "ABCDEFGHIJKLMNOPQRSTUVWXYZabcdefghijklmnopqrstuvwxyz0123456789+/".

Fixpoint b64 (bytes : list N) : string :=
  match bytes with
  | [] => ""
  | [a] =>
      b64_digit (a / 4) +:+ b64_digit (a mod 4 * 16) +:+ "=="
  | [a; b] =>
      b64_digit (a / 4) +:+ b64_digit (a mod 4 * 16 + b / 16)
      +:+ b64_digit (b mod 16 * 4) +:+ "="
  | a :: b :: c :: rest =>
      b64_digit (a / 4) +:+ b64_digit (a mod 4 * 16 + b / 16)
      +:+ b64_digit (b mod 16 * 4 + c / 64) +:+ b64_digit (c mod 64)
      +:+ b64 rest
  end%N.

Fixpoint codes (s : string) : list N :=
  match s with
  | EmptyString => []
  | String c s' => Ascii.N_of_ascii c :: codes s'
  end.

Definition base64 (s : string) : Result string :=
  if forallb (fun n => (n <? 128)%N) (codes s) then Ok (b64 (codes s))
  else Throw "InvalidCharacterError: Invalid character".

(** The printer refuses an event with an invalid date; what it prints is cut
    down to the lines that identify the event. *)
Definition valid (d : IcsDateObject) : bool :=
  match d_date d with
  | JS.Instant _ => true
  | JS.InvalidDate => false
  end.

Definition printable (e : IcsEvent) : bool :=
  valid (start e) && match end_ e with Some d => valid d | None => true end.

Definition CRLF : string := String (Ascii.ascii_of_nat 13) LF.

Fixpoint ics_lines (lines : list string) : string :=
  match lines with
  | [] => ""
  | l :: rest => l +:+ CRLF +:+ ics_lines rest
  end.

Definition vcalendar (vevents : list (list string)) : string :=
  ics_lines (["BEGIN:VCALENDAR"; "VERSION:2.0";
              "PRODID:-//Example Corp.//CalDAV Client//EN"]
             ++ concat (map (fun v => ["BEGIN:VEVENT"] ++ v ++ ["END:VEVENT"])
                            vevents)
             ++ ["END:VCALENDAR"])%list.

Definition generate (cal : IcsCalendar) : Result string :=
  if forallb printable (default [] (events cal)) then
    Ok (vcalendar
          (map (fun e => ["UID:" +:+ uid e;
                          "SUMMARY:" +:+ JS.template (ev_summary e)])
               (default [] (events cal))))
  else Throw "RangeError: Invalid time value".

(** The vault refuses to create a note where there is one. *)
Definition refuse_existing (v : gmap string TFile) (path : string)
  : option string :=
  match v !! path with
  | Some _ => Some "File already exists."
  | None => None
  end.

(** The front matter is printed as [key: value] lines between two
    delimiter lines; the text after the old front matter is kept. *)
Definition rewrite (f : TFile) (fm : gmap string string) : string * nat :=
  let block :=
    "---" +:+ LF
    +:+ join_lines (map (fun kv => fst kv +:+ ": " +:+ snd kv) (map_to_list fm))
    +:+ LF +:+ "---" in
  let old_end :=
    match fileCache f with
    | Some md => frontmatterEnd md
    | None => 0%nat
    end in
  (block +:+ JS.slice old_end (content f), String.length block).

Definition host (ics : string -> Result IcsCalendar) : Host (list HttpOutcome) :=
  {| requestUrl := scripted;
     uuidv4 := fun n => "3f2c1a7e-5b4d-4c8e-9a6f-00000000000"
                        +:+ JS.toString (Z.of_nat n mod 10);
     clock := fun n => JS.Instant (1714550000000 + 1000 * Z.of_nat n);
     parseDate := parse;
     formatDay := day;
     formatHM := hm;
     generateIcsCalendar := generate;
     convertIcsCalendar := ics;
     btoa := base64;
     jsonString := fun s => QUOTE +:+ s +:+ QUOTE;
     create_refused := refuse_existing;
     indexNote := fun _ => None;
     rewriteFrontMatter := rewrite |}.

Definition cfg : ObsidianCalDAVPluginSettings :=
  {| eventsDirectory := "Calendar";
     yandexUsername := "user";
     yandexAppPassword := "secret";
     yandexCalendarUrl := "https://cal.example/events" |}.

(** A world with the given notes and server script. *)
Definition world (notes : gmap string TFile) (script : list HttpOutcome)
  : @World (list HttpOutcome) :=
  Build_World cfg notes script 0 0 [] [] [] [].

(** The note of the spec's first scenario and the record read from it. *)
Definition standup_frontmatter : gmap string string :=
  <["type" := "calendar-event"]>
    (<["date" := "2024-05-01"]> (<["start_time" := "10:00"]> ∅)).

Definition standup_block : string :=
  join_lines ["---"; "type: calendar-event"; "date: 2024-05-01";
              "start_time: 10:00"; "---"].

Definition standup_note : TFile :=
  {| basename := "Standup";
     content := standup_block +:+ LF +:+ "Daily sync";
     fileCache :=
       Some {| frontmatter := Some standup_frontmatter;
               frontmatterEnd := String.length standup_block |} |}.

Definition standup : ObsidianEvent :=
  {| date := "2024-05-01"; start_time := Some "10:00"; end_time := None;
     summary := "Standup"; description := "Daily sync"; location := None;
     url := None; guid := None |}.

(** An all-day record that was synchronised before. *)
Definition trip_frontmatter : gmap string string :=
  <["type" := "calendar-event"]>
    (<["date" := "2024-05-02"]>
       (<["end_time" := "18:00"]>
          (<["location" := "Oslo"]> (<["guid" := "local-1"]> ∅)))).

Definition trip_block : string :=
  join_lines ["---"; "type: calendar-event"; "date: 2024-05-02";
              "end_time: 18:00"; "location: Oslo"; "guid: local-1"; "---"].

Definition trip_note : TFile :=
  {| basename := "Trip";
     content := trip_block +:+ LF +:+ "pack";
     fileCache :=
       Some {| frontmatter := Some trip_frontmatter;
               frontmatterEnd := String.length trip_block |} |}.

Definition trip : ObsidianEvent :=
  {| date := "2024-05-02"; start_time := None; end_time := Some "18:00";
     summary := "Trip"; description := "pack"; location := Some "Oslo";
     url := None; guid := Some "local-1" |}.

Definition notes : gmap string TFile :=
  <["Calendar/Standup.md" := standup_note]>
    (<["Calendar/Trip.md" := trip_note]> ∅).

(** Remote events, as the ICS parser returns them. *)
Definition remote (uid' summary' : string) (start' : IcsDateObject)
    (end' : option IcsDateObject) : IcsEvent :=
  {| ev_summary := Some summary'; ev_description := None; uid := uid';
     created := None; stamp := None; ev_location := None;
     start := start'; end_ := end';
     ev_url := Some ("https://cal.example/" +:+ uid') |}.

Definition at_ (s : string) (ty : DateType) : IcsDateObject :=
  {| d_date := parse s; d_type := Some ty |}.

Definition abc : IcsEvent :=
  remote "abc" "Review" (at_ "2024-05-03T09:00:00" DATE_TIME)
         (Some (at_ "2024-05-03T09:30:00" DATE_TIME)).

Definition overnight : IcsEvent :=
  remote "night-7" "Night shift" (at_ "2024-05-04T22:00:00" DATE_TIME)
         (Some (at_ "2024-05-05T06:00:00" DATE_TIME)).

Definition festival : IcsEvent :=
  remote "fest-3" "Festival: day 1/3" (at_ "2024-06-01" DATE)
         (Some (at_ "2024-06-04" DATE)).

Definition known_remote : IcsEvent :=
  remote "local-1" "Trip" (at_ "2024-05-02" DATE) (Some (at_ "2024-05-03" DATE)).

(** An all-day event that has no SUMMARY line. *)
Definition untitled : IcsEvent :=
  {| ev_summary := None; ev_description := None; uid := "anon-9";
     created := None; stamp := None; ev_location := None;
     start := at_ "2024-06-10" DATE; end_ := Some (at_ "2024-06-11" DATE);
     ev_url := None |}.

Definition calendar_of (values : list IcsEvent) : IcsCalendar :=
  {| prodId := "-//Example Corp.//CalDAV Client//EN"; version := "2.0";
     events := Some values |}.

Definition no_events : IcsCalendar :=
  {| prodId := "-//Example Corp.//CalDAV Client//EN"; version := "2.0";
     events := None |}.

(** The texts the server sends. *)
Definition abc_lines : list string :=
  ["UID:abc"; "DTSTART:20240503T090000Z"; "DTEND:20240503T093000Z";
   "SUMMARY:Review"; "URL:https://cal.example/abc"].

Definition overnight_lines : list string :=
  ["UID:night-7"; "DTSTART:20240504T220000Z"; "DTEND:20240505T060000Z";
   "SUMMARY:Night shift"; "URL:https://cal.example/night-7"].

Definition festival_lines : list string :=
  ["UID:fest-3"; "DTSTART;VALUE=DATE:20240601"; "DTEND;VALUE=DATE:20240604";
   "SUMMARY:Festival: day 1/3"; "URL:https://cal.example/fest-3"].

Definition known_lines : list string :=
  ["UID:local-1"; "DTSTART;VALUE=DATE:20240502"; "DTEND;VALUE=DATE:20240503";
   "SUMMARY:Trip"; "URL:https://cal.example/local-1"].

Definition untitled_lines : list string :=
  ["UID:anon-9"; "DTSTART;VALUE=DATE:20240610"; "DTEND;VALUE=DATE:20240611"].

Definition VERIFY : string := vcalendar [abc_lines].
Definition VERIFY_TRIP : string := vcalendar [known_lines].
Definition COLLECTION : string :=
  vcalendar [known_lines; overnight_lines; festival_lines; abc_lines].
Definition UNTITLED : string := vcalendar [untitled_lines].
Definition NO_EVENTS : string := vcalendar [].

(** A WebDAV answer that is not a calendar text. *)
Definition MULTISTATUS : string :=
  "<?xml version='1.0' encoding='utf-8'?><D:multistatus xmlns:D='DAV:'/>".

Definition collection : list IcsEvent :=
  [known_remote; overnight; festival; abc].

(** The parser as a table of the texts above; any other text is refused. *)
Definition ics (body : string) : Result IcsCalendar :=
  if String.eqb body VERIFY then Ok (calendar_of [abc])
  else if String.eqb body VERIFY_TRIP then Ok (calendar_of [known_remote])
  else if String.eqb body COLLECTION then Ok (calendar_of collection)
  else if String.eqb body UNTITLED then Ok (calendar_of [untitled])
  else if String.eqb body NO_EVENTS then Ok no_events
  else Throw "Error: the text is not a calendar".

Definition answer (st : Z) (body : string) : HttpOutcome :=
  Responded {| status := st; text := body |}.

Definition standard : Host (list HttpOutcome) := host ics.

(** A host whose parser finds an empty list of events in every text. *)
Definition empty_host : Host (list HttpOutcome) :=
  host (fun _ => Ok (calendar_of [])).

(** What the push phase leaves on a world, for stating results. *)
Definition known_and_world (w : @World (list HttpOutcome))
  : gset string * @World (list HttpOutcome) :=
  match push_phase (H := standard) w with
  | (Ok my_set, w') => (my_set, w')
  | (Throw _, w') => (∅, w')
  end.

(** The two notes, with both pushes and the fetch answered 2xx: the two
    PUTs are answered first, then the two verifying PROPFINDs. *)
Definition all_accepted : @World (list HttpOutcome) :=
  world notes [answer 201 ""; answer 201 "";
               answer 207 VERIFY; answer 207 VERIFY_TRIP;
               answer 207 COLLECTION].

(** The two notes, with both pushes answered 500 and the network down
    afterwards. *)
Definition all_rejected : @World (list HttpOutcome) :=
  world notes [answer 500 ""; answer 500 ""].

(** The worlds the pass goes through on [all_accepted]. *)
Definition after_push : @World (list HttpOutcome) :=
  snd (known_and_world all_accepted).

Definition after_fetch : @World (list HttpOutcome) :=
  snd (fetchCalendar (H := standard) after_push).

Definition after_pass : @World (list HttpOutcome) :=
  snd (sync_all_events (H := standard) all_accepted).

(** The event [syncEvent] builds for a record in a world, and the world it
    builds it in. *)
Definition built (r : ObsidianEvent) (w : @World (list HttpOutcome))
  : IcsEvent :=
  match fst (toIcsEvent (H := standard) r w) with
  | Ok ev => ev
  | Throw _ => abc
  end.

Definition after_build (r : ObsidianEvent) (w : @World (list HttpOutcome))
  : @World (list HttpOutcome) :=
  snd (toIcsEvent (H := standard) r w).

(** What the PUT of a record carries in a world: the credentials and the
    calendar text. *)
Definition auth : string := "dXNlcjpzZWNyZXQ=".

Definition printed (r : ObsidianEvent) (w : @World (list HttpOutcome))
  : string :=
  match generate (single_event_calendar (built r w)) with
  | Ok s => s
  | Throw _ => ""
  end.

(** A note that is not an event, and a vault that holds it next to the two
    event notes. *)
Definition todo_note : TFile :=
  {| basename := "Todo"; content := "buy milk"; fileCache := None |}.

Definition mixed_notes : gmap string TFile :=
  <["Calendar/Todo.md" := todo_note]> notes.

(** One accepted push of [Standup]. *)
Definition one_accepted : @World (list HttpOutcome) :=
  world notes [answer 201 ""; answer 207 VERIFY].

(** A push of [Standup] that the server accepts and verifies with a text
    that is not a calendar. *)
Definition unreadable : @World (list HttpOutcome) :=
  world notes [answer 201 ""; answer 207 MULTISTATUS].

(** A record whose end time is before its start time. *)
Definition late_start : ObsidianEvent :=
  {| date := "2024-05-01"; start_time := Some "10:00";
     end_time := Some "09:00"; summary := "Standup";
     description := "Daily sync"; location := None;
     url := None; guid := None |}.

(** A record whose date cannot be parsed, and a note that holds it. *)
Definition undated : ObsidianEvent :=
  {| date := "next week"; start_time := Some "10:00"; end_time := None;
     summary := "Someday"; description := ""; location := None;
     url := None; guid := None |}.

Definition undated_note : TFile :=
  {| basename := "Someday";
     content := "---";
     fileCache :=
       Some {| frontmatter :=
                 Some (<["type" := "calendar-event"]>
                         (<["date" := "next week"]>
                            (<["start_time" := "10:00"]> ∅)));
               frontmatterEnd := 3 |} |}.

(** The texts of the notes that the import makes for [festival], [abc] and
    [open_ended]. *)
Definition quoted (s : string) : string := QUOTE +:+ s +:+ QUOTE.

Definition festival_text : string :=
  join_lines ["---";
              "type: " +:+ quoted "calendar-event";
              "date: " +:+ quoted "2024-06-01";
              "guid: " +:+ quoted "fest-3";
              "url: " +:+ quoted "https://cal.example/fest-3";
              "location: undefined";
              "---"; ""; ""].

Definition review_text : string :=
  join_lines ["---";
              "type: " +:+ quoted "calendar-event";
              "date: " +:+ quoted "2024-05-03";
              "guid: " +:+ quoted "abc";
              "url: " +:+ quoted "https://cal.example/abc";
              "location: undefined";
              "start_time: " +:+ quoted "09:00";
              "end_time: " +:+ quoted "09:30";
              "---"; ""; ""].

Definition call_text : string :=
  join_lines ["---";
              "type: " +:+ quoted "calendar-event";
              "date: " +:+ quoted "2024-05-06";
              "guid: " +:+ quoted "open-5";
              "url: " +:+ quoted "https://cal.example/open-5";
              "location: undefined";
              "start_time: " +:+ quoted "14:00";
              "---"; ""; ""].

(** A timed event without an end. *)
Definition open_ended : IcsEvent :=
  remote "open-5" "Call" (at_ "2024-05-06T14:00:00" DATE_TIME) None.

End TestHost.

(** * Properties *)

(** ** The concrete host reads, prints and encodes as expected *)

Example parse_date_only :
  TestHost.parse "2024-05-01" = JS.Instant 1714521600000.
Proof. reflexivity. Qed.

Example parse_date_time :
  TestHost.parse "2024-05-01T10:00:00" = JS.Instant 1714557600000.
Proof. reflexivity. Qed.

Example format_day_hm :
  TestHost.day (JS.Instant 1714557600000) = "2024-05-01"
  /\ TestHost.hm (JS.Instant 1714557600000) = "10:00".
Proof. vm_compute. split; reflexivity. Qed.

Example base64_credentials :
  TestHost.base64 (credentials TestHost.cfg) = Ok TestHost.auth.
Proof. vm_compute. reflexivity. Qed.

Example standup_note_read :
  tryCreateObsidianEvent (basename TestHost.standup_note)
    (fileCache TestHost.standup_note) (content TestHost.standup_note)
  = Some TestHost.standup.
Proof. vm_compute. reflexivity. Qed.

(** ** Strings *)

Lemma append_cons (c : Ascii.ascii) (a b : string) :
  String c a +:+ b = String c (a +:+ b).
Proof. reflexivity. Qed.

Lemma append_nil_r (s : string) : s +:+ "" = s.
Proof.
  induction s as [|c s IH]; [reflexivity|]. rewrite append_cons, IH. reflexivity.
Qed.

Lemma append_assoc (a b c : string) : (a +:+ b) +:+ c = a +:+ (b +:+ c).
Proof.
  induction a as [|x a IH]; [reflexivity|]. rewrite !append_cons, IH. reflexivity.
Qed.

Lemma rev_app_append (a b acc : string) :
  String.rev_app (a +:+ b) acc = String.rev_app b (String.rev_app a acc).
Proof.
  revert acc. induction a as [|x a IH]; intros acc; [reflexivity|].
  rewrite append_cons. simpl. apply IH.
Qed.

Lemma slice_append (a b : string) : JS.slice (String.length a) (a +:+ b) = b.
Proof.
  induction a as [|x a IH]; [destruct b; reflexivity|].
  rewrite append_cons. simpl. exact IH.
Qed.

Lemma startsWith_iff (s p : string) :
  JS.startsWith s p = true <-> exists rest, s = p +:+ rest.
Proof.
  unfold JS.startsWith. revert p. induction s as [|d s IH]; intros [|c p]; simpl.
  - split; [exists ""; reflexivity | reflexivity].
  - split; [discriminate | intros [rest Hr]; discriminate].
  - split; [exists (String d s); reflexivity | reflexivity].
  - destruct (Ascii.ascii_dec c d) as [->|Hne].
    + rewrite IH. split; intros [rest Hr]; exists rest.
      * rewrite append_cons. congruence.
      * rewrite append_cons in Hr. congruence.
    + split; [discriminate|]. intros [rest Hr].
      rewrite append_cons in Hr. congruence.
Qed.

Lemma endsWith_slash (s : string) : JS.endsWith (s +:+ "/") "/" = true.
Proof.
  unfold JS.endsWith, String.rev. rewrite rev_app_append. simpl.
  destruct (Ascii.ascii_dec "/" "/"); [|congruence].
  destruct (String.rev_app s ""); reflexivity.
Qed.

(** ** The mapper *)

Section MapperFacts.

Context {Server : Type} `{H : Host Server}.
Local Abbreviation World := (@World Server).
Local Abbreviation M := (@M Server).

Lemma truthy_Some (s : string) : JS.truthy (Some s) = true <-> s <> "".
Proof.
  unfold JS.truthy. destruct (String.eqb_spec s ""); simpl; split; congruence.
Qed.

Lemma truthy_false (v : option string) :
  JS.truthy v = false <-> v = None \/ v = Some "".
Proof.
  destruct v as [s|]; simpl.
  - destruct (String.eqb_spec s "") as [->|Hne]; simpl.
    + split; auto.
    + split; [discriminate|]. intros [Hv|Hv]; congruence.
  - split; auto.
Qed.

(** Adding to a valid date stays exact as long as the sum is a time value. *)
Lemma date_after_exact (t ms : Z) :
  Z.abs (t + ms) <= JS.MAX_TIME ->
  date_after (JS.Instant t) ms = JS.Instant (t + ms).
Proof.
  intros Hr. unfold date_after. simpl.
  destruct (Z.leb_spec (Z.abs (t + ms)) JS.MAX_TIME); [reflexivity | lia].
Qed.

(** The uid chosen for a record, as a function of the world it runs in. *)
Lemma event_uid_reused (r : ObsidianEvent) (g : string) (w : World) :
  guid r = Some g -> g <> "" -> event_uid r w = (Ok g, w).
Proof.
  intros Hg Hne. unfold event_uid. rewrite Hg.
  apply truthy_Some in Hne. rewrite Hne. reflexivity.
Qed.

Lemma event_uid_fresh (r : ObsidianEvent) (w : World) :
  JS.truthy (guid r) = false ->
  event_uid r w = (Ok (uuidv4 (uuid_calls w) +:+ UID_NAMESPACE),
                   set_uuid_calls (S (uuid_calls w)) w).
Proof.
  intros Hf. unfold event_uid. destruct (guid r) as [g|]; [|reflexivity].
  rewrite Hf. reflexivity.
Qed.

(** [toIcsEvent] always returns, and everything but the uid is a function of
    the record and the clock. *)
Lemma toIcsEvent_run (r : ObsidianEvent) (w : World) :
  exists u w',
    event_uid r (set_clock_reads (S (clock_reads w)) w) = (Ok u, w')
    /\ toIcsEvent r w =
       (Ok {| ev_summary := Some (summary r);
              ev_description := Some (description r);
              uid := u;
              created := Some {| d_date := clock (clock_reads w); d_type := None |};
              stamp := Some {| d_date := clock (clock_reads w); d_type := None |};
              ev_location := location r;
              start := fst (event_dates r);
              end_ := Some (snd (event_dates r));
              ev_url := None |}, w').
Proof.
  unfold toIcsEvent, bind, now.
  destruct (JS.truthy (guid r)) eqn:Hg.
  - destruct (guid r) as [g|] eqn:Eg; [|discriminate].
    apply truthy_Some in Hg.
    exists g, (set_clock_reads (S (clock_reads w)) w).
    rewrite (event_uid_reused r g _ Eg Hg).
    destruct (event_dates r); split; reflexivity.
  - eexists _, _. rewrite (event_uid_fresh r _ Hg).
    destruct (event_dates r); split; reflexivity.
Qed.

(** Building the event reads the clock and may call the generator; it
    changes nothing else. *)
Lemma toIcsEvent_frame (r : ObsidianEvent) (w : World) (ev : IcsEvent) (w1 : World) :
  toIcsEvent r w = (Ok ev, w1) ->
  vault w1 = vault w /\ settings w1 = settings w /\ server w1 = server w
  /\ notices w1 = notices w /\ console w1 = console w
  /\ creations w1 = creations w /\ pending w1 = pending w.
Proof.
  intros Hev. destruct (toIcsEvent_run r w) as (u & w' & Hu & Hrun).
  rewrite Hrun in Hev. injection Hev as _ <-.
  unfold event_uid in Hu.
  destruct (guid r) as [g|]; [destruct (JS.truthy (Some g))|];
    injection Hu as _ <-; auto 10.
Qed.

End MapperFacts.

(** C7.  A record with a non-empty guid is mapped to an event whose uid is
    that guid, and the identifier generator is not called; a record whose
    guid is absent or empty gets the uid [<uuidv4()>@obsidian.md], made from
    one call of the generator. *)
Theorem toIcsEvent_uid {Server : Type} `{H : Host Server}
    (r : ObsidianEvent) (w : World) :
  (forall g, guid r = Some g -> g <> "" ->
     exists ev w', toIcsEvent r w = (Ok ev, w')
                   /\ uid ev = g
                   /\ uuid_calls w' = uuid_calls w)
  /\ (guid r = None \/ guid r = Some "" ->
      exists ev w', toIcsEvent r w = (Ok ev, w')
                    /\ uid ev = uuidv4 (uuid_calls w) +:+ "@obsidian.md"
                    /\ uuid_calls w' = S (uuid_calls w)).
Proof.
  destruct (toIcsEvent_run r w) as (u & w' & Hu & Hrun). split.
  - intros g Hg Hne. rewrite (event_uid_reused r g _ Hg Hne) in Hu.
    injection Hu as <- <-. eexists _, _. split; [exact Hrun|]. split; reflexivity.
  - intros Hf. apply truthy_false in Hf.
    rewrite (event_uid_fresh r _ Hf) in Hu.
    injection Hu as <- <-. eexists _, _. split; [exact Hrun|]. split; reflexivity.
Qed.

Lemma toIcsEvent_uid_witness :
  (exists ev w',
     toIcsEvent (H := TestHost.standard) TestHost.trip (TestHost.world ∅ [])
     = (Ok ev, w')
     /\ uid ev = "local-1"
     /\ uuid_calls w' = 0%nat)
  /\ (exists ev w',
        toIcsEvent (H := TestHost.standard) TestHost.standup (TestHost.world ∅ [])
        = (Ok ev, w')
        /\ uid ev = "3f2c1a7e-5b4d-4c8e-9a6f-000000000000@obsidian.md"
        /\ uuid_calls w' = 1%nat).
Proof.
  split.
  - apply (proj1 (toIcsEvent_uid (H := TestHost.standard) TestHost.trip
                    (TestHost.world ∅ [])) "local-1");
      [reflexivity | discriminate].
  - apply (proj2 (toIcsEvent_uid (H := TestHost.standard) TestHost.standup
                    (TestHost.world ∅ []))).
    left. reflexivity.
Defined.

(** C8.  A record with a start time and no end time is mapped to an event
    whose start is the date-time [<date>T<start_time>:00], typed DATE-TIME,
    and whose end is typed DATE-TIME and is [new Date(start.getTime() +
    3600000)]: exactly one hour after the start whenever that instant is a
    time value. *)
Theorem toIcsEvent_default_end {Server : Type} `{H : Host Server}
    (r : ObsidianEvent) (w : World) :
  JS.truthy (start_time r) = true ->
  JS.truthy (end_time r) = false ->
  exists ev w' s e,
    toIcsEvent r w = (Ok ev, w')
    /\ start ev = {| d_date := s; d_type := Some DATE_TIME |}
    /\ end_ ev = Some {| d_date := e; d_type := Some DATE_TIME |}
    /\ s = parseDate (date r +:+ "T" +:+ JS.template (start_time r) +:+ ":00")
    /\ e = JS.newDate (JS.plus (JS.getTime s) 3600000)
    /\ (forall t, s = JS.Instant t -> Z.abs (t + 3600000) <= JS.MAX_TIME ->
                  e = JS.Instant (t + 3600000)).
Proof.
  intros Hs He. destruct (toIcsEvent_run r w) as (u & w' & _ & Hrun).
  eexists _, w', _, _. split; [exact Hrun|].
  unfold event_dates. rewrite Hs, He. simpl.
  repeat split; try reflexivity.
  intros t Ht Hr. rewrite Ht. apply (date_after_exact t 3600000 Hr).
Qed.

Lemma toIcsEvent_default_end_witness :
  exists ev w',
    toIcsEvent (H := TestHost.standard) TestHost.standup (TestHost.world ∅ [])
    = (Ok ev, w')
    /\ start ev = {| d_date := JS.Instant 1714557600000; d_type := Some DATE_TIME |}
    /\ end_ ev = Some {| d_date := JS.Instant 1714561200000; d_type := Some DATE_TIME |}.
Proof.
  destruct (toIcsEvent_default_end (H := TestHost.standard)
              TestHost.standup (TestHost.world ∅ []) eq_refl eq_refl)
    as (ev & w' & s & e & Hrun & Hs & He & Es & Ee & Hexact).
  exists ev, w'. split; [exact Hrun|].
  assert (Hi : s = JS.Instant 1714557600000) by (rewrite Es; reflexivity).
  split; [rewrite Hs, Hi; reflexivity|].
  rewrite He, (Hexact 1714557600000 Hi); [reflexivity|].
  vm_compute. discriminate.
Defined.

(** C9.  A record without a start time is mapped to an event whose start is
    [new Date(date)], the record's date with no time of day, typed DATE, and
    whose end is typed DATE and is [new Date(start.getTime() + 86400000)]:
    exactly one day after the start whenever that instant is a time value.
    No other field of the record takes part. *)
Theorem toIcsEvent_all_day {Server : Type} `{H : Host Server}
    (r : ObsidianEvent) (w : World) :
  JS.truthy (start_time r) = false ->
  exists ev w' e,
    toIcsEvent r w = (Ok ev, w')
    /\ start ev = {| d_date := parseDate (date r); d_type := Some DATE |}
    /\ end_ ev = Some {| d_date := e; d_type := Some DATE |}
    /\ e = JS.newDate (JS.plus (JS.getTime (parseDate (date r))) 86400000)
    /\ (forall t, parseDate (date r) = JS.Instant t ->
                  Z.abs (t + 86400000) <= JS.MAX_TIME ->
                  e = JS.Instant (t + 86400000)).
Proof.
  intros Hs. destruct (toIcsEvent_run r w) as (u & w' & _ & Hrun).
  eexists _, w', _. split; [exact Hrun|].
  unfold event_dates. rewrite Hs. simpl.
  repeat split; try reflexivity.
  intros t Ht Hr. rewrite Ht. apply (date_after_exact t 86400000 Hr).
Qed.

Lemma toIcsEvent_all_day_witness :
  exists ev w',
    toIcsEvent (H := TestHost.standard) TestHost.trip (TestHost.world ∅ [])
    = (Ok ev, w')
    /\ start ev = {| d_date := JS.Instant 1714608000000; d_type := Some DATE |}
    /\ end_ ev = Some {| d_date := JS.Instant 1714694400000; d_type := Some DATE |}.
Proof.
  destruct (toIcsEvent_all_day (H := TestHost.standard)
              TestHost.trip (TestHost.world ∅ []) eq_refl)
    as (ev & w' & e & Hrun & Hs & He & Ee & Hexact).
  exists ev, w'. split; [exact Hrun|].
  split; [rewrite Hs; reflexivity|].
  rewrite He, (Hexact 1714608000000); [reflexivity | reflexivity |].
  vm_compute. discriminate.
Defined.

(** ** The client *)

Section ClientFacts.

Context {Server : Type} `{H : Host Server}.
Local Abbreviation World := (@World Server).
Local Abbreviation M := (@M Server).

Lemma status_table_ok :
  forallb (fun st =>
             Bool.eqb (JS.startsWith (JS.toString st) "2")
                      ((200 <=? st) && (st <=? 299)))
          status_table = true.
Proof. vm_compute. reflexivity. Qed.

(** On HTTP statuses the test of the source is the test for 2xx. *)
Lemma status_ok_iff (r : Response) :
  http_status (status r) -> (status_ok r = true <-> is_2xx (status r)).
Proof.
  intros [Hlo Hhi]. unfold status_ok, is_2xx.
  pose proof (proj1 (forallb_forall _ _) status_table_ok (status r)) as Ht.
  assert (Hin : In (status r) status_table).
  { unfold status_table. rewrite <- (Z2Nat.id (status r)) by lia.
    apply in_map, in_seq. lia. }
  specialize (Ht Hin). apply Bool.eqb_prop in Ht. rewrite Ht.
  rewrite andb_true_iff, Z.leb_le, Z.leb_le. reflexivity.
Qed.

Lemma status_ok_2xx (r : Response) : is_2xx (status r) -> status_ok r = true.
Proof.
  intros Hr. apply status_ok_iff; [unfold http_status, is_2xx in *; lia | exact Hr].
Qed.

Lemma status_ok_other (r : Response) :
  http_status (status r) -> ~ is_2xx (status r) -> status_ok r = false.
Proof.
  intros Hh Hn. destruct (status_ok r) eqn:E; [|reflexivity].
  apply status_ok_iff in E; tauto.
Qed.

(** [await requestUrl(req)], by what the server does with the request. *)
Lemma request_run (req : Request) (w : World) :
  request req w
  = match requestUrl (server w) req with
    | (Responded r, s') => (Ok r, set_server s' w)
    | (Failed e, s') => (Throw e, set_server s' w)
    end.
Proof.
  unfold request, bind, send, receive.
  destruct (requestUrl (server w) req) as [[r|e] s']; reflexivity.
Qed.

(** [syncEvent] once the event is built and printed and the credentials are
    encoded: what is left is the [try] block. *)
Lemma syncEvent_unfold (r : ObsidianEvent) (w : World) (ev : IcsEvent)
    (w1 : World) (ics auth : string) :
  toIcsEvent r w = (Ok ev, w1) ->
  generateIcsCalendar (single_event_calendar ev) = Ok ics ->
  btoa (credentials (settings w1)) = Ok auth ->
  syncEvent r w =
  try_catch
    (let* response_on_put := request (put_request (settings w1) auth ics ev) in
     if status_ok response_on_put then
       let* response_on_check := request (check_request (settings w1) auth ev) in
       if status_ok response_on_check then
         let* calendar := call (convertIcsCalendar (text response_on_check)) in
         ret (true, confirmed r ev calendar)
       else ret (false, r)
     else ret (false, r))
    (fun error => console_error SYNC_ERROR error ;; ret (false, r)) w1.
Proof.
  intros Hev Hics Hauth. unfold syncEvent at 1, bind at 1. rewrite Hev.
  unfold bind at 1, call at 1. rewrite Hics.
  unfold bind at 1, gets. unfold bind at 1, call at 1. rewrite Hauth.
  reflexivity.
Qed.

(** A failed push: [false], the record as it was, no exception, and a world
    that differs only by the server and the console. *)
Lemma syncEvent_failure (r : ObsidianEvent) (w : World) (ev : IcsEvent)
    (w1 : World) (ics auth : string) (s' : Server) (err : option string) :
  toIcsEvent r w = (Ok ev, w1) ->
  generateIcsCalendar (single_event_calendar ev) = Ok ics ->
  btoa (credentials (settings w1)) = Ok auth ->
  push_fails (settings w1) auth ics ev (server w1) s' err ->
  syncEvent r w = (Ok (false, r), after_failure s' err w1).
Proof.
  intros Hev Hics Hauth Hf.
  rewrite (syncEvent_unfold r w ev w1 ics auth Hev Hics Hauth).
  unfold try_catch, bind at 1. rewrite request_run.
  destruct Hf as [e s1 Hp | p s1 Hp Hh Hn | p s1 e s2 Hp Hok Hc
                 | p s1 c s2 Hp Hok Hc Hh Hn]; rewrite Hp.
  - reflexivity.
  - rewrite (status_ok_other p Hh Hn). reflexivity.
  - rewrite (status_ok_2xx p Hok). unfold bind at 1. rewrite request_run.
    cbn [server set_server]. rewrite Hc. reflexivity.
  - rewrite (status_ok_2xx p Hok). unfold bind at 1. rewrite request_run.
    cbn [server set_server]. rewrite Hc.
    rewrite (status_ok_other c Hh Hn). reflexivity.
Qed.

(** An accepted push whose verify answer the parser reads: [true], and the
    record with its guid and url assigned. *)
Lemma syncEvent_accepted (r : ObsidianEvent) (w : World) (ev : IcsEvent)
    (w1 : World) (ics auth : string) (put chk : Response) (s1 s2 : Server)
    (calendar : IcsCalendar) :
  toIcsEvent r w = (Ok ev, w1) ->
  generateIcsCalendar (single_event_calendar ev) = Ok ics ->
  btoa (credentials (settings w1)) = Ok auth ->
  requestUrl (server w1) (put_request (settings w1) auth ics ev)
  = (Responded put, s1) ->
  is_2xx (status put) ->
  requestUrl s1 (check_request (settings w1) auth ev) = (Responded chk, s2) ->
  is_2xx (status chk) ->
  convertIcsCalendar (text chk) = Ok calendar ->
  syncEvent r w = (Ok (true, confirmed r ev calendar), set_server s2 w1).
Proof.
  intros Hev Hics Hauth Hput Hp Hchk Hc Hcal.
  rewrite (syncEvent_unfold r w ev w1 ics auth Hev Hics Hauth).
  unfold try_catch, bind at 1. rewrite request_run, Hput.
  rewrite (status_ok_2xx put Hp). unfold bind at 1. rewrite request_run.
  cbn [server set_server]. rewrite Hchk.
  rewrite (status_ok_2xx chk Hc). unfold bind, call. rewrite Hcal.
  reflexivity.
Qed.

(** An accepted push whose verify answer the parser cannot read: the error
    is caught and logged, and the push counts as failed. *)
Lemma syncEvent_unreadable (r : ObsidianEvent) (w : World) (ev : IcsEvent)
    (w1 : World) (ics auth : string) (put chk : Response) (s1 s2 : Server)
    (e : string) :
  toIcsEvent r w = (Ok ev, w1) ->
  generateIcsCalendar (single_event_calendar ev) = Ok ics ->
  btoa (credentials (settings w1)) = Ok auth ->
  requestUrl (server w1) (put_request (settings w1) auth ics ev)
  = (Responded put, s1) ->
  is_2xx (status put) ->
  requestUrl s1 (check_request (settings w1) auth ev) = (Responded chk, s2) ->
  is_2xx (status chk) ->
  convertIcsCalendar (text chk) = Throw e ->
  syncEvent r w = (Ok (false, r), after_failure s2 (Some e) w1).
Proof.
  intros Hev Hics Hauth Hput Hp Hchk Hc Hcal.
  rewrite (syncEvent_unfold r w ev w1 ics auth Hev Hics Hauth).
  unfold try_catch, bind at 1. rewrite request_run, Hput.
  rewrite (status_ok_2xx put Hp). unfold bind at 1. rewrite request_run.
  cbn [server set_server]. rewrite Hchk.
  rewrite (status_ok_2xx chk Hc). unfold bind, call. rewrite Hcal.
  reflexivity.
Qed.

(** [syncEventFile] on a note that yields a record. *)
Lemma syncEventFile_run (doc : string) (f : TFile) (r : ObsidianEvent)
    (w : World) :
  vault w !! doc = Some f ->
  tryCreateObsidianEvent (basename f) (fileCache f) (content f) = Some r ->
  syncEventFile doc w
  = (let* synced := syncEvent r in
     if fst synced then processFrontMatter doc (store_identifiers (snd synced))
     else ret tt) w.
Proof.
  intros Hdoc Hrec. unfold syncEventFile, bind at 1, read_note, bind at 1, gets.
  rewrite Hdoc. cbn [ret]. rewrite Hrec. reflexivity.
Qed.

End ClientFacts.

(** C3.  When the push fails (the PUT throws or is answered outside 2xx, or
    the verifying PROPFIND throws or is answered outside 2xx), [syncEvent]
    returns [false] without throwing and hands the record back with every
    field as it was; [syncEventFile] then returns without touching the front
    matter of any note: the vault is as it was and no edit is in flight that
    was not before. *)
Theorem syncEvent_failure_keeps_record {Server : Type} `{H : Host Server}
    (r : ObsidianEvent) (w : World) (ev : IcsEvent) (w1 : World)
    (ics auth : string) (s' : Server) (err : option string) :
  toIcsEvent r w = (Ok ev, w1) ->
  generateIcsCalendar (single_event_calendar ev) = Ok ics ->
  btoa (credentials (settings w1)) = Ok auth ->
  push_fails (settings w1) auth ics ev (server w1) s' err ->
  (exists w', syncEvent r w = (Ok (false, r), w')
              /\ vault w' = vault w /\ pending w' = pending w)
  /\ (forall doc f,
        vault w !! doc = Some f ->
        tryCreateObsidianEvent (basename f) (fileCache f) (content f) = Some r ->
        exists w', syncEventFile doc w = (Ok tt, w')
                   /\ vault w' = vault w /\ pending w' = pending w).
Proof.
  intros Hev Hics Hauth Hf.
  pose proof (syncEvent_failure r w ev w1 ics auth s' err Hev Hics Hauth Hf)
    as Hrun.
  destruct (toIcsEvent_frame r w ev w1 Hev) as (Hv & _ & _ & _ & _ & _ & Hp).
  assert (Hvault : vault (after_failure s' err w1) = vault w
                   /\ pending (after_failure s' err w1) = pending w).
  { destruct err; simpl; auto. }
  split.
  - eexists. split; [exact Hrun | exact Hvault].
  - intros doc f Hdoc Hrec. exists (after_failure s' err w1).
    split; [|exact Hvault].
    rewrite (syncEventFile_run doc f r w Hdoc Hrec).
    unfold bind. rewrite Hrun. reflexivity.
Qed.

Lemma syncEvent_failure_keeps_record_witness :
  (exists w',
     syncEvent (H := TestHost.standard) TestHost.standup
       (TestHost.world TestHost.notes [TestHost.answer 500 ""])
     = (Ok (false, TestHost.standup), w')
     /\ vault w' = TestHost.notes /\ pending w' = [])
  /\ (exists w',
        syncEventFile (H := TestHost.standard) "Calendar/Standup.md"
          (TestHost.world TestHost.notes [TestHost.answer 500 ""])
        = (Ok tt, w')
        /\ vault w' = TestHost.notes /\ pending w' = []).
Proof.
  edestruct (syncEvent_failure_keeps_record (H := TestHost.standard)
               TestHost.standup
               (TestHost.world TestHost.notes [TestHost.answer 500 ""]))
    as [A B].
  - vm_compute. reflexivity.
  - vm_compute. reflexivity.
  - vm_compute. reflexivity.
  - eapply put_rejected.
    + vm_compute. reflexivity.
    + vm_compute. split; discriminate.
    + vm_compute. intros [_ Hle]. apply Hle. reflexivity.
  - split; [exact A|].
    apply (B "Calendar/Standup.md" TestHost.standup_note); vm_compute; reflexivity.
Defined.

(** C1, as the code has it.  When the PUT and the verifying PROPFIND of
    [<collection>/<uid>.ics] are both answered 2xx and the parser reads the
    text of the verify answer, [syncEvent] returns [true]; the record's guid
    becomes the uid that was pushed (the record's own guid if it had one,
    else the generated one), and its url becomes the URL of the first VEVENT
    of the verify answer ([undefined] if there is none); the other fields
    are unchanged.  When the parser throws on that text, the error is
    caught and logged, and [syncEvent] returns [false] with the record as it
    was. *)
Theorem syncEvent_success {Server : Type} `{H : Host Server}
    (r : ObsidianEvent) (w : World) (ev : IcsEvent) (w1 : World)
    (ics auth : string) (put chk : Response) (s1 s2 : Server) :
  toIcsEvent r w = (Ok ev, w1) ->
  generateIcsCalendar (single_event_calendar ev) = Ok ics ->
  btoa (credentials (settings w1)) = Ok auth ->
  requestUrl (server w1) (put_request (settings w1) auth ics ev)
  = (Responded put, s1) ->
  is_2xx (status put) ->
  requestUrl s1 (check_request (settings w1) auth ev) = (Responded chk, s2) ->
  is_2xx (status chk) ->
  (forall calendar,
     convertIcsCalendar (text chk) = Ok calendar ->
     exists r',
       syncEvent r w = (Ok (true, r'), set_server s2 w1)
       /\ guid r' = Some (uid ev)
       /\ url r' = first_event_url calendar
       /\ (forall first rest,
             events calendar = Some (first :: rest) -> url r' = ev_url first)
       /\ (date r', start_time r', end_time r', summary r', description r',
           location r')
          = (date r, start_time r, end_time r, summary r, description r,
             location r))
  /\ (forall e,
        convertIcsCalendar (text chk) = Throw e ->
        syncEvent r w
        = (Ok (false, r),
           set_console (console w1 ++ [SYNC_ERROR +:+ " " +:+ e])%list
                       (set_server s2 w1))).
Proof.
  intros Hev Hics Hauth Hput Hp Hchk Hc. split.
  - intros calendar Hcal. exists (confirmed r ev calendar). split.
    + apply (syncEvent_accepted r w ev w1 ics auth put chk s1 s2 calendar);
        assumption.
    + simpl. repeat split.
      intros first rest Hfirst. unfold first_event_url. rewrite Hfirst.
      reflexivity.
  - intros e Hcal.
    apply (syncEvent_unreadable r w ev w1 ics auth put chk s1 s2 e);
      assumption.
Qed.

Lemma syncEvent_success_witness :
  (exists r' w',
     syncEvent (H := TestHost.standard) TestHost.standup TestHost.one_accepted
     = (Ok (true, r'), w')
     /\ guid r' = Some "3f2c1a7e-5b4d-4c8e-9a6f-000000000000@obsidian.md"
     /\ url r' = Some "https://cal.example/abc")
  /\ (exists w',
        syncEvent (H := TestHost.standard) TestHost.standup TestHost.unreadable
        = (Ok (false, TestHost.standup), w')
        /\ console w' = ["Ошибка синхронизации: Error: the text is not a calendar"]).
Proof.
  split.
  - edestruct (syncEvent_success (H := TestHost.standard)
                 TestHost.standup TestHost.one_accepted
                 (TestHost.built TestHost.standup TestHost.one_accepted)
                 (TestHost.after_build TestHost.standup TestHost.one_accepted)
                 (TestHost.printed TestHost.standup TestHost.one_accepted)
                 TestHost.auth
                 {| status := 201; text := "" |}
                 {| status := 207; text := TestHost.VERIFY |}
                 [TestHost.answer 207 TestHost.VERIFY] [])
      as [Hyes _].
    + vm_compute. reflexivity.
    + vm_compute. reflexivity.
    + vm_compute. reflexivity.
    + vm_compute. reflexivity.
    + vm_compute. split; discriminate.
    + vm_compute. reflexivity.
    + vm_compute. split; discriminate.
    + destruct (Hyes (TestHost.calendar_of [TestHost.abc]))
        as (r' & Hrun & Hg & Hu & _); [vm_compute; reflexivity|].
      exists r'. eexists. split; [exact Hrun|]. split.
      * rewrite Hg. reflexivity.
      * rewrite Hu. reflexivity.
  - edestruct (syncEvent_success (H := TestHost.standard)
                 TestHost.standup TestHost.unreadable
                 (TestHost.built TestHost.standup TestHost.unreadable)
                 (TestHost.after_build TestHost.standup TestHost.unreadable)
                 (TestHost.printed TestHost.standup TestHost.unreadable)
                 TestHost.auth
                 {| status := 201; text := "" |}
                 {| status := 207; text := TestHost.MULTISTATUS |}
                 [TestHost.answer 207 TestHost.MULTISTATUS] [])
      as [_ Hno].
    + vm_compute. reflexivity.
    + vm_compute. reflexivity.
    + vm_compute. reflexivity.
    + vm_compute. reflexivity.
    + vm_compute. split; discriminate.
    + vm_compute. reflexivity.
    + vm_compute. split; discriminate.
    + eexists. split; [apply Hno; vm_compute; reflexivity|].
      vm_compute. reflexivity.
Defined.

(** C1, as the claim states it, fails in two ways.  The guid is not read
    back from the verify answer: the record [trip] has the guid [local-1],
    the verify answer holds one VEVENT with the uid [abc]; the sync succeeds,
    the url is the VEVENT's, and the guid stays [local-1].  And two 2xx
    answers are not enough for success: when the verify answer is 207 with a
    text that is not a calendar, the sync reports failure and the record
    [standup] keeps its empty guid and url. *)
Lemma syncEvent_guid_not_read_back :
  (exists r' w' first,
     syncEvent (H := TestHost.standard) TestHost.trip TestHost.one_accepted
     = (Ok (true, r'), w')
     /\ convertIcsCalendar (Host := TestHost.standard) TestHost.VERIFY
        = Ok (TestHost.calendar_of [first])
     /\ url r' = ev_url first
     /\ guid r' = Some "local-1"
     /\ guid r' <> Some (uid first))
  /\ (exists w',
        syncEvent (H := TestHost.standard) TestHost.standup TestHost.unreadable
        = (Ok (false, TestHost.standup), w')
        /\ server w' = []
        /\ guid TestHost.standup = None /\ url TestHost.standup = None).
Proof.
  split.
  - eexists _, _, _. split; [vm_compute; reflexivity|].
    split; [vm_compute; reflexivity|].
    split; [reflexivity|]. split; [reflexivity|]. discriminate.
  - eexists. split; [vm_compute; reflexivity|].
    split; [reflexivity|]. split; reflexivity.
Qed.

(** ** The push phase *)

Section PushFacts.

Context {Server : Type} `{H : Host Server}.
Local Abbreviation World := (@World Server).
Local Abbreviation M := (@M Server).

Lemma quiet_refl (w : World) : quiet w w.
Proof. unfold quiet. auto. Qed.

Lemma quiet_trans (w1 w2 w3 : World) : quiet w1 w2 -> quiet w2 w3 -> quiet w1 w3.
Proof. unfold quiet. intros (-> & -> & -> & ->) (-> & -> & -> & ->). auto. Qed.

Lemma getUUIDFromEventFile_run (doc : string) (w : World) :
  getUUIDFromEventFile doc w = (Ok (stored_guid w doc), w).
Proof.
  unfold getUUIDFromEventFile, stored_guid, bind, gets.
  destruct (cached_frontmatter (vault w) doc) as [fm|]; [|reflexivity].
  destruct (JS.truthy (fm !! "guid")); reflexivity.
Qed.

(** Starting the callbacks reads the guids and changes nothing. *)
Lemma start_callbacks_run (docs : list string) (w : World) :
  start_callbacks docs w = (Ok (map (fun doc => (doc, stored_guid w doc)) docs), w).
Proof.
  induction docs as [|doc rest IH]; [reflexivity|].
  simpl. unfold bind at 1. rewrite getUUIDFromEventFile_run.
  unfold bind at 1. rewrite IH. reflexivity.
Qed.

Lemma add_guids_cons (my_set : gset string) (g : string) (guids : list string) :
  add_guids (my_set_add my_set g) guids = add_guids my_set (g :: guids).
Proof.
  unfold add_guids, my_set_add. rewrite filter_cons.
  destruct (JS.truthy (Some g)) eqn:E.
  - apply truthy_Some in E. rewrite decide_True by exact E.
    rewrite list_to_set_cons, (comm_L (∪) {[g]} my_set), (assoc_L (∪)).
    reflexivity.
  - apply truthy_false in E. destruct E as [E|E]; [discriminate|].
    injection E as ->. rewrite decide_False by (intros Hn; apply Hn; reflexivity).
    reflexivity.
Qed.

(** [my_set] once every callback has passed its first [await]. *)
Lemma my_set_add_guids (guids : list string) (my_set : gset string) :
  foldl my_set_add my_set guids = add_guids my_set guids.
Proof.
  revert my_set. induction guids as [|g rest IH]; intros my_set; simpl.
  - unfold add_guids. simpl. rewrite (right_id_L ∅ (∪)). reflexivity.
  - rewrite IH. apply add_guids_cons.
Qed.

(** The first round: a callback reaches its PUT, or settles.  It is
    rejected only if the note is gone or if the event or the credentials
    cannot be printed, and it is rejected if the event cannot be printed. *)
Lemma to_put_run (w0 : World) (doc g : string) (w : World) :
  quiet w0 w -> doc ∈ md_files w0 ->
  exists c' w',
    to_put (AtStart doc g) w = (Ok c', w') /\ quiet w0 w'
    /\ pending w' = pending w
    /\ (pushable w0 -> ~ rejected c')
    /\ (unprintable w0 doc -> rejected c').
Proof.
  intros Hq Hdoc.
  assert (Hin : is_Some (vault w !! doc)).
  { destruct Hq as (_ & _ & _ & ->). revert Hdoc. unfold md_files.
    rewrite list_elem_of_filter, list_elem_of_fmap.
    intros [_ ([p f] & -> & Hin)]. apply elem_of_map_to_list in Hin. eauto. }
  destruct Hin as [f Hf].
  assert (Hf0 : vault w0 !! doc = Some f).
  { destruct Hq as (_ & _ & _ & Hvw). rewrite <- Hvw. exact Hf. }
  unfold to_put, or_rejected, try_catch, bind at 1, read_note, bind at 1, gets.
  rewrite Hf. cbn [ret].
  destruct (tryCreateObsidianEvent _ _ _) as [r|] eqn:Hr.
  2:{ eexists _, _. split; [reflexivity|]. split; [exact Hq|].
      split; [reflexivity|]. split; [intros _ []|].
      intros (f' & r' & Hf' & Hr' & _). congruence. }
  destruct (toIcsEvent_run r w) as (u & w1 & _ & Hev).
  destruct (toIcsEvent_frame r w _ w1 Hev) as (Hv & Hs & _ & Hn & _ & Hc & Hp).
  assert (Hq1 : quiet w0 w1).
  { apply (quiet_trans w0 w w1 Hq). unfold quiet. auto. }
  unfold bind at 1. rewrite Hev. unfold bind at 1, call at 1.
  destruct (generateIcsCalendar _) as [ics|e] eqn:Hics.
  2:{ eexists _, _. split; [reflexivity|]. split; [exact Hq1|].
      split; [exact Hp|]. split; [|intros _; exact I].
      intros [_ Hgen] _.
      destruct (Hgen doc f r Hdoc Hf0 Hr w _ w1 Hev) as [ics Hok]. congruence. }
  assert (Hprinted : ~ unprintable w0 doc).
  { intros (f' & r' & Hf' & Hr' & Hgen).
    rewrite Hf0 in Hf'. injection Hf' as <-. rewrite Hr in Hr'.
    injection Hr' as <-. destruct (Hgen w _ w1 Hev) as [e He]. congruence. }
  unfold bind at 1, gets. unfold bind at 1, call at 1.
  destruct (btoa _) as [auth|e] eqn:Hauth.
  2:{ eexists _, _. split; [reflexivity|]. split; [exact Hq1|].
      split; [exact Hp|]. split; [|intros _; exact I].
      intros [[auth Hok] _] _.
      destruct Hq1 as (_ & _ & Hsw & _). rewrite Hsw in Hauth. congruence. }
  unfold bind, send. destruct (requestUrl _ _) as [o s'].
  eexists _, _. split; [reflexivity|]. split; [exact Hq1|].
  split; [exact Hp|]. split; [intros _ []|].
  intros Hun. exact (Hprinted Hun).
Qed.

(** The second round: a callback at its PUT reaches its PROPFIND, or
    settles; no callback is rejected there. *)
Lemma to_check_run (w0 : World) (c : Callback) (w : World) :
  quiet w0 w ->
  exists c' w',
    to_check c w = (Ok c', w') /\ quiet w0 w' /\ pending w' = pending w
    /\ (rejected c' <-> rejected c).
Proof.
  intros Hq.
  destruct c as [doc g | p [r|e] | p o | res];
    try (eexists _, _; split; [reflexivity|]; split; [exact Hq|];
         split; reflexivity).
  unfold to_check. destruct (status_ok r).
  - unfold bind, send. destruct (requestUrl _ _) as [o s'].
    eexists _, _. split; [reflexivity|]. split; [exact Hq|].
    split; reflexivity.
  - eexists _, _. split; [reflexivity|]. split; [exact Hq|].
    split; reflexivity.
Qed.

(** The third round: a callback at its PROPFIND settles; no callback is
    rejected there. *)
Lemma to_end_run (w0 : World) (c : Callback) (w : World) :
  quiet w0 w ->
  exists c' w',
    to_end c w = (Ok c', w') /\ quiet w0 w' /\ (rejected c' <-> rejected c).
Proof.
  intros Hq.
  destruct c as [doc g | p o | p [r|e] | res];
    try (eexists _, _; split; [reflexivity|]; split; [exact Hq|]; reflexivity).
  unfold to_end. destruct (status_ok r).
  - destruct (convertIcsCalendar (text r)) as [cal|e];
      eexists _, _; (split; [reflexivity|]); (split; [exact Hq|]); reflexivity.
  - eexists _, _. split; [reflexivity|]. split; [exact Hq|]. reflexivity.
Qed.

(** A round of steps that return and keep an invariant of the world relates
    each callback to what it becomes. *)
Lemma round_run (step : Callback -> M Callback) (P : Callback -> Prop)
    (R : Callback -> Callback -> Prop) (I : World -> Prop) :
  (forall c w, I w -> P c ->
     exists c' w', step c w = (Ok c', w') /\ I w' /\ R c c') ->
  forall cs w, I w -> Forall P cs ->
    exists cs' w', round step cs w = (Ok cs', w') /\ I w' /\ Forall2 R cs cs'.
Proof.
  intros Hstep cs. induction cs as [|c rest IH]; intros w Hw Hcs.
  - exists [], w. split; [reflexivity|]. split; [exact Hw | constructor].
  - apply Forall_cons in Hcs as [Hc Hrest].
    destruct (Hstep c w Hw Hc) as (c' & w1 & Hrun & Hw1 & Hc').
    destruct (IH w1 Hw1 Hrest) as (rest' & w2 & Hrun' & Hw2 & Hrest').
    exists (c' :: rest'), w2. split; [|split; [exact Hw2|]].
    + simpl. unfold bind at 1. rewrite Hrun. unfold bind at 1. rewrite Hrun'.
      reflexivity.
    + constructor; assumption.
Qed.

Lemma promise_all_run (cs : list Callback) (w : World) :
  promise_all cs w = (Ok tt, w) \/ exists e, promise_all cs w = (Throw e, w).
Proof.
  induction cs as [|c rest IH]; [left; reflexivity|].
  destruct c as [doc g | p o | p o | [[]|e]]; simpl; try exact IH.
  right. exists e. reflexivity.
Qed.

Lemma promise_all_ok (cs : list Callback) (w : World) :
  Forall (fun c => ~ rejected c) cs -> promise_all cs w = (Ok tt, w).
Proof.
  induction cs as [|c rest IH]; intros Hcs; [reflexivity|].
  apply Forall_cons in Hcs as [Hc Hrest].
  destruct c as [doc g | p o | p o | [[]|e]]; simpl; try (apply IH; exact Hrest).
  exfalso. apply Hc. exact I.
Qed.

Lemma promise_all_throws (cs : list Callback) (w : World) :
  Exists rejected cs -> exists e, promise_all cs w = (Throw e, w).
Proof.
  induction cs as [|c rest IH]; intros Hcs; [inversion Hcs|].
  destruct c as [doc g | p o | p o | [[]|e]]; simpl;
    try (apply IH; apply Exists_cons in Hcs as [[] | Hrest]; exact Hrest).
  exists e. reflexivity.
Qed.

(** The three rounds of the push phase, callback by callback. *)
Lemma rounds_run (w : World) (guids : string -> string) :
  exists cs w',
    (let* at_put :=
       round to_put (map (fun doc => AtStart doc (guids doc)) (md_files w)) in
     let* at_check := round to_check at_put in
     round to_end at_check) w
    = (Ok cs, w')
    /\ quiet w w'
    /\ Forall2 (fun doc c => (pushable w -> ~ rejected c)
                             /\ (unprintable w doc -> rejected c))
               (md_files w) cs.
Proof.
  destruct (round_run to_put
              (fun c => exists doc, c = AtStart doc (guids doc) /\ doc ∈ md_files w)
              (fun c c' => exists doc,
                   c = AtStart doc (guids doc)
                   /\ (pushable w -> ~ rejected c')
                   /\ (unprintable w doc -> rejected c'))
              (quiet w)) with
      (cs := map (fun doc => AtStart doc (guids doc)) (md_files w)) (w := w)
    as (cs1 & w1 & Hr1 & Hq1 & Hc1).
  { intros c w' Hq (doc & -> & Hdoc).
    destruct (to_put_run w doc (guids doc) w' Hq Hdoc)
      as (c' & w'' & Hrun & Hq' & _ & Hok & Hbad). eauto 10. }
  { apply quiet_refl. }
  { apply Forall_forall. intros c Hc. apply list_elem_of_fmap in Hc
      as (doc & -> & Hdoc). eauto. }
  destruct (round_run to_check (fun _ => True)
              (fun c c' => rejected c' <-> rejected c) (quiet w))
    with (cs := cs1) (w := w1)
    as (cs2 & w2 & Hr2 & Hq2 & Hc2);
    [|exact Hq1|apply Forall_forall; intros; exact I|].
  { intros c w' Hq _. destruct (to_check_run w c w' Hq)
      as (c' & w'' & Hrun & Hq' & _ & Hrej). eauto. }
  destruct (round_run to_end (fun _ => True)
              (fun c c' => rejected c' <-> rejected c) (quiet w))
    with (cs := cs2) (w := w2)
    as (cs3 & w3 & Hr3 & Hq3 & Hc3);
    [|exact Hq2|apply Forall_forall; intros; exact I|].
  { intros c w' Hq _. destruct (to_end_run w c w' Hq)
      as (c' & w'' & Hrun & Hq' & Hrej). eauto. }
  exists cs3, w3. split; [|split; [exact Hq3|]].
  - unfold bind at 1. rewrite Hr1. unfold bind at 1. rewrite Hr2. exact Hr3.
  - apply Forall2_fmap_l in Hc1.
    clear Hr1 Hr2 Hr3. revert cs1 cs2 cs3 Hc1 Hc2 Hc3.
    induction (md_files w) as [|doc rest IH]; intros cs1 cs2 cs3 Hc1 Hc2 Hc3.
    + apply Forall2_nil_inv_l in Hc1 as ->.
      apply Forall2_nil_inv_l in Hc2 as ->.
      apply Forall2_nil_inv_l in Hc3 as ->. constructor.
    + apply Forall2_cons_inv_l in Hc1 as (c1 & r1 & (d & Hd & Hok & Hbad) & H1 & ->).
      apply Forall2_cons_inv_l in Hc2 as (c2 & r2 & Hrej2 & H2 & ->).
      apply Forall2_cons_inv_l in Hc3 as (c3 & r3 & Hrej3 & H3 & ->).
      injection Hd as <-.
      constructor; [|apply (IH r1 r2 r3); assumption].
      rewrite Hrej3, Hrej2. split; assumption.
Qed.

Lemma md_files_NoDup (w : World) : NoDup (md_files w).
Proof.
  unfold md_files. apply NoDup_filter, NoDup_fst_map_to_list.
Qed.

Lemma md_files_in_vault (w : World) (doc : string) :
  doc ∈ md_files w -> is_Some (vault w !! doc).
Proof.
  unfold md_files. rewrite list_elem_of_filter, list_elem_of_fmap.
  intros [_ ([p f] & -> & Hin)]. apply elem_of_map_to_list in Hin. eauto.
Qed.

(** The push phase: [my_set] is made of the guids stored before it started,
    whether [Promise.all] resolves or rejects; it resolves when every push
    gets as far as its PUT, and rejects when the event of some note cannot
    be printed.  The phase shows no notice, creates no note and leaves the
    vault and the settings as they are. *)
Lemma push_phase_run (w : World) :
  exists res w',
    push_phase w = (res, w') /\ quiet w w'
    /\ (res = Ok (add_guids ∅ (map (stored_guid w) (md_files w)))
        \/ exists e, res = Throw e)
    /\ (pushable w ->
        res = Ok (add_guids ∅ (map (stored_guid w) (md_files w))))
    /\ ((exists doc, doc ∈ md_files w /\ unprintable w doc) ->
        exists e, res = Throw e).
Proof.
  unfold push_phase, bind at 1, gets. unfold bind at 1.
  rewrite start_callbacks_run, !map_map. cbn [fst snd].
  rewrite my_set_add_guids.
  destruct (rounds_run w (stored_guid w)) as (cs & w' & Hrun & Hq & Hcs).
  unfold bind in Hrun. unfold bind.
  destruct (round to_put _ w) as [[cs1|e1] w1]; [|discriminate].
  destruct (round to_check cs1 w1) as [[cs2|e2] w2]; [|discriminate].
  rewrite Hrun.
  destruct (promise_all_run cs w') as [Hall | [e Hall]]; rewrite Hall.
  - eexists _, w'. split; [reflexivity|]. split; [exact Hq|].
    split; [left; reflexivity|]. split; [reflexivity|].
    intros (doc & Hdoc & Hbad).
    destruct (promise_all_throws cs w') as [e He]; [|congruence].
    apply list_elem_of_lookup in Hdoc as [i Hi].
    destruct (Forall2_lookup_l _ _ _ _ _ Hcs Hi) as (c & Hc & _ & Hrej).
    apply Exists_exists. exists c. split; [|exact (Hrej Hbad)].
    apply list_elem_of_lookup. eauto.
  - eexists _, w'. split; [reflexivity|]. split; [exact Hq|].
    split; [right; eauto|]. split; [|eauto].
    intros Hpush. rewrite promise_all_ok in Hall; [discriminate|].
    apply Forall_forall. intros c Hc.
    apply list_elem_of_lookup in Hc as [i Hi].
    destruct (Forall2_lookup_r _ _ _ _ _ Hcs Hi) as (doc & _ & Hok & _).
    exact (Hok Hpush).
Qed.

End PushFacts.

(** C4.  The known-identifiers set that the push phase builds is made of the
    guids the notes carried in the world the pass started in: [g] is in the
    set exactly when [g] is non-empty and is the guid stored, before the
    pass, in the front matter of one of the synchronised notes.  A guid that
    a push of this pass assigns is not in that world, so it does not enter
    the set.  The phase returns that set or, when a callback was rejected,
    throws; it returns it whenever every push gets as far as its PUT. *)
Theorem known_identifiers_pre_sync {Server : Type} `{H : Host Server}
    (w : World) :
  exists my_set,
    (forall g,
       g ∈ my_set <->
       g <> "" /\ exists doc fm,
                    doc ∈ md_files w
                    /\ cached_frontmatter (vault w) doc = Some fm
                    /\ fm !! "guid" = Some g)
    /\ (forall res w', push_phase w = (res, w') ->
                       res = Ok my_set \/ exists e, res = Throw e)
    /\ (pushable w -> exists w', push_phase w = (Ok my_set, w')).
Proof.
  destruct (push_phase_run w) as (res & w' & Hrun & _ & Hres & Hok & _).
  exists (add_guids ∅ (map (stored_guid w) (md_files w))).
  split; [|split].
  - intros g. unfold add_guids.
    rewrite elem_of_union, elem_of_list_to_set, list_elem_of_filter,
      list_elem_of_fmap.
    split.
    + intros [Hemp | [Hne (doc & -> & Hdoc)]];
        [exfalso; exact (not_elem_of_empty g Hemp)|].
      split; [exact Hne|]. unfold stored_guid in *.
      destruct (cached_frontmatter (vault w) doc) as [fm|] eqn:Hfm; [|congruence].
      exists doc, fm. split; [exact Hdoc|]. split; [exact Hfm|].
      destruct (fm !! "guid") as [g'|]; simpl in *.
      * destruct (String.eqb g' ""); simpl in *; congruence.
      * congruence.
    + intros [Hne (doc & fm & Hdoc & Hfm & Hg)]. right. split; [exact Hne|].
      exists doc. split; [|exact Hdoc].
      unfold stored_guid. rewrite Hfm, Hg.
      apply truthy_Some in Hne. rewrite Hne. reflexivity.
  - intros res' w'' Hrun'. rewrite Hrun in Hrun'. injection Hrun' as <- <-.
    exact Hres.
  - intros Hpush. exists w'. rewrite Hrun, (Hok Hpush). reflexivity.
Qed.

(** Every push of [TestHost.all_accepted] gets as far as its PUT. *)
Lemma all_accepted_pushable :
  pushable (H := TestHost.standard) TestHost.all_accepted.
Proof.
  split; [exists TestHost.auth; vm_compute; reflexivity|].
  intros doc f r Hdoc Hf Hr w0 ev w1 Hev.
  destruct (toIcsEvent_run (H := TestHost.standard) r w0) as (u & w' & _ & Hrun).
  rewrite Hrun in Hev. injection Hev as <- _.
  assert (Hfiles : md_files TestHost.all_accepted
                   = ["Calendar/Standup.md"; "Calendar/Trip.md"])
    by (vm_compute; reflexivity).
  rewrite Hfiles in Hdoc. apply list_elem_of_In in Hdoc.
  destruct Hdoc as [<- | [<- | []]].
  - assert (Hnote : vault TestHost.all_accepted !! "Calendar/Standup.md"
                    = Some TestHost.standup_note) by (vm_compute; reflexivity).
    rewrite Hnote in Hf. injection Hf as <-.
    rewrite standup_note_read in Hr. injection Hr as <-.
    eexists. reflexivity.
  - assert (Hnote : vault TestHost.all_accepted !! "Calendar/Trip.md"
                    = Some TestHost.trip_note) by (vm_compute; reflexivity).
    rewrite Hnote in Hf. injection Hf as <-.
    assert (Hrec : tryCreateObsidianEvent (basename TestHost.trip_note)
                     (fileCache TestHost.trip_note) (content TestHost.trip_note)
                   = Some TestHost.trip) by (vm_compute; reflexivity).
    rewrite Hrec in Hr. injection Hr as <-.
    eexists. reflexivity.
Qed.

(** On the two notes of [TestHost.notes], with every request answered 2xx:
    the set holds [local-1], the guid [Trip] had; the guid that the push
    assigns to [Standup] goes into the edit of its front matter and is not
    in the set. *)
Lemma known_identifiers_pre_sync_witness :
  exists my_set w',
    push_phase (H := TestHost.standard) TestHost.all_accepted = (Ok my_set, w')
    /\ "local-1" ∈ my_set
    /\ stored_guid (snd (land_edits (H := TestHost.standard) w'))
         "Calendar/Standup.md"
       = "3f2c1a7e-5b4d-4c8e-9a6f-000000000000@obsidian.md"
    /\ "3f2c1a7e-5b4d-4c8e-9a6f-000000000000@obsidian.md" ∉ my_set.
Proof.
  destruct (known_identifiers_pre_sync (H := TestHost.standard)
              TestHost.all_accepted)
    as (my_set & Hiff & _ & Hok).
  destruct (Hok all_accepted_pushable) as (w' & Hrun).
  assert (Hfiles : md_files TestHost.all_accepted
                   = ["Calendar/Standup.md"; "Calendar/Trip.md"])
    by (vm_compute; reflexivity).
  assert (H1 : cached_frontmatter (vault TestHost.all_accepted)
                 "Calendar/Standup.md" = Some TestHost.standup_frontmatter)
    by (vm_compute; reflexivity).
  assert (H2 : cached_frontmatter (vault TestHost.all_accepted)
                 "Calendar/Trip.md" = Some TestHost.trip_frontmatter)
    by (vm_compute; reflexivity).
  assert (G1 : TestHost.standup_frontmatter !! "guid" = None)
    by (vm_compute; reflexivity).
  assert (G2 : TestHost.trip_frontmatter !! "guid" = Some "local-1")
    by (vm_compute; reflexivity).
  assert (Hw : w' = snd (push_phase (H := TestHost.standard) TestHost.all_accepted))
    by (rewrite Hrun; reflexivity).
  exists my_set, w'. split; [exact Hrun|]. split; [|split].
  - apply Hiff. split; [discriminate|].
    exists "Calendar/Trip.md", TestHost.trip_frontmatter. rewrite Hfiles.
    split; [|split; assumption].
    apply list_elem_of_In. right. left. reflexivity.
  - rewrite Hw. vm_compute. reflexivity.
  - intros Hin. apply Hiff in Hin as [_ (doc & fm & Hdoc & Hfm & Hg)].
    rewrite Hfiles in Hdoc. apply list_elem_of_In in Hdoc.
    destruct Hdoc as [<- | [<- | []]]; congruence.
Defined.

(** ** Fetching the collection *)

Section FetchFacts.

Context {Server : Type} `{H : Host Server}.
Local Abbreviation World := (@World Server).
Local Abbreviation M := (@M Server).

(** [fetchCalendar] once the credentials are encoded. *)
Lemma fetchCalendar_unfold (w : World) (auth : string) :
  btoa (credentials (settings w)) = Ok auth ->
  fetchCalendar w
  = (let* response := request (fetch_request (settings w) auth) in
     if status_ok response then
       let* calendar := call (convertIcsCalendar (text response)) in
       ret (Some calendar)
     else
       console_error "Request error" (JS.toString (status response)) ;;
       ret None) w.
Proof.
  intros Hauth. unfold fetchCalendar, bind at 1, gets.
  unfold bind at 1, call at 1. rewrite Hauth. reflexivity.
Qed.

(** A response outside 2xx: the failure is logged, the result is absent,
    nothing is thrown. *)
Lemma fetchCalendar_rejected (w : World) (auth : string) (r : Response)
    (s' : Server) :
  btoa (credentials (settings w)) = Ok auth ->
  requestUrl (server w) (fetch_request (settings w) auth) = (Responded r, s') ->
  http_status (status r) -> ~ is_2xx (status r) ->
  fetchCalendar w
  = (Ok None,
     set_console (console w ++ ["Request error " +:+ JS.toString (status r)])%list
                 (set_server s' w)).
Proof.
  intros Hauth Hreq Hh Hn. rewrite (fetchCalendar_unfold w auth Hauth).
  unfold bind at 1. rewrite request_run, Hreq.
  rewrite (status_ok_other r Hh Hn). reflexivity.
Qed.

(** A 2xx response: the calendar that the parser reads, or the parser's
    error. *)
Lemma fetchCalendar_accepted (w : World) (auth : string) (r : Response)
    (s' : Server) :
  btoa (credentials (settings w)) = Ok auth ->
  requestUrl (server w) (fetch_request (settings w) auth) = (Responded r, s') ->
  is_2xx (status r) ->
  fetchCalendar w
  = (match convertIcsCalendar (text r) with
     | Ok calendar => Ok (Some calendar)
     | Throw e => Throw e
     end, set_server s' w).
Proof.
  intros Hauth Hreq Hok. rewrite (fetchCalendar_unfold w auth Hauth).
  unfold bind at 1. rewrite request_run, Hreq.
  rewrite (status_ok_2xx r Hok). unfold bind, call.
  destruct (convertIcsCalendar (text r)); reflexivity.
Qed.

(** A thrown error leaves [fetchCalendar] as it is. *)
Lemma fetchCalendar_throws (w : World) (auth e : string) (s' : Server) :
  btoa (credentials (settings w)) = Ok auth ->
  requestUrl (server w) (fetch_request (settings w) auth) = (Failed e, s') ->
  fetchCalendar w = (Throw e, set_server s' w).
Proof.
  intros Hauth Hreq. rewrite (fetchCalendar_unfold w auth Hauth).
  unfold bind at 1. rewrite request_run, Hreq. reflexivity.
Qed.

(** The pass after the push phase. *)
Lemma sync_all_events_unfold (w : World) (my_set : gset string) (w1 : World) :
  push_phase w = (Ok my_set, w1) ->
  sync_all_events w
  = (let* calendar := fetchCalendar in import_phase my_set calendar) w1.
Proof.
  intros Hpush. unfold sync_all_events, bind at 1. rewrite Hpush. reflexivity.
Qed.

End FetchFacts.

(** C2, where the code departs from it.  When the PROPFIND of the collection
    throws (a transport error), [fetchCalendar] throws the same error,
    and so does the whole pass: the push phase has completed, nothing is
    logged, and the exception reaches the caller of the command. *)
Theorem fetch_transport_error_propagates {Server : Type} `{H : Host Server}
    (w : World) (my_set : gset string) (w1 : World) (auth e : string)
    (s' : Server) :
  push_phase w = (Ok my_set, w1) ->
  btoa (credentials (settings w1)) = Ok auth ->
  requestUrl (server w1) (fetch_request (settings w1) auth) = (Failed e, s') ->
  fetchCalendar w1 = (Throw e, set_server s' w1)
  /\ sync_all_events w = (Throw e, set_server s' w1).
Proof.
  intros Hpush Hauth Hreq.
  pose proof (fetchCalendar_throws w1 auth e s' Hauth Hreq) as Hfetch.
  split; [exact Hfetch|].
  rewrite (sync_all_events_unfold w my_set w1 Hpush).
  unfold bind. rewrite Hfetch. reflexivity.
Qed.

(** Both pushes are answered 500 and the network is down for the fetch: the
    pass ends with the transport error. *)
Lemma fetch_transport_error_propagates_witness :
  exists w',
    sync_all_events (H := TestHost.standard) TestHost.all_rejected
    = (Throw "net::ERR_INTERNET_DISCONNECTED", w')
    /\ notices w' = [] /\ creations w' = [] /\ console w' = [].
Proof.
  destruct (fetch_transport_error_propagates (H := TestHost.standard)
              TestHost.all_rejected
              (fst (TestHost.known_and_world TestHost.all_rejected))
              (snd (TestHost.known_and_world TestHost.all_rejected))
              TestHost.auth
              "net::ERR_INTERNET_DISCONNECTED" [])
    as [_ Hpass].
  - vm_compute. reflexivity.
  - vm_compute. reflexivity.
  - vm_compute. reflexivity.
  - eexists. split; [exact Hpass|]. repeat split; vm_compute; reflexivity.
Defined.

(** ** The import phase *)

Section ImportFacts.

Context {Server : Type} `{H : Host Server}.
Local Abbreviation World := (@World Server).
Local Abbreviation M := (@M Server).

(** [vault.create]: the call is recorded, and the note is added unless the
    vault refuses. *)
Lemma vault_create_run (path data : string) (w : World) :
  vault_create path data w
  = match create_refused (vault w) path with
    | Some e => (Throw e, after_call path data w)
    | None => (Ok tt, after_create path data w)
    end.
Proof.
  unfold vault_create, bind, modify, gets. cbn [vault set_creations].
  destruct (create_refused (vault w) path); reflexivity.
Qed.

Lemma create_record_run (value : IcsEvent) (s : string)
    (props : list (string * option string)) (w : World) :
  ev_summary value = Some s ->
  create_record value props w
  = vault_create (note_path w s) (md_file (description_or_empty value) props) w.
Proof. intros Hs. unfold create_record. rewrite Hs. reflexivity. Qed.

Lemma description_or_empty_default (value : IcsEvent) :
  description_or_empty value = default "" (ev_description value).
Proof.
  unfold description_or_empty. destruct (ev_description value) as [d|];
    [|reflexivity].
  simpl. destruct (String.eqb_spec d ""); subst; reflexivity.
Qed.

Lemma json_printed (v : option string) : json v = printed_or_undefined v.
Proof. destruct v; reflexivity. Qed.

Lemma bind_assoc {A B C : Type} (m : M A) (k : A -> M B) (h : B -> M C)
    (w : World) :
  bind (bind m k) h w = bind m (fun a => bind (k a) h) w.
Proof. unfold bind. destruct (m w) as [[a|e] w']; reflexivity. Qed.

Lemma bind_ext_l {A B : Type} (m m' : M A) (k : A -> M B) :
  (forall w, m w = m' w) -> forall w, bind m k w = bind m' k w.
Proof. intros Hm w. unfold bind. rewrite Hm. reflexivity. Qed.

(** The loop returns when each of its iterations does. *)
Lemma import_events_returns (my_set : gset string) (values : list IcsEvent) :
  (forall v w, v ∈ values -> exists w', import_event my_set v w = (Ok tt, w')) ->
  forall w, exists w', import_events my_set values w = (Ok tt, w').
Proof.
  induction values as [|v rest IH]; intros Hall w; [eexists; reflexivity|].
  destruct (Hall v w) as (w1 & H1); [left|].
  destruct (IH (fun v' w' Hin => Hall v' w' (list_elem_of_further _ _ _ Hin)) w1)
    as (w' & H').
  exists w'. simpl. unfold bind. rewrite H1. exact H'.
Qed.

Lemma import_events_app (my_set : gset string) (before after : list IcsEvent)
    (w : World) :
  import_events my_set (before ++ after)%list w
  = (import_events my_set before ;; import_events my_set after) w.
Proof.
  revert w. induction before as [|v rest IH]; intros w; [reflexivity|].
  simpl. unfold bind.
  destruct (import_event my_set v w) as [[[]|e] w1]; [|reflexivity].
  rewrite IH. reflexivity.
Qed.

(** An event whose uid is known leaves the world as it is. *)
Lemma import_event_known (my_set : gset string) (value : IcsEvent) (w : World) :
  uid value ∈ my_set -> import_event my_set value w = (Ok tt, w).
Proof.
  intros Hin. unfold import_event. rewrite bool_decide_eq_true_2 by exact Hin.
  reflexivity.
Qed.

(** The loop does not see the events whose uid is known. *)
Lemma import_events_unknown_only (my_set : gset string)
    (values : list IcsEvent) (w : World) :
  import_events my_set values w
  = import_events my_set (filter (fun v => uid v ∉ my_set) values) w.
Proof.
  revert w. induction values as [|v rest IH]; intros w; [reflexivity|].
  rewrite filter_cons. destruct (decide (uid v ∉ my_set)) as [Hn|Hin].
  - simpl. unfold bind. destruct (import_event my_set v w) as [[[]|e] w1];
      [apply IH | reflexivity].
  - apply dec_stable in Hin. simpl. unfold bind.
    rewrite (import_event_known my_set v w Hin). apply IH.
Qed.

(** The pass, once the collection is fetched. *)
Lemma sync_all_events_import (w : World) (my_set : gset string) (w1 : World)
    (cal : IcsCalendar) (w2 : World) (values : list IcsEvent) :
  push_phase w = (Ok my_set, w1) ->
  fetchCalendar w1 = (Ok (Some cal), w2) ->
  events cal = Some values ->
  sync_all_events w = (import_events my_set values ;; Notice ALL_SYNCED) w2.
Proof.
  intros Hpush Hfetch Hev. unfold sync_all_events, bind at 1. rewrite Hpush.
  unfold bind at 1. rewrite Hfetch. unfold import_phase. rewrite Hev.
  reflexivity.
Qed.

(** A timed event that ends on another day: one notice, nothing else. *)
Lemma import_event_multiday (my_set : gset string) (value : IcsEvent)
    (e : IcsDateObject) (w : World) :
  uid value ∉ my_set ->
  d_type (start value) = Some DATE_TIME ->
  end_ value = Some e ->
  formatDay (d_date e) <> formatDay (d_date (start value)) ->
  import_event my_set value w
  = (Ok tt, set_notices (notices w ++ [MULTIDAY_UNSUPPORTED])%list w).
Proof.
  intros Hn Hty He Hday. unfold import_event.
  rewrite bool_decide_eq_false_2 by exact Hn.
  rewrite bool_decide_eq_true_2 by exact Hty.
  rewrite He. simpl.
  destruct (String.eqb_spec (formatDay (d_date e)) (formatDay (d_date (start value))));
    [contradiction | reflexivity].
Qed.

(** An all-day event: one record, made from the five base entries. *)
Lemma import_event_all_day (my_set : gset string) (value : IcsEvent) (w : World) :
  uid value ∉ my_set ->
  d_type (start value) = Some DATE ->
  import_event my_set value w = create_record value (base_props value) w.
Proof.
  intros Hn Hty. unfold import_event.
  rewrite bool_decide_eq_false_2 by exact Hn.
  rewrite bool_decide_eq_false_2 by (rewrite Hty; discriminate).
  reflexivity.
Qed.

(** The text written for an all-day event. *)
Lemma md_file_all_day (value : IcsEvent) :
  md_file (description_or_empty value) (base_props value) = all_day_note value.
Proof.
  unfold md_file, base_props, all_day_note. cbn [map join_lines fst snd].
  rewrite description_or_empty_default, !json_printed, !append_assoc.
  reflexivity.
Qed.

(** The pass around one event of the collection. *)
Lemma sync_all_events_around (w : World) (my_set : gset string) (w1 : World)
    (cal : IcsCalendar) (w2 : World) (before after : list IcsEvent)
    (value : IcsEvent) (step : M unit) :
  push_phase w = (Ok my_set, w1) ->
  fetchCalendar w1 = (Ok (Some cal), w2) ->
  events cal = Some (before ++ value :: after)%list ->
  (forall w3, import_event my_set value w3 = step w3) ->
  sync_all_events w
  = (import_events my_set before ;; step ;;
     import_events my_set after ;; Notice ALL_SYNCED) w2.
Proof.
  intros Hpush Hfetch Hev Hstep.
  rewrite (sync_all_events_import w my_set w1 cal w2 _ Hpush Hfetch Hev).
  rewrite (bind_ext_l _ _ _ (import_events_app my_set before (value :: after))).
  rewrite bind_assoc. unfold bind at 1 3.
  destruct (import_events my_set before w2) as [[[]|err] w3]; [|reflexivity].
  simpl. rewrite bind_assoc. unfold bind at 1 3. rewrite Hstep. reflexivity.
Qed.

End ImportFacts.

(** C5.  Whatever the fetched collection, the pass runs as if the events
    whose uid is in the known-identifiers set were not in it: the import
    loop over the collection is the import loop over its events with an
    unknown uid, and the iteration for an event with a known uid changes
    nothing (no record created, no notice). *)
Theorem known_events_not_imported {Server : Type} `{H : Host Server}
    (w : World) (my_set : gset string) (w1 : World) (cal : IcsCalendar)
    (w2 : World) (values : list IcsEvent) :
  push_phase w = (Ok my_set, w1) ->
  fetchCalendar w1 = (Ok (Some cal), w2) ->
  events cal = Some values ->
  sync_all_events w
  = (import_events my_set (filter (fun v => uid v ∉ my_set) values) ;;
     Notice ALL_SYNCED) w2
  /\ (forall value w3,
        value ∈ values -> uid value ∈ my_set ->
        import_event my_set value w3 = (Ok tt, w3)).
Proof.
  intros Hpush Hfetch Hev. split.
  - rewrite (sync_all_events_import w my_set w1 cal w2 _ Hpush Hfetch Hev).
    unfold bind. rewrite import_events_unknown_only. reflexivity.
  - intros value w3 _ Hin. apply import_event_known. exact Hin.
Qed.

(** C6.  An event of the collection with an unknown uid, a DATE-TIME start
    and an end on another calendar day costs the pass exactly one notice,
    "multi-day event not supported": its iteration adds that notice and
    changes nothing else, and the events before and after it are processed
    as usual; when their iterations return, the pass returns without an
    exception. *)
Theorem multiday_timed_event_rejected {Server : Type} `{H : Host Server}
    (w : World) (my_set : gset string) (w1 : World) (cal : IcsCalendar)
    (w2 : World) (before after : list IcsEvent) (value : IcsEvent)
    (e : IcsDateObject) :
  push_phase w = (Ok my_set, w1) ->
  fetchCalendar w1 = (Ok (Some cal), w2) ->
  events cal = Some (before ++ value :: after)%list ->
  uid value ∉ my_set ->
  d_type (start value) = Some DATE_TIME ->
  end_ value = Some e ->
  formatDay (d_date e) <> formatDay (d_date (start value)) ->
  (forall w3,
     import_event my_set value w3
     = (Ok tt, set_notices (notices w3 ++ [MULTIDAY_UNSUPPORTED])%list w3))
  /\ sync_all_events w
     = (import_events my_set before ;; Notice MULTIDAY_UNSUPPORTED ;;
        import_events my_set after ;; Notice ALL_SYNCED) w2
  /\ ((forall v w3, v ∈ (before ++ after)%list ->
                    exists w4, import_event my_set v w3 = (Ok tt, w4)) ->
      exists w', sync_all_events w = (Ok tt, w')).
Proof.
  intros Hpush Hfetch Hev Hn Hty He Hday.
  assert (Hstep : forall w3,
             import_event my_set value w3 = Notice MULTIDAY_UNSUPPORTED w3).
  { intros w3. apply import_event_multiday with (e := e); assumption. }
  split; [exact Hstep|]. split.
  - apply (sync_all_events_around w my_set w1 cal w2 before after value);
      assumption.
  - intros Hothers.
    rewrite (sync_all_events_import w my_set w1 cal w2 _ Hpush Hfetch Hev).
    destruct (import_events_returns my_set (before ++ value :: after)%list)
      with (w := w2) as (w3 & Hrun).
    { intros v w3 Hin. apply elem_of_app in Hin as [Hin | Hin].
      - apply Hothers. apply elem_of_app. left. exact Hin.
      - apply elem_of_cons in Hin as [-> | Hin].
        + rewrite Hstep. eexists. reflexivity.
        + apply Hothers. apply elem_of_app. right. exact Hin. }
    eexists. unfold bind. rewrite Hrun. reflexivity.
Qed.

(** C10, as the code has it.  An event of the collection with an unknown
    uid, a DATE start and a summary gets one [vault.create] call, whatever
    its end: at the path made from the events directory and the sanitised
    summary, with the text that holds the entries type, date, guid, url and
    location (no start_time, no end_time) and the description; no notice is
    added.  When the vault accepts the call the note is in the vault and the
    loop goes on; when it refuses, its error ends the pass.  The events
    before and after it are processed as usual. *)
Theorem all_day_event_materialized {Server : Type} `{H : Host Server}
    (w : World) (my_set : gset string) (w1 : World) (cal : IcsCalendar)
    (w2 : World) (before after : list IcsEvent) (value : IcsEvent)
    (s : string) :
  push_phase w = (Ok my_set, w1) ->
  fetchCalendar w1 = (Ok (Some cal), w2) ->
  events cal = Some (before ++ value :: after)%list ->
  uid value ∉ my_set ->
  d_type (start value) = Some DATE ->
  ev_summary value = Some s ->
  (forall w3,
     create_refused (vault w3) (note_path w3 s) = None ->
     import_event my_set value w3
     = (Ok tt, after_create (note_path w3 s) (all_day_note value) w3))
  /\ (forall w3 e,
        create_refused (vault w3) (note_path w3 s) = Some e ->
        import_event my_set value w3
        = (Throw e, after_call (note_path w3 s) (all_day_note value) w3))
  /\ sync_all_events w
     = (import_events my_set before ;; create_record value (base_props value) ;;
        import_events my_set after ;; Notice ALL_SYNCED) w2.
Proof.
  intros Hpush Hfetch Hev Hn Hty Hs.
  assert (Hstep : forall w3,
             import_event my_set value w3
             = vault_create (note_path w3 s) (all_day_note value) w3).
  { intros w3. rewrite import_event_all_day by assumption.
    rewrite (create_record_run value s _ w3 Hs), md_file_all_day. reflexivity. }
  split; [|split].
  - intros w3 Hfree. rewrite Hstep, vault_create_run, Hfree. reflexivity.
  - intros w3 e Hrefused. rewrite Hstep, vault_create_run, Hrefused. reflexivity.
  - apply (sync_all_events_around w my_set w1 cal w2 before after value);
      try assumption.
    intros w3. apply import_event_all_day; assumption.
Qed.

Lemma known_events_not_imported_witness :
  sync_all_events (H := TestHost.standard) TestHost.all_accepted
  = (Ok tt, TestHost.after_pass)
  /\ map fst (creations TestHost.after_pass)
     = ["Calendar/Festival_ day 1_3.md"; "Calendar/Review.md"]
  /\ import_event (H := TestHost.standard) {["local-1"]} TestHost.known_remote
       TestHost.after_fetch
     = (Ok tt, TestHost.after_fetch).
Proof.
  destruct (known_events_not_imported (H := TestHost.standard)
              TestHost.all_accepted {["local-1"]} TestHost.after_push
              (TestHost.calendar_of TestHost.collection) TestHost.after_fetch
              TestHost.collection)
    as [Hpass Hstep].
  - vm_compute. reflexivity.
  - vm_compute. reflexivity.
  - reflexivity.
  - split; [rewrite Hpass; vm_compute; reflexivity|].
    split; [vm_compute; reflexivity|].
    apply Hstep.
    + apply list_elem_of_In. left. reflexivity.
    + vm_compute. reflexivity.
Defined.

Lemma multiday_timed_event_rejected_witness :
  sync_all_events (H := TestHost.standard) TestHost.all_accepted
  = (Ok tt, TestHost.after_pass)
  /\ notices TestHost.after_pass = [MULTIDAY_UNSUPPORTED; ALL_SYNCED]
  /\ import_event (H := TestHost.standard) {["local-1"]} TestHost.overnight
       TestHost.after_fetch
     = (Ok tt, set_notices [MULTIDAY_UNSUPPORTED] TestHost.after_fetch).
Proof.
  destruct (multiday_timed_event_rejected (H := TestHost.standard)
              TestHost.all_accepted {["local-1"]} TestHost.after_push
              (TestHost.calendar_of TestHost.collection) TestHost.after_fetch
              [TestHost.known_remote] [TestHost.festival; TestHost.abc]
              TestHost.overnight
              (TestHost.at_ "2024-05-05T06:00:00" DATE_TIME))
    as (Hstep & Hpass & _).
  - vm_compute. reflexivity.
  - vm_compute. reflexivity.
  - reflexivity.
  - vm_compute. discriminate.
  - reflexivity.
  - reflexivity.
  - vm_compute. discriminate.
  - split; [rewrite Hpass; vm_compute; reflexivity|].
    split; [vm_compute; reflexivity|].
    rewrite Hstep. vm_compute. reflexivity.
Defined.

(** The pass on [TestHost.all_accepted] makes the note of the festival, an
    all-day event of three days: one [vault.create] call with the text
    written out in [TestHost.festival_text], after which the note is in the
    vault; the only warning of the pass is the one of the overnight shift. *)
Lemma all_day_event_materialized_witness :
  sync_all_events (H := TestHost.standard) TestHost.all_accepted
  = (Ok tt, TestHost.after_pass)
  /\ import_event (H := TestHost.standard) {["local-1"]} TestHost.festival
       TestHost.after_fetch
     = (Ok tt,
        after_create (H := TestHost.standard) "Calendar/Festival_ day 1_3.md"
          TestHost.festival_text TestHost.after_fetch)
  /\ creations TestHost.after_pass !! 0%nat
     = Some ("Calendar/Festival_ day 1_3.md", TestHost.festival_text)
  /\ (content <$> vault TestHost.after_pass !! "Calendar/Festival_ day 1_3.md")
     = Some TestHost.festival_text
  /\ notices TestHost.after_pass = [MULTIDAY_UNSUPPORTED; ALL_SYNCED].
Proof.
  destruct (all_day_event_materialized (H := TestHost.standard)
              TestHost.all_accepted {["local-1"]} TestHost.after_push
              (TestHost.calendar_of TestHost.collection) TestHost.after_fetch
              [TestHost.known_remote; TestHost.overnight] [TestHost.abc]
              TestHost.festival "Festival: day 1/3")
    as (Hstep & _ & Hpass).
  - vm_compute. reflexivity.
  - vm_compute. reflexivity.
  - reflexivity.
  - vm_compute. discriminate.
  - reflexivity.
  - reflexivity.
  - split; [rewrite Hpass; vm_compute; reflexivity|].
    split; [rewrite Hstep; vm_compute; reflexivity|].
    repeat split; vm_compute; reflexivity.
Defined.

(** C10, as the claim states it, fails in two ways.  On an all-day event
    that has no summary the iteration throws when it reads the summary: no
    [vault.create] call is made, and the pass ends with that error, without
    its closing notice.  And on an all-day event whose path is taken by a
    note of the vault, here the festival and a note that is not an event,
    [vault.create] refuses: the iteration throws, and the note that was
    there stays as it was. *)
Lemma all_day_event_without_summary :
  (d_type (start TestHost.untitled) = Some DATE
   /\ convertIcsCalendar (Host := TestHost.standard) TestHost.UNTITLED
      = Ok (TestHost.calendar_of [TestHost.untitled])
   /\ import_event (H := TestHost.standard) ∅ TestHost.untitled
        (TestHost.world ∅ [])
      = (Throw NO_SUMMARY, TestHost.world ∅ [])
   /\ sync_all_events (H := TestHost.standard)
        (TestHost.world ∅ [TestHost.answer 207 TestHost.UNTITLED])
      = (Throw NO_SUMMARY, TestHost.world ∅ []))
  /\ (d_type (start TestHost.festival) = Some DATE
      /\ exists w',
           import_event (H := TestHost.standard) ∅ TestHost.festival
             (TestHost.world
                (<["Calendar/Festival_ day 1_3.md" := TestHost.todo_note]> ∅) [])
           = (Throw "File already exists.", w')
           /\ vault w'
              = <["Calendar/Festival_ day 1_3.md" := TestHost.todo_note]> ∅).
Proof.
  split.
  - repeat split; vm_compute; reflexivity.
  - split; [reflexivity|]. eexists. split; vm_compute; reflexivity.
Qed.

(** * Further properties *)

(** ** File names *)

Lemma path_hostile_spec (c : Ascii.ascii) :
  path_hostile c = false <->
  c <> "/"%char /\ c <> "\"%char /\ c <> ":"%char.
Proof.
  unfold path_hostile.
  destruct (Ascii.eqb_spec c "/"); [subst; simpl; split; [discriminate|tauto]|].
  destruct (Ascii.eqb_spec c "\"); [subst; simpl; split; [discriminate|tauto]|].
  destruct (Ascii.eqb_spec c ":"); [subst; simpl; split; [discriminate|tauto]|].
  simpl. tauto.
Qed.

(** X1.  The file name made from a summary never contains a slash, a
    backslash or a colon, and has the length of the summary. *)
Theorem safe_name_clean (s : string) :
  Forall (fun c => c <> "/"%char /\ c <> "\"%char /\ c <> ":"%char)
         (chars (safe_name s))
  /\ String.length (safe_name s) = String.length s.
Proof.
  induction s as [|c s [IH1 IH2]]; simpl.
  - split; [constructor | reflexivity].
  - split; [|rewrite IH2; reflexivity].
    constructor; [|exact IH1].
    destruct (path_hostile c) eqn:E.
    + repeat split; discriminate.
    + apply path_hostile_spec. exact E.
Qed.

(** X2.  Making a file name changes nothing but the three characters: a
    summary without them is its own file name, and making a file name twice
    is making it once. *)
Theorem safe_name_idempotent (s : string) :
  safe_name (safe_name s) = safe_name s
  /\ (Forall (fun c => path_hostile c = false) (chars s) -> safe_name s = s).
Proof.
  split.
  - induction s as [|c s IH]; simpl; [reflexivity|].
    rewrite IH. destruct (path_hostile c) eqn:E; [reflexivity|].
    rewrite E. reflexivity.
  - induction s as [|c s IH]; simpl; [reflexivity|].
    intros Hall. apply Forall_cons in Hall as [Hc Hs].
    rewrite Hc, (IH Hs). reflexivity.
Qed.

Lemma safe_name_idempotent_witness :
  safe_name "Festival: day 1/3" = "Festival_ day 1_3"
  /\ safe_name "Festival_ day 1_3" = "Festival_ day 1_3".
Proof.
  split; [reflexivity|].
  apply (proj2 (safe_name_idempotent "Festival_ day 1_3")).
  repeat constructor.
Defined.

(** ** Eligible notes *)

Lemma tryCreateObsidianEvent_Some (filename : string)
    (metadata : option CachedMetadata) (text' : string) (r : ObsidianEvent) :
  tryCreateObsidianEvent filename metadata text' = Some r ->
  exists md fm d,
    metadata = Some md /\ frontmatter md = Some fm
    /\ fm !! "type" = Some "calendar-event"
    /\ fm !! "date" = Some d /\ d <> ""
    /\ r = {| date := d;
              start_time := fm !! "start_time";
              end_time := fm !! "end_time";
              summary := filename;
              description := JS.slice (frontmatterEnd md + 1) text';
              location := fm !! "location";
              url := fm !! "url";
              guid := fm !! "guid" |}.
Proof.
  unfold tryCreateObsidianEvent. intros Hr.
  destruct metadata as [md|]; [|discriminate].
  destruct (frontmatter md) as [fm|] eqn:Efm; [|discriminate].
  destruct (JS.truthy (fm !! "type")) eqn:Ety; [|discriminate].
  destruct (bool_decide (fm !! "type" = Some "calendar-event")) eqn:Emark;
    [|discriminate].
  apply bool_decide_eq_true in Emark. cbn [andb] in Hr.
  destruct (fm !! "date") as [d|] eqn:Ed; [|discriminate].
  destruct (JS.truthy (Some d)) eqn:Etd; [|discriminate].
  injection Hr as <-. exists md, fm, d.
  apply truthy_Some in Etd. repeat split; assumption || reflexivity.
Qed.

Lemma tryCreateObsidianEvent_built (filename : string) (md : CachedMetadata)
    (fm : gmap string string) (d text' : string) :
  frontmatter md = Some fm ->
  fm !! "type" = Some "calendar-event" ->
  fm !! "date" = Some d -> d <> "" ->
  tryCreateObsidianEvent filename (Some md) text'
  = Some {| date := d;
            start_time := fm !! "start_time";
            end_time := fm !! "end_time";
            summary := filename;
            description := JS.slice (frontmatterEnd md + 1) text';
            location := fm !! "location";
            url := fm !! "url";
            guid := fm !! "guid" |}.
Proof.
  intros Hfm Hty Hd Hne. unfold tryCreateObsidianEvent.
  rewrite Hfm, Hty, Hd.
  rewrite bool_decide_eq_true_2 by reflexivity.
  apply truthy_Some in Hne. rewrite Hne. reflexivity.
Qed.

(** X3.  A note yields a record exactly when its cache has a front matter
    whose [type] is [calendar-event] and whose [date] is a non-empty string;
    the record then takes its summary from the file name, its description
    from the text after the front matter, and the other fields from the
    front matter. *)
Theorem tryCreateObsidianEvent_eligible (filename : string)
    (metadata : option CachedMetadata) (text' : string) (r : ObsidianEvent) :
  tryCreateObsidianEvent filename metadata text' = Some r <->
  exists md fm d,
    metadata = Some md /\ frontmatter md = Some fm
    /\ fm !! "type" = Some "calendar-event"
    /\ fm !! "date" = Some d /\ d <> ""
    /\ r = {| date := d;
              start_time := fm !! "start_time";
              end_time := fm !! "end_time";
              summary := filename;
              description := JS.slice (frontmatterEnd md + 1) text';
              location := fm !! "location";
              url := fm !! "url";
              guid := fm !! "guid" |}.
Proof.
  split; [apply tryCreateObsidianEvent_Some|].
  intros (md & fm & d & -> & Hfm & Hty & Hd & Hne & ->).
  apply tryCreateObsidianEvent_built; assumption.
Qed.

(** ** One note *)

Section NoteFacts.

Context {Server : Type} `{H : Host Server}.
Local Abbreviation World := (@World Server).
Local Abbreviation M := (@M Server).

(** Whatever [syncEvent] does, it changes nothing but the server, the
    console and the two counters. *)
Lemma syncEvent_quiet (r : ObsidianEvent) (w w' : World)
    (res : Result (bool * ObsidianEvent)) :
  syncEvent r w = (res, w') -> quiet w w' /\ pending w' = pending w.
Proof.
  destruct (toIcsEvent_run r w) as (u & w1 & _ & Hev).
  destruct (toIcsEvent_frame r w _ w1 Hev) as (Hv & Hs & _ & Hn & _ & Hc & Hp).
  assert (Hq : quiet w w1 /\ pending w1 = pending w).
  { unfold quiet. auto. }
  unfold syncEvent, bind at 1. rewrite Hev. unfold bind at 1, call at 1.
  destruct (generateIcsCalendar _) as [ics|e];
    [|intros Hres; injection Hres as _ <-; exact Hq].
  unfold bind at 1, gets. unfold bind at 1, call at 1.
  destruct (btoa _) as [auth|e];
    [|intros Hres; injection Hres as _ <-; exact Hq].
  unfold try_catch, bind at 1. rewrite request_run.
  destruct (requestUrl (server w1) _) as [[p|e] s1];
    [|intros Hres; injection Hres as _ <-; exact Hq].
  destruct (status_ok p);
    [|intros Hres; injection Hres as _ <-; exact Hq].
  unfold bind at 1. rewrite request_run. cbn [server set_server].
  destruct (requestUrl s1 _) as [[c|e] s2];
    [|intros Hres; injection Hres as _ <-; exact Hq].
  destruct (status_ok c);
    [|intros Hres; injection Hres as _ <-; exact Hq].
  unfold bind, call.
  destruct (convertIcsCalendar (text c)) as [cal|e];
    intros Hres; injection Hres as _ <-; exact Hq.
Qed.

(** Whatever [syncEventFile] does, it shows no notice, creates no note and
    keeps the settings and the vault; the only edit it can put in flight is
    one of its own note. *)
Lemma syncEventFile_quiet (doc : string) (w w' : World) (res : Result unit) :
  syncEventFile doc w = (res, w') ->
  quiet w w'
  /\ (pending w' = pending w
      \/ exists fn, pending w' = (pending w ++ [(doc, fn)])%list).
Proof.
  unfold syncEventFile, bind at 1, read_note, bind, gets.
  destruct (vault w !! doc) as [f|]; cbn [ret throw].
  - destruct (tryCreateObsidianEvent _ _ _) as [r|].
    + destruct (syncEvent r w) as [[[b r']|e] w1] eqn:Hrun;
        destruct (syncEvent_quiet _ _ _ _ Hrun) as (Hq & Hp).
      * destruct b; intros Hres; injection Hres as _ <-.
        -- split; [exact Hq|]. right. eexists. cbn [pending set_pending].
           rewrite Hp. reflexivity.
        -- split; [exact Hq|]. left. exact Hp.
      * intros Hres. injection Hres as _ <-. split; [exact Hq|]. left. exact Hp.
    + intros Hres. injection Hres as _ <-. split; [apply quiet_refl|]. auto.
  - intros Hres. injection Hres as _ <-. split; [apply quiet_refl|]. auto.
Qed.

End NoteFacts.

(** X4.  A note is left alone unless its cache has a front matter with the
    type [calendar-event] and a non-empty date: [syncEventFile] then returns
    without sending a request or changing anything. *)
Theorem syncEventFile_ineligible {Server : Type} `{H : Host Server}
    (doc : string) (f : TFile) (w : World) :
  vault w !! doc = Some f ->
  (forall md fm d,
     fileCache f = Some md -> frontmatter md = Some fm ->
     fm !! "type" = Some "calendar-event" -> fm !! "date" = Some d ->
     d = "") ->
  syncEventFile doc w = (Ok tt, w).
Proof.
  intros Hdoc Hnot. unfold syncEventFile, bind at 1, read_note, bind, gets.
  rewrite Hdoc. simpl.
  destruct (tryCreateObsidianEvent (basename f) (fileCache f) (content f))
    as [r|] eqn:Hrec; [|reflexivity].
  destruct (tryCreateObsidianEvent_Some _ _ _ _ Hrec)
    as (md & fm & d & Hmd & Hfm & Hty & Hd & Hne & _).
  exfalso. apply Hne. exact (Hnot md fm d Hmd Hfm Hty Hd).
Qed.

Lemma syncEventFile_ineligible_witness :
  syncEventFile (H := TestHost.standard) "Calendar/Todo.md"
    (TestHost.world TestHost.mixed_notes [])
  = (Ok tt, TestHost.world TestHost.mixed_notes []).
Proof.
  apply (syncEventFile_ineligible (H := TestHost.standard)
           "Calendar/Todo.md" TestHost.todo_note).
  - vm_compute. reflexivity.
  - intros md fm d Hmd. discriminate Hmd.
Defined.

Lemma fm_assign_lookup (key : string) (v : option string)
    (fm : gmap string string) :
  fm_assign key v fm !! key = v.
Proof.
  destruct v as [s|]; simpl; [apply lookup_insert_eq | apply lookup_delete_eq].
Qed.

Lemma fm_assign_lookup_ne (key k : string) (v : option string)
    (fm : gmap string string) :
  key <> k -> fm_assign key v fm !! k = fm !! k.
Proof.
  intros Hne. destruct v as [s|]; simpl;
    [apply lookup_insert_ne | apply lookup_delete_ne]; exact Hne.
Qed.

(** The uid of a built event is never empty. *)
Lemma toIcsEvent_uid_nonempty {Server : Type} `{H : Host Server}
    (r : ObsidianEvent) (w : World) (ev : IcsEvent) (w1 : World) :
  toIcsEvent r w = (Ok ev, w1) -> uid ev <> "".
Proof.
  intros Hev. destruct (toIcsEvent_run r w) as (u & w' & Hu & Hrun).
  rewrite Hrun in Hev. injection Hev as <- _. simpl.
  unfold event_uid in Hu.
  assert (Hfresh : forall x : string, x +:+ UID_NAMESPACE <> "").
  { intros x. destruct x; discriminate. }
  destruct (guid r) as [g|].
  - destruct (JS.truthy (Some g)) eqn:E.
    + injection Hu as <- _. apply truthy_Some. exact E.
    + injection Hu as <- _. apply Hfresh.
  - injection Hu as <- _. apply Hfresh.
Qed.

(** A successful push of a note: the edit of its front matter is put in
    flight, and nothing else changes in the vault. *)
Lemma syncEventFile_accepted {Server : Type} `{H : Host Server}
    (doc : string) (f : TFile) (r : ObsidianEvent) (w : World)
    (ev : IcsEvent) (w1 : World) (ics auth : string) (put chk : Response)
    (s1 s2 : Server) (cal : IcsCalendar) :
  vault w !! doc = Some f ->
  tryCreateObsidianEvent (basename f) (fileCache f) (content f) = Some r ->
  toIcsEvent r w = (Ok ev, w1) ->
  generateIcsCalendar (single_event_calendar ev) = Ok ics ->
  btoa (credentials (settings w1)) = Ok auth ->
  requestUrl (server w1) (put_request (settings w1) auth ics ev)
  = (Responded put, s1) ->
  is_2xx (status put) ->
  requestUrl s1 (check_request (settings w1) auth ev) = (Responded chk, s2) ->
  is_2xx (status chk) ->
  convertIcsCalendar (text chk) = Ok cal ->
  syncEventFile doc w
  = (Ok tt,
     set_pending
       (pending w ++ [(doc, store_identifiers (confirmed r ev cal))])%list
       (set_server s2 w1))
  /\ vault w1 = vault w.
Proof.
  intros Hdoc Hrec Hev Hics Hauth Hput Hp Hchk Hc Hcal.
  destruct (toIcsEvent_frame r w ev w1 Hev) as (Hv & _ & _ & _ & _ & _ & Hpe).
  split; [|exact Hv].
  rewrite (syncEventFile_run doc f r w Hdoc Hrec). unfold bind.
  rewrite (syncEvent_accepted r w ev w1 ics auth put chk s1 s2 cal
             Hev Hics Hauth Hput Hp Hchk Hc Hcal).
  cbn [fst snd]. unfold processFrontMatter, modify.
  cbn [pending set_server]. rewrite Hpe. reflexivity.
Qed.

(** What the edit of an accepted push does to a front matter. *)
Lemma store_identifiers_lookup (r : ObsidianEvent) (ev : IcsEvent)
    (cal : IcsCalendar) (fm : gmap string string) :
  store_identifiers (confirmed r ev cal) fm !! "guid" = Some (uid ev)
  /\ store_identifiers (confirmed r ev cal) fm !! "url" = first_event_url cal
  /\ forall key, key <> "guid" -> key <> "url" ->
                 store_identifiers (confirmed r ev cal) fm !! key = fm !! key.
Proof.
  unfold store_identifiers, confirmed. cbn [url guid]. split; [|split].
  - rewrite fm_assign_lookup_ne by discriminate. apply fm_assign_lookup.
  - apply fm_assign_lookup.
  - intros key Hg Hu. rewrite !fm_assign_lookup_ne by congruence. reflexivity.
Qed.

(** X5.  An accepted push, verified with a text that the parser reads, puts
    one edit of the note's front matter in flight and leaves the vault as it
    is.  Carried out, the edit stores the uid that was pushed under [guid]
    and the URL of the first VEVENT of the verify answer under [url] (no
    [url] when there is none) and keeps the other keys; the text of the note
    becomes what the host rewrites it to, and every other note is as
    before. *)
Theorem syncEventFile_persists {Server : Type} `{H : Host Server}
    (doc : string) (f : TFile) (r : ObsidianEvent) (w : World)
    (ev : IcsEvent) (w1 : World) (ics auth : string) (put chk : Response)
    (s1 s2 : Server) (cal : IcsCalendar) :
  vault w !! doc = Some f ->
  tryCreateObsidianEvent (basename f) (fileCache f) (content f) = Some r ->
  toIcsEvent r w = (Ok ev, w1) ->
  generateIcsCalendar (single_event_calendar ev) = Ok ics ->
  btoa (credentials (settings w1)) = Ok auth ->
  requestUrl (server w1) (put_request (settings w1) auth ics ev)
  = (Responded put, s1) ->
  is_2xx (status put) ->
  requestUrl s1 (check_request (settings w1) auth ev) = (Responded chk, s2) ->
  is_2xx (status chk) ->
  convertIcsCalendar (text chk) = Ok cal ->
  exists w' fn fm fm',
    syncEventFile doc w = (Ok tt, w')
    /\ vault w' = vault w
    /\ pending w' = (pending w ++ [(doc, fn)])%list
    /\ note_frontmatter f = Some fm
    /\ fn fm = fm'
    /\ fm' !! "guid" = Some (uid ev)
    /\ fm' !! "url" = first_event_url cal
    /\ (forall key, key <> "guid" -> key <> "url" -> fm' !! key = fm !! key)
    /\ apply_edit (doc, fn) (vault w') !! doc
       = Some {| basename := basename f;
                 content := fst (rewriteFrontMatter f fm');
                 fileCache :=
                   Some {| frontmatter := Some fm';
                           frontmatterEnd := snd (rewriteFrontMatter f fm') |} |}
    /\ (forall other, other <> doc ->
          apply_edit (doc, fn) (vault w') !! other = vault w !! other).
Proof.
  intros Hdoc Hrec Hev Hics Hauth Hput Hp Hchk Hc Hcal.
  destruct (syncEventFile_accepted doc f r w ev w1 ics auth put chk s1 s2 cal
              Hdoc Hrec Hev Hics Hauth Hput Hp Hchk Hc Hcal) as (Hrun & Hv).
  destruct (tryCreateObsidianEvent_Some _ _ _ _ Hrec)
    as (md & fm & d & Hmd & Hfm & _).
  assert (Hnote : note_frontmatter f = Some fm).
  { unfold note_frontmatter. rewrite Hmd. exact Hfm. }
  destruct (store_identifiers_lookup r ev cal fm) as (Hg & Hu & Hkeep).
  eexists _, (store_identifiers (confirmed r ev cal)), fm, _.
  split; [exact Hrun|]. cbn [vault pending set_pending set_server].
  split; [exact Hv|]. split; [reflexivity|]. split; [exact Hnote|].
  split; [reflexivity|]. split; [exact Hg|]. split; [exact Hu|].
  split; [exact Hkeep|]. unfold apply_edit. cbn [fst snd]. rewrite Hv. split.
  - rewrite lookup_alter_eq, Hdoc. cbn [fmap option_fmap option_map].
    unfold edited. rewrite Hnote. reflexivity.
  - intros other Hne. apply lookup_alter_ne. congruence.
Qed.

Lemma syncEventFile_persists_witness :
  exists w',
    syncEventFile (H := TestHost.standard) "Calendar/Standup.md"
      TestHost.one_accepted
    = (Ok tt, w')
    /\ vault w' = TestHost.notes
    /\ map fst (pending w') = ["Calendar/Standup.md"]
    /\ stored_guid (snd (land_edits (H := TestHost.standard) w'))
         "Calendar/Standup.md"
       = "3f2c1a7e-5b4d-4c8e-9a6f-000000000000@obsidian.md"
    /\ vault (snd (land_edits (H := TestHost.standard) w')) !! "Calendar/Trip.md"
       = Some TestHost.trip_note.
Proof.
  destruct (syncEventFile_persists (H := TestHost.standard)
              "Calendar/Standup.md" TestHost.standup_note TestHost.standup
              TestHost.one_accepted
              (TestHost.built TestHost.standup TestHost.one_accepted)
              (TestHost.after_build TestHost.standup TestHost.one_accepted)
              (TestHost.printed TestHost.standup TestHost.one_accepted)
              TestHost.auth
              {| status := 201; text := "" |}
              {| status := 207; text := TestHost.VERIFY |}
              [TestHost.answer 207 TestHost.VERIFY] []
              (TestHost.calendar_of [TestHost.abc]))
    as (w' & fn & fm & fm' & Hrun & Hv & Hp & _).
  - vm_compute. reflexivity.
  - vm_compute. reflexivity.
  - vm_compute. reflexivity.
  - vm_compute. reflexivity.
  - vm_compute. reflexivity.
  - vm_compute. reflexivity.
  - vm_compute. split; discriminate.
  - vm_compute. reflexivity.
  - vm_compute. split; discriminate.
  - vm_compute. reflexivity.
  - assert (Hw : w' = snd (syncEventFile (H := TestHost.standard)
                             "Calendar/Standup.md" TestHost.one_accepted))
      by (rewrite Hrun; reflexivity).
    exists w'. split; [exact Hrun|]. split; [exact Hv|].
    split; [rewrite Hp; reflexivity|].
    split; rewrite Hw; vm_compute; reflexivity.
Defined.

(** X6.  Once the edit of an accepted push is carried out, the note yields a
    record again: the same fields, the pushed uid as guid, the URL read back
    as url, and as description what follows the rewritten front matter.
    Mapping that record reuses the uid without calling the generator: a
    second synchronisation addresses the same remote event. *)
Theorem second_sync_reuses_uid {Server : Type} `{H : Host Server}
    (doc : string) (f : TFile) (r : ObsidianEvent) (w : World)
    (ev : IcsEvent) (w1 : World) (ics auth : string) (put chk : Response)
    (s1 s2 : Server) (cal : IcsCalendar) :
  vault w !! doc = Some f ->
  tryCreateObsidianEvent (basename f) (fileCache f) (content f) = Some r ->
  toIcsEvent r w = (Ok ev, w1) ->
  generateIcsCalendar (single_event_calendar ev) = Ok ics ->
  btoa (credentials (settings w1)) = Ok auth ->
  requestUrl (server w1) (put_request (settings w1) auth ics ev)
  = (Responded put, s1) ->
  is_2xx (status put) ->
  requestUrl s1 (check_request (settings w1) auth ev) = (Responded chk, s2) ->
  is_2xx (status chk) ->
  convertIcsCalendar (text chk) = Ok cal ->
  pending w = [] ->
  exists w' f' r' fm,
    (syncEventFile doc ;; land_edits) w = (Ok tt, w')
    /\ vault w' !! doc = Some f'
    /\ tryCreateObsidianEvent (basename f') (fileCache f') (content f') = Some r'
    /\ note_frontmatter f = Some fm
    /\ r' = {| date := date r; start_time := start_time r;
               end_time := end_time r; summary := summary r;
               description :=
                 rewritten_body f (store_identifiers (confirmed r ev cal) fm);
               location := location r;
               url := first_event_url cal;
               guid := Some (uid ev) |}
    /\ forall w2,
         exists ev2 w3,
           toIcsEvent r' w2 = (Ok ev2, w3)
           /\ uid ev2 = uid ev
           /\ uuid_calls w3 = uuid_calls w2.
Proof.
  intros Hdoc Hrec Hev Hics Hauth Hput Hp Hchk Hc Hcal Hpending.
  destruct (syncEventFile_accepted doc f r w ev w1 ics auth put chk s1 s2 cal
              Hdoc Hrec Hev Hics Hauth Hput Hp Hchk Hc Hcal) as (Hrun & Hv).
  destruct (tryCreateObsidianEvent_Some _ _ _ _ Hrec)
    as (md & fm & d & Hmd & Hfm & Hty & Hd & Hne & Hr).
  assert (Hnote : note_frontmatter f = Some fm).
  { unfold note_frontmatter. rewrite Hmd. exact Hfm. }
  destruct (store_identifiers_lookup r ev cal fm) as (Hg & Hu & Hkeep).
  set (fm' := store_identifiers (confirmed r ev cal) fm) in *.
  set (f' := {| basename := basename f;
                content := fst (rewriteFrontMatter f fm');
                fileCache :=
                  Some {| frontmatter := Some fm';
                          frontmatterEnd := snd (rewriteFrontMatter f fm') |} |}).
  set (r' := {| date := date r; start_time := start_time r;
                end_time := end_time r; summary := summary r;
                description :=
                  JS.slice (snd (rewriteFrontMatter f fm') + 1)
                           (fst (rewriteFrontMatter f fm'));
                location := location r;
                url := first_event_url cal;
                guid := Some (uid ev) |}).
  eexists _, f', r', fm. split; [|split; [|split; [|split; [exact Hnote|split]]]].
  - unfold bind. rewrite Hrun. reflexivity.
  - cbn [vault pending set_pending set_vault set_server]. rewrite Hpending.
    cbn [app foldl]. unfold apply_edit. cbn [fst snd].
    rewrite Hv, lookup_alter_eq, Hdoc. cbn [fmap option_fmap option_map].
    unfold edited. rewrite Hnote. reflexivity.
  - unfold f'. cbn [basename fileCache content].
    erewrite tryCreateObsidianEvent_built with (d := d); [|reflexivity|..].
    + unfold r'. subst r. cbn [date start_time end_time summary description
                                 location url guid].
      rewrite Hg, Hu, !Hkeep by discriminate. reflexivity.
    + rewrite Hkeep by discriminate. exact Hty.
    + rewrite Hkeep by discriminate. exact Hd.
    + exact Hne.
  - reflexivity.
  - intros w2. destruct (toIcsEvent_run r' w2) as (u & w3 & Hu' & Hrun2).
    rewrite (event_uid_reused r' (uid ev) _ eq_refl
               (toIcsEvent_uid_nonempty r w ev w1 Hev)) in Hu'.
    injection Hu' as <- <-.
    eexists _, _. split; [exact Hrun2|]. split; reflexivity.
Qed.

Lemma second_sync_reuses_uid_witness :
  exists w' f' r',
    (syncEventFile (H := TestHost.standard) "Calendar/Standup.md" ;;
     land_edits (H := TestHost.standard)) TestHost.one_accepted
    = (Ok tt, w')
    /\ vault w' !! "Calendar/Standup.md" = Some f'
    /\ tryCreateObsidianEvent (basename f') (fileCache f') (content f') = Some r'
    /\ guid r' = Some "3f2c1a7e-5b4d-4c8e-9a6f-000000000000@obsidian.md"
    /\ url r' = Some "https://cal.example/abc"
    /\ description r' = "Daily sync".
Proof.
  destruct (second_sync_reuses_uid (H := TestHost.standard)
              "Calendar/Standup.md" TestHost.standup_note TestHost.standup
              TestHost.one_accepted
              (TestHost.built TestHost.standup TestHost.one_accepted)
              (TestHost.after_build TestHost.standup TestHost.one_accepted)
              (TestHost.printed TestHost.standup TestHost.one_accepted)
              TestHost.auth
              {| status := 201; text := "" |}
              {| status := 207; text := TestHost.VERIFY |}
              [TestHost.answer 207 TestHost.VERIFY] []
              (TestHost.calendar_of [TestHost.abc]))
    as (w' & f' & r' & fm & Hrun & Hnote & Hagain & Hfm & Hr' & _).
  - vm_compute. reflexivity.
  - vm_compute. reflexivity.
  - vm_compute. reflexivity.
  - vm_compute. reflexivity.
  - vm_compute. reflexivity.
  - vm_compute. reflexivity.
  - vm_compute. split; discriminate.
  - vm_compute. reflexivity.
  - vm_compute. split; discriminate.
  - vm_compute. reflexivity.
  - reflexivity.
  - exists w', f', r'. split; [exact Hrun|]. split; [exact Hnote|].
    split; [exact Hagain|]. rewrite Hr'. cbn [guid url description].
    split; [reflexivity|]. split; [reflexivity|].
    assert (Efm : fm = TestHost.standup_frontmatter)
      by (cbn in Hfm; congruence).
    rewrite Efm. vm_compute. reflexivity.
Defined.

(** ** The push phase and the [sync-event] command *)

(** X7.  The push phase shows no notice and creates no note; it keeps the
    settings and the set of notes of the vault. *)
Theorem push_phase_quiet {Server : Type} `{H : Host Server} (w : World) :
  notices (snd (push_phase w)) = notices w
  /\ creations (snd (push_phase w)) = creations w
  /\ settings (snd (push_phase w)) = settings w
  /\ dom (vault (snd (push_phase w))) = dom (vault w).
Proof.
  destruct (push_phase_run w) as (res & w' & Hrun & (Hn & Hc & Hs & Hv) & _).
  rewrite Hrun. cbn [snd]. rewrite Hv. auto.
Qed.

(** X8.  The [sync-event] command never creates a note.  Without an active
    file it shows one notice and changes nothing else.  With an active file
    it shows no notice, whether the push succeeds or not, and leaves every
    other note as it is: the vault is unchanged, and an edit it puts in
    flight is one of the active file. *)
Theorem sync_event_feedback {Server : Type} `{H : Host Server}
    (active_file : option string) (w : World) :
  creations (snd (sync_event active_file w)) = creations w
  /\ settings (snd (sync_event active_file w)) = settings w
  /\ (active_file = None ->
      sync_event active_file w
      = (Ok tt, set_notices (notices w ++ [NO_ACTIVE_FILE])%list w))
  /\ (forall file, active_file = Some file ->
        notices (snd (sync_event active_file w)) = notices w
        /\ (forall other, other <> file ->
              vault (snd (sync_event active_file w)) !! other = vault w !! other)
        /\ (forall edit, edit ∈ pending (snd (sync_event active_file w)) ->
              edit ∈ pending w \/ fst edit = file)).
Proof.
  destruct active_file as [file|]; simpl.
  - destruct (syncEventFile file w) as [res w'] eqn:Hrun.
    destruct (syncEventFile_quiet _ _ _ _ Hrun) as ((Hn & Hc & Hs & Hv) & Hp).
    simpl. split; [exact Hc|]. split; [exact Hs|]. split; [discriminate|].
    intros file' Hf. injection Hf as <-. split; [exact Hn|]. split.
    + intros other _. rewrite Hv. reflexivity.
    + intros edit Hin. destruct Hp as [Hp | [fn Hp]]; rewrite Hp in Hin;
        [left; exact Hin|].
      apply elem_of_app in Hin as [Hin | Hin]; [left; exact Hin|].
      apply list_elem_of_singleton in Hin as ->. right. reflexivity.
  - split; [reflexivity|]. split; [reflexivity|]. split; [reflexivity|].
    discriminate.
Qed.

Lemma sync_event_feedback_witness :
  sync_event (H := TestHost.standard) None (TestHost.world TestHost.notes [])
  = (Ok tt, set_notices [NO_ACTIVE_FILE] (TestHost.world TestHost.notes []))
  /\ notices (snd (sync_event (H := TestHost.standard)
                     (Some "Calendar/Standup.md") TestHost.one_accepted))
     = [].
Proof.
  destruct (sync_event_feedback (H := TestHost.standard) None
              (TestHost.world TestHost.notes []))
    as (_ & _ & Hnone & _).
  destruct (sync_event_feedback (H := TestHost.standard)
              (Some "Calendar/Standup.md") TestHost.one_accepted)
    as (_ & _ & _ & Hsome).
  split.
  - rewrite (Hnone eq_refl). reflexivity.
  - destruct (Hsome "Calendar/Standup.md" eq_refl) as [Hn _].
    rewrite Hn. reflexivity.
Defined.

(** ** The import loop *)

Section FateFacts.

Context {Server : Type} `{H : Host Server}.
Local Abbreviation World := (@World Server).
Local Abbreviation M := (@M Server).

(** What an iteration does, by the fate of its event. *)
Lemma import_event_by_fate (my_set : gset string) (value : IcsEvent) (w : World) :
  match fate my_set value with
  | Known => import_event my_set value w = (Ok tt, w)
  | Rejected =>
      import_event my_set value w
      = (Ok tt, set_notices (notices w ++ [MULTIDAY_UNSUPPORTED])%list w)
  | Materialized =>
      match ev_summary value with
      | Some s =>
          exists data,
            import_event my_set value w = vault_create (note_path w s) data w
      | None => import_event my_set value w = (Throw NO_SUMMARY, w)
      end
  end.
Proof.
  assert (Hcreate : forall props,
             match ev_summary value with
             | Some s =>
                 exists data,
                   create_record value props w
                   = vault_create (note_path w s) data w
             | None => create_record value props w = (Throw NO_SUMMARY, w)
             end).
  { intros props. unfold create_record.
    destruct (ev_summary value); [eexists; reflexivity | reflexivity]. }
  unfold fate, import_event.
  destruct (bool_decide (uid value ∈ my_set)); [reflexivity|].
  destruct (bool_decide (d_type (start value) = Some DATE_TIME));
    [|apply Hcreate].
  destruct (end_ value) as [e|]; simpl; [|apply Hcreate].
  destruct (String.eqb _ _); [apply Hcreate | reflexivity].
Qed.

Lemma count_fate_cons (f : Fate) (my_set : gset string) (v : IcsEvent)
    (values : list IcsEvent) :
  count_fate f my_set (v :: values)
  = ((if decide (fate my_set v = f) then 1 else 0)
     + count_fate f my_set values)%nat.
Proof.
  unfold count_fate. rewrite filter_cons.
  destruct (decide (fate my_set v = f)); reflexivity.
Qed.

Ltac decide_fates :=
  repeat match goal with
         | |- context [decide (?a = ?b)] =>
             let Hd := fresh "Hd" in
             destruct (decide (a = b)) as [Hd|Hd];
             [try discriminate Hd | try (exfalso; apply Hd; reflexivity)]
         end.

(** The effects of the import loop, event by event, whether it returns or
    throws. *)
Lemma import_events_effects (my_set : gset string) (values : list IcsEvent)
    (w : World) (res : Result unit) (w' : World) :
  import_events my_set values w = (res, w') ->
  server w' = server w /\ console w' = console w
  /\ settings w' = settings w /\ pending w' = pending w
  /\ exists calls k,
       creations w' = (creations w ++ calls)%list
       /\ notices w' = (notices w ++ replicate k MULTIDAY_UNSUPPORTED)%list
       /\ dom (vault w) ⊆ dom (vault w')
       /\ dom (vault w') ⊆ dom (vault w) ∪ list_to_set (map fst calls)
       /\ (length calls <= count_fate Materialized my_set values)%nat
       /\ (k <= count_fate Rejected my_set values)%nat
       /\ (res = Ok tt ->
           length calls = count_fate Materialized my_set values
           /\ k = count_fate Rejected my_set values
           /\ dom (vault w') = dom (vault w) ∪ list_to_set (map fst calls)).
Proof.
  revert w. induction values as [|v rest IH]; intros w.
  - simpl. intros Hres. injection Hres as <- <-.
    repeat split; try reflexivity. exists [], 0%nat. simpl.
    rewrite !app_nil_r. unfold count_fate. simpl.
    repeat split; try reflexivity; try lia; set_solver.
  - simpl. unfold bind. rewrite !count_fate_cons.
    pose proof (import_event_by_fate my_set v w) as Hstep.
    destruct (fate my_set v) eqn:Hf.
    + rewrite Hstep. intros Hres.
      destruct (IH w Hres)
        as (Hsv & Hco & Hse & Hpe & calls & k & Hcr & Hno & Hd1 & Hd2
            & Hl & Hk & Hok).
      repeat split; try assumption. exists calls, k.
      decide_fates. simpl. auto 10.
    + rewrite Hstep. intros Hres.
      destruct (IH _ Hres)
        as (Hsv & Hco & Hse & Hpe & calls & k & Hcr & Hno & Hd1 & Hd2
            & Hl & Hk & Hok).
      cbn [server console settings pending creations notices vault set_notices]
        in *.
      repeat split; try assumption. exists calls, (S k).
      decide_fates. split; [exact Hcr|]. split; [rewrite Hno, <- app_assoc; reflexivity|].
      split; [exact Hd1|]. split; [exact Hd2|]. split; [exact Hl|].
      split; [lia|]. intros Hres'. destruct (Hok Hres') as (-> & -> & ->).
      auto.
    + decide_fates. destruct (ev_summary v) as [s|].
      * destruct Hstep as (data & Hstep). rewrite Hstep, vault_create_run.
        destruct (create_refused (vault w) (note_path w s)) as [e|].
        -- intros Hres. injection Hres as <- <-.
           repeat split; try reflexivity.
           exists [(note_path w s, data)], 0%nat. simpl. rewrite app_nil_r.
           repeat split; try reflexivity; try lia; try set_solver.
        -- intros Hres.
           destruct (IH _ Hres)
             as (Hsv & Hco & Hse & Hpe & calls & k & Hcr & Hno & Hd1 & Hd2
                 & Hl & Hk & Hok).
           unfold after_create, after_call in *.
           cbn [server console settings pending creations notices vault
                  set_vault set_creations] in *.
           rewrite dom_insert_L in Hd1, Hd2.
           repeat split; try assumption.
           exists ((note_path w s, data) :: calls), k.
           split; [rewrite Hcr, <- app_assoc; reflexivity|].
           split; [exact Hno|]. cbn [map fst list_to_set length].
           split; [set_solver|]. split; [set_solver|].
           split; [lia|]. split; [lia|]. intros Hres'.
           destruct (Hok Hres') as (-> & -> & Hdom). rewrite Hdom, dom_insert_L.
           split; [reflexivity|]. split; [reflexivity|]. set_solver.
      * rewrite Hstep. intros Hres. injection Hres as <- <-.
        repeat split; try reflexivity. exists [], 0%nat. simpl.
        rewrite !app_nil_r.
        repeat split; try reflexivity; try lia; try set_solver.
Qed.

End FateFacts.

(** X9.  Whether the import loop returns or throws, it touches neither the
    server, the console, the settings nor the edits in flight.  It makes at
    most one [vault.create] call for each event that is neither known nor
    rejected, and shows the multi-day notice at most once for each rejected
    event and no other notice; it removes no note, and the notes it adds are
    at paths it called [vault.create] for.  When it returns, the calls and
    the notices are exactly as many as those events, and the notes of the
    vault are the old ones and the ones created. *)
Theorem import_events_accounting {Server : Type} `{H : Host Server}
    (my_set : gset string) (values : list IcsEvent) (w : World) :
  server (snd (import_events my_set values w)) = server w
  /\ console (snd (import_events my_set values w)) = console w
  /\ settings (snd (import_events my_set values w)) = settings w
  /\ pending (snd (import_events my_set values w)) = pending w
  /\ exists calls k,
       creations (snd (import_events my_set values w))
       = (creations w ++ calls)%list
       /\ notices (snd (import_events my_set values w))
          = (notices w ++ replicate k MULTIDAY_UNSUPPORTED)%list
       /\ dom (vault w) ⊆ dom (vault (snd (import_events my_set values w)))
       /\ dom (vault (snd (import_events my_set values w)))
          ⊆ dom (vault w) ∪ list_to_set (map fst calls)
       /\ (length calls <= count_fate Materialized my_set values)%nat
       /\ (k <= count_fate Rejected my_set values)%nat
       /\ (fst (import_events my_set values w) = Ok tt ->
           length calls = count_fate Materialized my_set values
           /\ k = count_fate Rejected my_set values
           /\ dom (vault (snd (import_events my_set values w)))
              = dom (vault w) ∪ list_to_set (map fst calls)).
Proof.
  destruct (import_events my_set values w) as [res w'] eqn:Hrun.
  exact (import_events_effects my_set values w res w' Hrun).
Qed.

Lemma import_events_accounting_witness :
  fst (import_events (H := TestHost.standard) {["local-1"]} TestHost.collection
         TestHost.after_fetch)
  = Ok tt
  /\ count_fate (H := TestHost.standard) Materialized {["local-1"]}
       TestHost.collection = 2%nat
  /\ count_fate (H := TestHost.standard) Rejected {["local-1"]}
       TestHost.collection = 1%nat
  /\ exists calls,
       creations (snd (import_events (H := TestHost.standard) {["local-1"]}
                         TestHost.collection TestHost.after_fetch))
       = calls
       /\ length calls = 2%nat.
Proof.
  destruct (import_events_accounting (H := TestHost.standard) {["local-1"]}
              TestHost.collection TestHost.after_fetch)
    as (_ & _ & _ & _ & calls & k & Hcr & _ & _ & _ & _ & _ & Hok).
  assert (Hres : fst (import_events (H := TestHost.standard) {["local-1"]}
                        TestHost.collection TestHost.after_fetch) = Ok tt)
    by (vm_compute; reflexivity).
  assert (Hm : count_fate (H := TestHost.standard) Materialized {["local-1"]}
                 TestHost.collection = 2%nat) by (vm_compute; reflexivity).
  assert (Hr : count_fate (H := TestHost.standard) Rejected {["local-1"]}
                 TestHost.collection = 1%nat) by (vm_compute; reflexivity).
  destruct (Hok Hres) as (Hl & _ & _).
  split; [exact Hres|]. split; [exact Hm|]. split; [exact Hr|].
  exists calls. split; [rewrite Hcr; reflexivity|]. rewrite Hl. exact Hm.
Defined.

Section TimedFacts.

Context {Server : Type} `{H : Host Server}.
Local Abbreviation World := (@World Server).
Local Abbreviation M := (@M Server).

(** The text written for a timed event. *)
Lemma md_file_timed (value : IcsEvent) :
  md_file (description_or_empty value)
    (base_props value
     ++ ("start_time", Some (formatHM (d_date (start value))))
        :: match end_ value with
           | Some e => [("end_time", Some (formatHM (d_date e)))]
           | None => []
           end)%list
  = timed_note value.
Proof.
  unfold md_file, base_props, timed_note.
  rewrite description_or_empty_default.
  destruct (end_ value) as [e|]; cbn [map join_lines fst snd app];
    rewrite !json_printed, !append_assoc; reflexivity.
Qed.

(** A timed event that ends on its start day, or has no end: one
    [vault.create] call. *)
Lemma import_event_timed (my_set : gset string) (value : IcsEvent) (s : string)
    (w : World) :
  uid value ∉ my_set ->
  d_type (start value) = Some DATE_TIME ->
  (forall e, end_ value = Some e ->
             formatDay (d_date e) = formatDay (d_date (start value))) ->
  ev_summary value = Some s ->
  import_event my_set value w
  = vault_create (note_path w s) (timed_note value) w.
Proof.
  intros Hn Hty Hday Hs. unfold import_event.
  rewrite bool_decide_eq_false_2 by exact Hn.
  rewrite bool_decide_eq_true_2 by exact Hty.
  rewrite <- md_file_timed.
  destruct (end_ value) as [e|] eqn:He; cbn [fmap option_fmap option_map].
  - rewrite (Hday e eq_refl), String.eqb_refl.
    rewrite (create_record_run value s _ w Hs), <- app_assoc. reflexivity.
  - rewrite (create_record_run value s _ w Hs). reflexivity.
Qed.

End TimedFacts.

(** X10.  An unknown DATE-TIME event with a summary that ends on the day it
    starts, or has no end, gets one [vault.create] call and no notice: the
    text carries [start_time], the HH:mm of the start, after the five base
    entries, and [end_time], the HH:mm of the end, only when there is an
    end.  The note is in the vault when the vault accepts the call; when it
    refuses, the iteration throws its error. *)
Theorem timed_event_materialized {Server : Type} `{H : Host Server}
    (my_set : gset string) (value : IcsEvent) (s : string) (w : World) :
  uid value ∉ my_set ->
  d_type (start value) = Some DATE_TIME ->
  (forall e, end_ value = Some e ->
             formatDay (d_date e) = formatDay (d_date (start value))) ->
  ev_summary value = Some s ->
  (create_refused (vault w) (note_path w s) = None ->
   import_event my_set value w
   = (Ok tt, after_create (note_path w s) (timed_note value) w))
  /\ (forall e, create_refused (vault w) (note_path w s) = Some e ->
        import_event my_set value w
        = (Throw e, after_call (note_path w s) (timed_note value) w)).
Proof.
  intros Hn Hty Hday Hs.
  rewrite (import_event_timed my_set value s w Hn Hty Hday Hs), vault_create_run.
  split.
  - intros ->. reflexivity.
  - intros e ->. reflexivity.
Qed.

Lemma timed_event_materialized_witness :
  import_event (H := TestHost.standard) {["local-1"]} TestHost.abc
    TestHost.after_fetch
  = (Ok tt,
     after_create (H := TestHost.standard) "Calendar/Review.md"
       TestHost.review_text TestHost.after_fetch)
  /\ import_event (H := TestHost.standard) {["local-1"]} TestHost.open_ended
       TestHost.after_fetch
     = (Ok tt,
        after_create (H := TestHost.standard) "Calendar/Call.md"
          TestHost.call_text TestHost.after_fetch).
Proof.
  split.
  - destruct (timed_event_materialized (H := TestHost.standard)
                {["local-1"]} TestHost.abc "Review" TestHost.after_fetch)
      as (Hok & _).
    + vm_compute. discriminate.
    + reflexivity.
    + intros e He. injection He as <-. vm_compute. reflexivity.
    + reflexivity.
    + rewrite Hok by (vm_compute; reflexivity). vm_compute. reflexivity.
  - destruct (timed_event_materialized (H := TestHost.standard)
                {["local-1"]} TestHost.open_ended "Call" TestHost.after_fetch)
      as (Hok & _).
    + vm_compute. discriminate.
    + reflexivity.
    + intros e He. discriminate He.
    + reflexivity.
    + rewrite Hok by (vm_compute; reflexivity). vm_compute. reflexivity.
Defined.

(** ** The end of the pass *)

(** X11.  When the collection is fetched with a 2xx status, what the pass
    does next depends on the text of the answer.  When the parser reads it
    and finds no list of events, the pass ends with no notice at all; when
    it finds an empty list, the notice "all events synchronised" is the only
    effect of the import phase; when the parser throws, the pass ends with
    that error, nothing logged and nothing shown. *)
Theorem empty_collection_pass {Server : Type} `{H : Host Server}
    (w : World) (my_set : gset string) (w1 : World) (auth : string)
    (r : Response) (s' : Server) :
  push_phase w = (Ok my_set, w1) ->
  btoa (credentials (settings w1)) = Ok auth ->
  requestUrl (server w1) (fetch_request (settings w1) auth)
  = (Responded r, s') ->
  is_2xx (status r) ->
  (forall cal, convertIcsCalendar (text r) = Ok cal -> events cal = None ->
     sync_all_events w = (Ok tt, set_server s' w1))
  /\ (forall cal, convertIcsCalendar (text r) = Ok cal -> events cal = Some [] ->
        sync_all_events w
        = (Ok tt, set_notices (notices w1 ++ [ALL_SYNCED])%list (set_server s' w1)))
  /\ (forall e, convertIcsCalendar (text r) = Throw e ->
        sync_all_events w = (Throw e, set_server s' w1)).
Proof.
  intros Hpush Hauth Hreq Hok.
  pose proof (fetchCalendar_accepted w1 auth r s' Hauth Hreq Hok) as Hfetch.
  rewrite (sync_all_events_unfold w my_set w1 Hpush). unfold bind.
  rewrite Hfetch. split; [|split].
  - intros cal -> Hev. unfold import_phase. rewrite Hev. reflexivity.
  - intros cal -> Hev. unfold import_phase. rewrite Hev. reflexivity.
  - intros e ->. reflexivity.
Qed.

Lemma empty_collection_pass_witness :
  sync_all_events (H := TestHost.standard)
    (TestHost.world ∅ [TestHost.answer 207 TestHost.NO_EVENTS])
  = (Ok tt, TestHost.world ∅ [])
  /\ sync_all_events (H := TestHost.empty_host)
       (TestHost.world ∅ [TestHost.answer 207 TestHost.NO_EVENTS])
     = (Ok tt, set_notices [ALL_SYNCED] (TestHost.world ∅ []))
  /\ sync_all_events (H := TestHost.standard)
       (TestHost.world ∅ [TestHost.answer 207 TestHost.MULTISTATUS])
     = (Throw "Error: the text is not a calendar", TestHost.world ∅ []).
Proof.
  split; [|split].
  - destruct (empty_collection_pass (H := TestHost.standard)
                (TestHost.world ∅ [TestHost.answer 207 TestHost.NO_EVENTS])
                ∅ (TestHost.world ∅ [TestHost.answer 207 TestHost.NO_EVENTS])
                TestHost.auth
                {| status := 207; text := TestHost.NO_EVENTS |} [])
      as [Hnone _].
    + vm_compute. reflexivity.
    + vm_compute. reflexivity.
    + vm_compute. reflexivity.
    + vm_compute. split; discriminate.
    + rewrite (Hnone TestHost.no_events); [reflexivity| |reflexivity].
      vm_compute. reflexivity.
  - destruct (empty_collection_pass (H := TestHost.empty_host)
                (TestHost.world ∅ [TestHost.answer 207 TestHost.NO_EVENTS])
                ∅ (TestHost.world ∅ [TestHost.answer 207 TestHost.NO_EVENTS])
                TestHost.auth
                {| status := 207; text := TestHost.NO_EVENTS |} [])
      as (_ & Hempty & _).
    + vm_compute. reflexivity.
    + vm_compute. reflexivity.
    + vm_compute. reflexivity.
    + vm_compute. split; discriminate.
    + rewrite (Hempty (TestHost.calendar_of [])); reflexivity.
  - destruct (empty_collection_pass (H := TestHost.standard)
                (TestHost.world ∅ [TestHost.answer 207 TestHost.MULTISTATUS])
                ∅ (TestHost.world ∅ [TestHost.answer 207 TestHost.MULTISTATUS])
                TestHost.auth
                {| status := 207; text := TestHost.MULTISTATUS |} [])
      as (_ & _ & Hthrow).
    + vm_compute. reflexivity.
    + vm_compute. reflexivity.
    + vm_compute. reflexivity.
    + vm_compute. split; discriminate.
    + rewrite (Hthrow "Error: the text is not a calendar"); [reflexivity|].
      vm_compute. reflexivity.
Defined.

(** X12.  When the PROPFIND of the collection is answered with an HTTP
    status outside 2xx, [fetchCalendar] returns no calendar and logs one
    line, "Request error <status>"; the pass then returns with no notice and
    no created note. *)
Theorem fetch_rejected_is_absent {Server : Type} `{H : Host Server}
    (w : World) (my_set : gset string) (w1 : World) (auth : string)
    (r : Response) (s' : Server) :
  push_phase w = (Ok my_set, w1) ->
  btoa (credentials (settings w1)) = Ok auth ->
  requestUrl (server w1) (fetch_request (settings w1) auth)
  = (Responded r, s') ->
  http_status (status r) -> ~ is_2xx (status r) ->
  fetchCalendar w1
  = (Ok None,
     set_console (console w1 ++ ["Request error " +:+ JS.toString (status r)])%list
                 (set_server s' w1))
  /\ sync_all_events w
     = (Ok tt,
        set_console (console w1 ++ ["Request error " +:+ JS.toString (status r)])%list
                    (set_server s' w1)).
Proof.
  intros Hpush Hauth Hreq Hh Hn.
  pose proof (fetchCalendar_rejected w1 auth r s' Hauth Hreq Hh Hn) as Hfetch.
  split; [exact Hfetch|].
  rewrite (sync_all_events_unfold w my_set w1 Hpush). unfold bind.
  rewrite Hfetch. reflexivity.
Qed.

Lemma fetch_rejected_is_absent_witness :
  sync_all_events (H := TestHost.standard)
    (TestHost.world ∅ [TestHost.answer 404 "Not Found"])
  = (Ok tt, set_console ["Request error 404"] (TestHost.world ∅ [])).
Proof.
  destruct (fetch_rejected_is_absent (H := TestHost.standard)
              (TestHost.world ∅ [TestHost.answer 404 "Not Found"])
              ∅ (TestHost.world ∅ [TestHost.answer 404 "Not Found"])
              TestHost.auth
              {| status := 404; text := "Not Found" |} [])
    as [_ Hpass].
  - vm_compute. reflexivity.
  - vm_compute. reflexivity.
  - vm_compute. reflexivity.
  - vm_compute. split; discriminate.
  - vm_compute. intros [_ Hle]. apply Hle. reflexivity.
  - rewrite Hpass. vm_compute. reflexivity.
Defined.

(** X13.  A push that was sent and failed is logged only when an error was
    thrown: a thrown error adds one line to the console, an answer outside
    2xx adds none.  Nothing is shown to the user, and the server is left as
    the last request left it: after a rejected PUT no verify request is
    sent. *)
Theorem syncEvent_failure_logging {Server : Type} `{H : Host Server}
    (r : ObsidianEvent) (w : World) (ev : IcsEvent) (w1 : World)
    (ics auth : string) (s' : Server) (err : option string) :
  toIcsEvent r w = (Ok ev, w1) ->
  generateIcsCalendar (single_event_calendar ev) = Ok ics ->
  btoa (credentials (settings w1)) = Ok auth ->
  push_fails (settings w1) auth ics ev (server w1) s' err ->
  console (snd (syncEvent r w))
  = (console w
     ++ match err with
        | Some e => [SYNC_ERROR +:+ " " +:+ e]
        | None => []
        end)%list
  /\ notices (snd (syncEvent r w)) = notices w
  /\ server (snd (syncEvent r w)) = s'.
Proof.
  intros Hev Hics Hauth Hf.
  rewrite (syncEvent_failure r w ev w1 ics auth s' err Hev Hics Hauth Hf).
  destruct (toIcsEvent_frame r w ev w1 Hev) as (_ & _ & _ & Hn & Hc & _).
  destruct err as [e|]; simpl; rewrite Hc, Hn, ?app_nil_r; auto.
Qed.

Lemma syncEvent_failure_logging_witness :
  console (snd (syncEvent (H := TestHost.standard) TestHost.standup
                  (TestHost.world TestHost.notes [])))
  = ["Ошибка синхронизации: net::ERR_INTERNET_DISCONNECTED"]
  /\ console (snd (syncEvent (H := TestHost.standard) TestHost.standup
                     (TestHost.world TestHost.notes [TestHost.answer 500 ""])))
     = [].
Proof.
  split.
  - apply (syncEvent_failure_logging (H := TestHost.standard)
             TestHost.standup (TestHost.world TestHost.notes [])
             (TestHost.built TestHost.standup (TestHost.world TestHost.notes []))
             (TestHost.after_build TestHost.standup
                (TestHost.world TestHost.notes []))
             (TestHost.printed TestHost.standup (TestHost.world TestHost.notes []))
             TestHost.auth
             [] (Some "net::ERR_INTERNET_DISCONNECTED")).
    + vm_compute. reflexivity.
    + vm_compute. reflexivity.
    + vm_compute. reflexivity.
    + apply put_throws. vm_compute. reflexivity.
  - apply (syncEvent_failure_logging (H := TestHost.standard)
             TestHost.standup
             (TestHost.world TestHost.notes [TestHost.answer 500 ""])
             (TestHost.built TestHost.standup
                (TestHost.world TestHost.notes [TestHost.answer 500 ""]))
             (TestHost.after_build TestHost.standup
                (TestHost.world TestHost.notes [TestHost.answer 500 ""]))
             (TestHost.printed TestHost.standup
                (TestHost.world TestHost.notes [TestHost.answer 500 ""]))
             TestHost.auth
             [] None).
    + vm_compute. reflexivity.
    + vm_compute. reflexivity.
    + vm_compute. reflexivity.
    + apply put_rejected with (p := {| status := 500; text := "" |}).
      * vm_compute. reflexivity.
      * vm_compute. split; discriminate.
      * vm_compute. intros [_ Hle]. apply Hle. reflexivity.
Defined.

(** ** From a record to an event and back *)

(** X14.  When the event built from a record is imported as an unknown
    event, it is either rejected as multi-day, which only a record with a
    start time can be, or it gets a [vault.create] call for a note named
    after the record's summary, with the record's description as text, the
    record's location under [location], the uid under [guid] and nothing
    under [url]. *)
Theorem record_round_trip {Server : Type} `{H : Host Server}
    (r : ObsidianEvent) (w : World) (ev : IcsEvent) (w1 : World)
    (my_set : gset string) (w2 : World) :
  toIcsEvent r w = (Ok ev, w1) ->
  uid ev ∉ my_set ->
  (JS.truthy (start_time r) = true
   /\ import_event my_set ev w2
      = (Ok tt, set_notices (notices w2 ++ [MULTIDAY_UNSUPPORTED])%list w2))
  \/ exists props,
       import_event my_set ev w2
       = vault_create (note_path w2 (summary r))
           (md_file (description r) props) w2
       /\ firstn 5 props
          = [("type", Some "calendar-event");
             ("date", Some (formatDay (d_date (start ev))));
             ("guid", Some (uid ev));
             ("url", None);
             ("location", location r)].
Proof.
  intros Hev Hn. destruct (toIcsEvent_run r w) as (u & w' & _ & Hrun).
  rewrite Hrun in Hev. injection Hev as Hev _.
  assert (Hdesc : forall props,
             create_record ev props w2
             = vault_create (note_path w2 (summary r))
                 (md_file (description r) props) w2).
  { intros props. rewrite <- Hev. erewrite create_record_run by reflexivity.
    rewrite description_or_empty_default. reflexivity. }
  assert (Hst : start ev = fst (event_dates r)) by (rewrite <- Hev; reflexivity).
  assert (Hen : end_ ev = Some (snd (event_dates r)))
    by (rewrite <- Hev; reflexivity).
  assert (Hloc : ev_location ev = location r) by (rewrite <- Hev; reflexivity).
  assert (Hurl : ev_url ev = None) by (rewrite <- Hev; reflexivity).
  unfold import_event. rewrite bool_decide_eq_false_2 by exact Hn.
  rewrite Hen. cbn [fmap option_fmap option_map].
  assert (Hbase : forall more,
             firstn 5 (base_props ev ++ more)
             = [("type", Some "calendar-event");
                ("date", Some (formatDay (d_date (start ev))));
                ("guid", Some (uid ev));
                ("url", None);
                ("location", location r)]).
  { intros more. unfold base_props. rewrite Hloc, Hurl. reflexivity. }
  destruct (bool_decide (d_type (start ev) = Some DATE_TIME)) eqn:Hty.
  - apply bool_decide_eq_true_1 in Hty.
    assert (Hs : JS.truthy (start_time r) = true).
    { rewrite Hst in Hty. unfold event_dates in Hty.
      destruct (JS.truthy (start_time r)); [reflexivity | discriminate Hty]. }
    destruct (String.eqb _ _).
    + right. eexists. split; [apply Hdesc|]. rewrite <- app_assoc. apply Hbase.
    + left. split; [exact Hs | reflexivity].
  - right. eexists. split; [apply Hdesc|].
    rewrite <- (app_nil_r (base_props ev)). apply Hbase.
Qed.

Lemma record_round_trip_witness :
  exists data,
    import_event (H := TestHost.standard) ∅
      (TestHost.built TestHost.trip (TestHost.world ∅ []))
      (TestHost.world ∅ [])
    = (Ok tt,
       after_create (H := TestHost.standard) "Calendar/Trip.md" data
         (TestHost.world ∅ []))
    /\ data
       = md_file (H := TestHost.standard) "pack"
           [("type", Some "calendar-event"); ("date", Some "2024-05-02");
            ("guid", Some "local-1"); ("url", None);
            ("location", Some "Oslo")].
Proof.
  destruct (record_round_trip (H := TestHost.standard) TestHost.trip
              (TestHost.world ∅ [])
              (TestHost.built TestHost.trip (TestHost.world ∅ []))
              (TestHost.after_build TestHost.trip (TestHost.world ∅ []))
              ∅ (TestHost.world ∅ []))
    as [[Hs _] | (props & Hrun & Hprops)].
  - vm_compute. reflexivity.
  - apply not_elem_of_empty.
  - discriminate Hs.
  - eexists. split; [vm_compute; reflexivity|]. vm_compute. reflexivity.
Defined.

(** X15.  A record with a start time and an end time is mapped to an event
    whose start and end are the date-times [<date>T<start_time>:00] and
    [<date>T<end_time>:00], both typed DATE-TIME and both on the record's
    date; the one-hour default is not used, and the end is not compared
    with the start. *)
Theorem toIcsEvent_explicit_end {Server : Type} `{H : Host Server}
    (r : ObsidianEvent) (w : World) :
  JS.truthy (start_time r) = true ->
  JS.truthy (end_time r) = true ->
  exists ev w' st en,
    toIcsEvent r w = (Ok ev, w')
    /\ start_time r = Some st /\ end_time r = Some en
    /\ start ev = {| d_date := parseDate (date r +:+ "T" +:+ st +:+ ":00");
                     d_type := Some DATE_TIME |}
    /\ end_ ev = Some {| d_date := parseDate (date r +:+ "T" +:+ en +:+ ":00");
                         d_type := Some DATE_TIME |}.
Proof.
  intros Hs He. destruct (toIcsEvent_run r w) as (u & w' & _ & Hrun).
  destruct (start_time r) as [st|] eqn:Est; [|discriminate].
  destruct (end_time r) as [en|] eqn:Een; [|discriminate].
  eexists _, w', st, en. split; [exact Hrun|].
  unfold event_dates. rewrite Est, Een, Hs, He. simpl. auto.
Qed.

Lemma toIcsEvent_explicit_end_witness :
  exists ev w',
    toIcsEvent (H := TestHost.standard) TestHost.late_start (TestHost.world ∅ [])
    = (Ok ev, w')
    /\ start ev = {| d_date := JS.Instant 1714557600000; d_type := Some DATE_TIME |}
    /\ end_ ev = Some {| d_date := JS.Instant 1714554000000; d_type := Some DATE_TIME |}.
Proof.
  destruct (toIcsEvent_explicit_end (H := TestHost.standard)
              TestHost.late_start (TestHost.world ∅ []) eq_refl eq_refl)
    as (ev & w' & st & en & Hrun & Hst & Hen & Hstart & Hend).
  injection Hst as <-. injection Hen as <-.
  exists ev, w'. split; [exact Hrun|]. split.
  - rewrite Hstart. reflexivity.
  - rewrite Hend. reflexivity.
Defined.

(** ** Request URLs and status codes *)

(** X16.  The collection URL always ends with a slash: a calendar URL that
    ends with one is used as it is, any other gets one slash appended.  The
    collection is fetched at that URL, an event is pushed at that URL
    followed by its uid, and verified at the push URL followed by [.ics]. *)
Theorem collection_url_normalised
    (cfg : ObsidianCalDAVPluginSettings) (auth ics : string) (ev : IcsEvent) :
  JS.endsWith (collection_url cfg) "/" = true
  /\ (JS.endsWith (yandexCalendarUrl cfg) "/" = true ->
      collection_url cfg = yandexCalendarUrl cfg)
  /\ (JS.endsWith (yandexCalendarUrl cfg) "/" = false ->
      collection_url cfg = yandexCalendarUrl cfg +:+ "/")
  /\ req_url (fetch_request cfg auth) = collection_url cfg
  /\ req_url (put_request cfg auth ics ev) = collection_url cfg +:+ uid ev
  /\ req_url (check_request cfg auth ev)
     = req_url (put_request cfg auth ics ev) +:+ ".ics".
Proof.
  assert (Hurl : collection_url cfg
                 = if JS.endsWith (yandexCalendarUrl cfg) "/"
                   then yandexCalendarUrl cfg
                   else yandexCalendarUrl cfg +:+ "/").
  { unfold collection_url.
    destruct (JS.endsWith (yandexCalendarUrl cfg) "/");
      [apply append_nil_r | reflexivity]. }
  split; [|split; [|split; [|split; [|split]]]].
  - rewrite Hurl. destruct (JS.endsWith (yandexCalendarUrl cfg) "/") eqn:E;
      [exact E | apply endsWith_slash].
  - intros E. rewrite Hurl, E. reflexivity.
  - intros E. rewrite Hurl, E. reflexivity.
  - reflexivity.
  - reflexivity.
  - unfold check_request, put_request. cbn [req_url].
    rewrite append_assoc. reflexivity.
Qed.

Lemma collection_url_normalised_witness :
  collection_url TestHost.cfg = "https://cal.example/events/"
  /\ collection_url
       {| eventsDirectory := "Calendar"; yandexUsername := "user";
          yandexAppPassword := "secret";
          yandexCalendarUrl := "https://cal.example/events/" |}
     = "https://cal.example/events/".
Proof.
  split.
  - apply (proj1 (proj2 (proj2 (collection_url_normalised
                                  TestHost.cfg "" "" TestHost.abc)))).
    reflexivity.
  - apply (proj1 (proj2 (collection_url_normalised
                           {| eventsDirectory := "Calendar";
                              yandexUsername := "user";
                              yandexAppPassword := "secret";
                              yandexCalendarUrl := "https://cal.example/events/" |}
                           "" "" TestHost.abc))).
    reflexivity.
Defined.

Lemma small_numbers_ok :
  forallb (fun st =>
             Bool.eqb (JS.startsWith (JS.toString st) "2")
                      ((st =? 2) || ((20 <=? st) && (st <=? 29))
                       || ((200 <=? st) && (st <=? 299))
                       || ((2000 <=? st) && (st <=? 2999))))
          small_numbers = true.
Proof. vm_compute. reflexivity. Qed.

(** X17.  The test for success reads the decimal form of the status: below
    10000 it accepts exactly 2, 20 to 29, 200 to 299 and 2000 to 2999. *)
Theorem status_ok_textual (r : Response) :
  0 <= status r <= 9999 ->
  (status_ok r = true <-> starts_with_2 (status r)).
Proof.
  intros [Hlo Hhi]. unfold status_ok, starts_with_2.
  pose proof (proj1 (forallb_forall _ _) small_numbers_ok (status r)) as Ht.
  assert (Hin : In (status r) small_numbers).
  { unfold small_numbers. rewrite <- (Z2Nat.id (status r)) by lia.
    apply in_map, in_seq. lia. }
  specialize (Ht Hin). apply Bool.eqb_prop in Ht. rewrite Ht.
  rewrite !orb_true_iff, !andb_true_iff, !Z.leb_le, Z.eqb_eq. tauto.
Qed.

Lemma status_ok_textual_witness :
  status_ok {| status := 2000; text := "" |} = true
  /\ status_ok {| status := 199; text := "" |} = false.
Proof.
  split.
  - apply (status_ok_textual {| status := 2000; text := "" |}).
    + simpl. lia.
    + right. right. right. simpl. lia.
  - destruct (status_ok {| status := 199; text := "" |}) eqn:E; [|reflexivity].
    apply (status_ok_textual {| status := 199; text := "" |}) in E.
    + destruct E as [E | [E | [E | E]]]; simpl in E; lia.
    + simpl. lia.
Defined.

(** ** Settings *)

Lemma default_settings_lookup (key : string) :
  DEFAULT_SETTINGS !! key
  = if bool_decide (key = "eventsDirectory" \/ key = "yandexUsername"
                    \/ key = "yandexAppPassword" \/ key = "yandexCalendarUrl")
    then Some "" else None.
Proof.
  unfold DEFAULT_SETTINGS. rewrite !lookup_insert, lookup_empty.
  repeat case_decide; repeat case_bool_decide; try reflexivity;
    subst; exfalso; intuition congruence.
Qed.

Lemma loadSettings_lookup (st : PluginState) (key : string) :
  plugin_settings (loadSettings st) !! key
  = match plugin_data st with
    | Some data =>
        match data !! key with
        | Some v => Some v
        | None => DEFAULT_SETTINGS !! key
        end
    | None => DEFAULT_SETTINGS !! key
    end.
Proof.
  unfold loadSettings, object_assign. cbn [plugin_settings].
  rewrite (right_id_L ∅ (∪)).
  destruct (plugin_data st) as [data|]; [|reflexivity].
  rewrite lookup_union. destruct (data !! key) as [v|]; simpl.
  - destruct (DEFAULT_SETTINGS !! key); reflexivity.
  - destruct (DEFAULT_SETTINGS !! key); reflexivity.
Qed.

(** X18.  Loading the settings defines the four keys whatever was saved: a
    key takes its saved value when the saved data has it and the empty
    string otherwise, also when nothing was ever saved. *)
Theorem loadSettings_defaults (st : PluginState) (key : string) :
  key = "eventsDirectory" \/ key = "yandexUsername"
  \/ key = "yandexAppPassword" \/ key = "yandexCalendarUrl" ->
  plugin_settings (loadSettings st) !! key
  = Some (match plugin_data st with
          | Some data => default "" (data !! key)
          | None => ""
          end).
Proof.
  intros Hkey. rewrite loadSettings_lookup, default_settings_lookup.
  rewrite bool_decide_eq_true_2 by exact Hkey.
  destruct (plugin_data st) as [data|]; [|reflexivity].
  destruct (data !! key); reflexivity.
Qed.

Lemma loadSettings_defaults_witness :
  settings_of
    (plugin_settings
       (loadSettings
          {| plugin_settings := ∅;
             plugin_data := Some (<["yandexUsername" := "user"]> ∅) |}))
  = {| eventsDirectory := ""; yandexUsername := "user";
       yandexAppPassword := ""; yandexCalendarUrl := "" |}.
Proof.
  unfold settings_of.
  rewrite !loadSettings_defaults by (repeat (try (left; reflexivity); right);
                                     reflexivity).
  vm_compute. reflexivity.
Defined.

(** X19.  A setting changed in the settings tab survives a restart: after
    the change is saved and the settings are loaded again, the changed key
    has the new value and every other key has the value it had.  Saving and
    loading again what was loaded changes nothing. *)
Theorem settings_round_trip (st : PluginState) (key value : string) :
  plugin_settings (loadSettings (saveSettings (loadSettings st)))
  = plugin_settings (loadSettings st)
  /\ plugin_settings (loadSettings (onChange key value (loadSettings st)))
     = <[key := value]> (plugin_settings (loadSettings st)).
Proof.
  assert (Hkeep : forall m : gmap string string,
             (forall k, is_Some (DEFAULT_SETTINGS !! k) -> is_Some (m !! k)) ->
             plugin_settings (loadSettings
                                {| plugin_settings := m; plugin_data := Some m |})
             = m).
  { intros m Hm. apply map_eq. intros k. rewrite loadSettings_lookup.
    cbn [plugin_data]. destruct (m !! k) as [v|] eqn:Ek; [reflexivity|].
    destruct (DEFAULT_SETTINGS !! k) as [v|] eqn:Ed; [|reflexivity].
    destruct (Hm k (ex_intro _ v Ed)) as [v' Hv']. congruence. }
  assert (Hloaded : forall k, is_Some (DEFAULT_SETTINGS !! k) ->
                              is_Some (plugin_settings (loadSettings st) !! k)).
  { intros k [v Hv]. rewrite loadSettings_lookup.
    destruct (plugin_data st) as [data|]; [|eauto].
    destruct (data !! k); eauto. }
  split.
  - apply Hkeep. exact Hloaded.
  - unfold onChange, saveSettings. cbn [plugin_settings plugin_data].
    apply Hkeep. intros k Hk.
    destruct (decide (key = k)) as [->|Hne].
    + rewrite lookup_insert_eq. eauto.
    + rewrite lookup_insert_ne by exact Hne. apply Hloaded. exact Hk.
Qed.

(** ** The notes of a pass and the notes it creates *)

(** X20.  The pass synchronises exactly the notes of the vault whose path is
    the events directory, a slash and something more, each of them once.  A
    note of a directory whose name only begins like the events directory is
    not among them. *)
Theorem md_files_under_directory {Server : Type} (w : @World Server) :
  NoDup (md_files w)
  /\ forall doc,
       doc ∈ md_files w <->
       is_Some (vault w !! doc)
       /\ exists rest, doc = eventsDirectory (settings w) +:+ "/" +:+ rest.
Proof.
  split.
  - unfold md_files. apply NoDup_filter, NoDup_fst_map_to_list.
  - intros doc. unfold md_files.
    rewrite list_elem_of_filter, list_elem_of_fmap, startsWith_iff.
    split.
    + intros [[rest Hrest] ([p f] & -> & Hin)].
      apply elem_of_map_to_list in Hin. split; [eauto|].
      exists rest. rewrite Hrest, append_assoc. reflexivity.
    + intros [[f Hf] [rest Hrest]]. split.
      * exists rest. rewrite Hrest, append_assoc. reflexivity.
      * exists (doc, f). split; [reflexivity|].
        apply elem_of_map_to_list. exact Hf.
Qed.

Lemma md_file_header {Server : Type} `{H : Host Server}
    (text' : string) (props : list (string * option string)) :
  md_file text' props = header props +:+ LF +:+ LF +:+ text'.
Proof.
  unfold md_file, header. rewrite !append_assoc. reflexivity.
Qed.

(** X21.  A created note opens with its front-matter block and two line
    feeds, then the text.  So when the note is read back as a record, with
    the front matter ending where the block ends, the description is the
    text that was written preceded by a line feed. *)
Theorem created_note_read_back {Server : Type} `{H : Host Server}
    (filename text' : string) (props : list (string * option string))
    (md : CachedMetadata) (r : ObsidianEvent) :
  frontmatterEnd md = String.length (header props) ->
  tryCreateObsidianEvent filename (Some md) (md_file text' props) = Some r ->
  description r = LF +:+ text'.
Proof.
  intros Hend Hr.
  destruct (tryCreateObsidianEvent_Some _ _ _ _ Hr)
    as (md' & fm & d & Hmd & _ & _ & _ & _ & ->).
  injection Hmd as <-. cbn [description].
  rewrite Hend, md_file_header, Nat.add_1_r.
  change (JS.slice (S (String.length (header props)))
            (header props +:+ LF +:+ LF +:+ text'))
    with (JS.slice (S (String.length (header props)))
            (header props +:+ (String (Ascii.ascii_of_nat 10) (LF +:+ text')))).
  clear. induction (header props) as [|c h IH]; [reflexivity|].
  rewrite append_cons. exact IH.
Qed.

Lemma created_note_read_back_witness :
  (description
     <$> tryCreateObsidianEvent "Trip"
           (Some {| frontmatter := Some TestHost.trip_frontmatter;
                    frontmatterEnd := 17 |})
           (md_file (H := TestHost.standard) "pack" [("type", Some "x")]))
  = Some (LF +:+ "pack").
Proof.
  destruct (tryCreateObsidianEvent "Trip"
              (Some {| frontmatter := Some TestHost.trip_frontmatter;
                       frontmatterEnd := 17 |})
              (md_file (H := TestHost.standard) "pack" [("type", Some "x")]))
    as [r|] eqn:Hr.
  - simpl. f_equal.
    apply (created_note_read_back (H := TestHost.standard) "Trip" "pack"
             [("type", Some "x")]
             {| frontmatter := Some TestHost.trip_frontmatter;
                frontmatterEnd := 17 |} r).
    + vm_compute. reflexivity.
    + exact Hr.
  - vm_compute in Hr. discriminate Hr.
Defined.

(** X22.  Two unknown events whose summaries give the same file name are
    created at the same path: when the vault accepts the first call, the
    import loop makes a second [vault.create] call for that path, whatever
    then becomes of it. *)
Theorem same_name_same_path {Server : Type} `{H : Host Server}
    (my_set : gset string) (v1 v2 : IcsEvent) (s1 s2 : string) (w : World) :
  fate my_set v1 = Materialized ->
  fate my_set v2 = Materialized ->
  ev_summary v1 = Some s1 ->
  ev_summary v2 = Some s2 ->
  safe_name s1 = safe_name s2 ->
  create_refused (vault w) (note_path w s1) = None ->
  exists data1 data2,
    creations (snd (import_events my_set [v1; v2] w))
    = (creations w ++ [(note_path w s1, data1); (note_path w s1, data2)])%list.
Proof.
  intros H1 H2 Hs1 Hs2 Hname Hfree.
  pose proof (import_event_by_fate my_set v1 w) as Hi1.
  rewrite H1, Hs1 in Hi1. destruct Hi1 as (data1 & Hi1).
  rewrite vault_create_run, Hfree in Hi1.
  pose proof (import_event_by_fate my_set v2
                (after_create (note_path w s1) data1 w)) as Hi2.
  rewrite H2, Hs2 in Hi2. destruct Hi2 as (data2 & Hi2).
  rewrite vault_create_run in Hi2.
  assert (Hpath : note_path (after_create (note_path w s1) data1 w) s2
                  = note_path w s1).
  { unfold note_path. cbn [settings after_create after_call set_vault
                             set_creations]. rewrite Hname. reflexivity. }
  rewrite Hpath in Hi2.
  exists data1, data2. simpl. unfold bind. rewrite Hi1, Hi2.
  unfold after_create, after_call. simpl.
  match goal with
  | |- context [create_refused ?v ?p] => destruct (create_refused v p)
  end; simpl; rewrite <- app_assoc; reflexivity.
Qed.

Lemma same_name_same_path_witness :
  import_events (H := TestHost.standard) ∅
    [TestHost.remote "a" "Plan: A/B" (TestHost.at_ "2024-06-01" DATE) None;
     TestHost.remote "b" "Plan_ A:B" (TestHost.at_ "2024-06-02" DATE) None]
    (TestHost.world ∅ [])
  = (Throw "File already exists.",
     snd (import_events (H := TestHost.standard) ∅
            [TestHost.remote "a" "Plan: A/B" (TestHost.at_ "2024-06-01" DATE) None;
             TestHost.remote "b" "Plan_ A:B" (TestHost.at_ "2024-06-02" DATE) None]
            (TestHost.world ∅ [])))
  /\ map fst
       (creations
          (snd (import_events (H := TestHost.standard) ∅
                  [TestHost.remote "a" "Plan: A/B"
                     (TestHost.at_ "2024-06-01" DATE) None;
                   TestHost.remote "b" "Plan_ A:B"
                     (TestHost.at_ "2024-06-02" DATE) None]
                  (TestHost.world ∅ []))))
     = ["Calendar/Plan_ A_B.md"; "Calendar/Plan_ A_B.md"].
Proof.
  destruct (same_name_same_path (H := TestHost.standard) ∅
              (TestHost.remote "a" "Plan: A/B" (TestHost.at_ "2024-06-01" DATE) None)
              (TestHost.remote "b" "Plan_ A:B" (TestHost.at_ "2024-06-02" DATE) None)
              "Plan: A/B" "Plan_ A:B"
              (TestHost.world ∅ []))
    as (d1 & d2 & Hcr).
  - vm_compute. reflexivity.
  - vm_compute. reflexivity.
  - reflexivity.
  - reflexivity.
  - reflexivity.
  - vm_compute. reflexivity.
  - split; [vm_compute; reflexivity|]. rewrite Hcr. reflexivity.
Defined.

(** ** Errors that are not caught *)

(** X23.  [generateIcsCalendar] is called before the [try]: when it throws,
    as on the invalid date of an unparsable [date], its error is not caught.
    [syncEvent] rejects with it before any request is sent and without
    logging; so do [syncEventFile] and the [sync-event] command, and no edit
    is put in flight. *)
Theorem serialiser_error_propagates {Server : Type} `{H : Host Server}
    (r : ObsidianEvent) (w : World) (ev : IcsEvent) (w1 : World) (e : string) :
  toIcsEvent r w = (Ok ev, w1) ->
  generateIcsCalendar (single_event_calendar ev) = Throw e ->
  syncEvent r w = (Throw e, w1)
  /\ server w1 = server w /\ console w1 = console w /\ pending w1 = pending w
  /\ (forall doc f,
        vault w !! doc = Some f ->
        tryCreateObsidianEvent (basename f) (fileCache f) (content f) = Some r ->
        syncEventFile doc w = (Throw e, w1)
        /\ sync_event (Some doc) w = (Throw e, w1)).
Proof.
  intros Hev Hics.
  destruct (toIcsEvent_frame r w ev w1 Hev) as (_ & _ & Hsv & _ & Hco & _ & Hp).
  assert (Hrun : syncEvent r w = (Throw e, w1)).
  { unfold syncEvent, bind at 1. rewrite Hev. unfold bind at 1, call at 1.
    rewrite Hics. reflexivity. }
  split; [exact Hrun|]. split; [exact Hsv|]. split; [exact Hco|].
  split; [exact Hp|]. intros doc f Hdoc Hrec.
  assert (Hfile : syncEventFile doc w = (Throw e, w1)).
  { rewrite (syncEventFile_run doc f r w Hdoc Hrec). unfold bind.
    rewrite Hrun. reflexivity. }
  split; [exact Hfile | exact Hfile].
Qed.

Lemma serialiser_error_propagates_witness :
  exists w',
    sync_event (H := TestHost.standard) (Some "Calendar/Someday.md")
      (TestHost.world (<["Calendar/Someday.md" := TestHost.undated_note]> ∅)
         [TestHost.answer 201 ""])
    = (Throw "RangeError: Invalid time value", w')
    /\ server w' = [TestHost.answer 201 ""] /\ console w' = [].
Proof.
  destruct (serialiser_error_propagates (H := TestHost.standard)
              TestHost.undated
              (TestHost.world (<["Calendar/Someday.md" := TestHost.undated_note]> ∅)
                 [TestHost.answer 201 ""])
              (TestHost.built TestHost.undated
                 (TestHost.world
                    (<["Calendar/Someday.md" := TestHost.undated_note]> ∅)
                    [TestHost.answer 201 ""]))
              (TestHost.after_build TestHost.undated
                 (TestHost.world
                    (<["Calendar/Someday.md" := TestHost.undated_note]> ∅)
                    [TestHost.answer 201 ""]))
              "RangeError: Invalid time value")
    as (_ & Hsv & Hco & _ & Hfile).
  - vm_compute. reflexivity.
  - vm_compute. reflexivity.
  - destruct (Hfile "Calendar/Someday.md" TestHost.undated_note) as [_ Hcmd].
    + vm_compute. reflexivity.
    + vm_compute. reflexivity.
    + eexists. split; [exact Hcmd|]. rewrite Hsv, Hco. split; reflexivity.
Defined.

(** ** What a pass shows *)

Section PassFacts.

Context {Server : Type} `{H : Host Server}.
Local Abbreviation World := (@World Server).
Local Abbreviation M := (@M Server).

(** Whatever [fetchCalendar] does, it shows no notice, creates no note and
    keeps the vault and the settings. *)
Lemma fetchCalendar_quiet (w w' : World) (res : Result (option IcsCalendar)) :
  fetchCalendar w = (res, w') -> quiet w w'.
Proof.
  unfold fetchCalendar, bind at 1, gets. unfold bind at 1, call at 1.
  destruct (btoa _) as [auth|e];
    [|intros Hres; injection Hres as _ <-; exact (quiet_refl w)].
  unfold bind at 1. rewrite request_run.
  destruct (requestUrl (server w) _) as [[r|e] s'];
    [|intros Hres; injection Hres as _ <-; exact (quiet_refl w)].
  destruct (status_ok r).
  - unfold bind, call. destruct (convertIcsCalendar (text r));
      intros Hres; injection Hres as _ <-; exact (quiet_refl w).
  - intros Hres. injection Hres as _ <-. exact (quiet_refl w).
Qed.

End PassFacts.

(** X24.  The only notices a pass shows are the multi-day warnings, followed
    by at most one "all events synchronised": a failed push or a failed
    fetch is never shown to the user.  The pass keeps the settings; it
    removes no note, and a note it adds is at a path it called
    [vault.create] for. *)
Theorem sync_all_events_notices {Server : Type} `{H : Host Server} (w : World) :
  exists rejected last,
    notices (snd (sync_all_events w))
    = (notices w ++ replicate rejected MULTIDAY_UNSUPPORTED ++ last)%list
    /\ (last = [] \/ last = [ALL_SYNCED])
    /\ settings (snd (sync_all_events w)) = settings w
    /\ dom (vault w) ⊆ dom (vault (snd (sync_all_events w)))
    /\ dom (vault (snd (sync_all_events w)))
       ⊆ dom (vault w)
         ∪ list_to_set (map fst (drop (length (creations w))
                                      (creations (snd (sync_all_events w))))).
Proof.
  destruct (sync_all_events w) as [res wf] eqn:Hpass. cbn [snd].
  unfold sync_all_events, bind at 1 in Hpass.
  destruct (push_phase_run w) as (res1 & w1 & Hpush & (Hn1 & Hc1 & Hs1 & Hv1) & _).
  rewrite Hpush in Hpass.
  assert (Hstop : forall w2, quiet w1 w2 ->
             exists rejected last,
               notices w2
               = (notices w ++ replicate rejected MULTIDAY_UNSUPPORTED ++ last)%list
               /\ (last = [] \/ last = [ALL_SYNCED])
               /\ settings w2 = settings w
               /\ dom (vault w) ⊆ dom (vault w2)
               /\ dom (vault w2)
                  ⊆ dom (vault w)
                    ∪ list_to_set (map fst (drop (length (creations w))
                                                 (creations w2)))).
  { intros w2 (Hn2 & Hc2 & Hs2 & Hv2). exists 0%nat, []. simpl.
    rewrite app_nil_r, Hn2, Hn1, Hs2, Hs1, Hv2, Hv1. repeat split; auto.
    set_solver. }
  destruct res1 as [my_set|e];
    [|injection Hpass as _ <-; apply Hstop, quiet_refl].
  unfold bind at 1 in Hpass.
  destruct (fetchCalendar w1) as [res2 w2] eqn:Hfetch.
  pose proof (fetchCalendar_quiet _ _ _ Hfetch) as Hq2.
  destruct res2 as [[cal|]|e]; simpl in Hpass;
    try (injection Hpass as _ <-; exact (Hstop w2 Hq2)).
  destruct (events cal) as [values|];
    try (injection Hpass as _ <-; exact (Hstop w2 Hq2)).
  destruct Hq2 as (Hn2 & Hc2 & Hs2 & Hv2).
  unfold bind in Hpass.
  destruct (import_events my_set values w2) as [res3 w3] eqn:Himp.
  destruct (import_events_effects my_set values w2 res3 w3 Himp)
    as (_ & _ & Hs3 & _ & calls & k & Hcr & Hno & Hd1 & Hd2 & _).
  assert (Hdrop : drop (length (creations w)) (creations w3) = calls).
  { rewrite Hcr, Hc2, Hc1, drop_app_length. reflexivity. }
  destruct res3 as [[]|e]; injection Hpass as _ <-.
  - exists k, [ALL_SYNCED]. cbn [notices settings vault creations set_notices].
    rewrite Hno, Hn2, Hn1, Hs3, Hs2, Hs1, Hdrop, <- app_assoc.
    rewrite Hv2, Hv1 in Hd1, Hd2. auto 10.
  - exists k, []. rewrite app_nil_r, Hno, Hn2, Hn1, Hs3, Hs2, Hs1, Hdrop.
    rewrite Hv2, Hv1 in Hd1, Hd2. auto 10.
Qed.

(** ** Other schedules of the callbacks *)

Section ScheduleFacts.

Context {Server : Type} `{H : Host Server}.
Local Abbreviation World := (@World Server).
Local Abbreviation M := (@M Server).

(** Carrying out the edits in flight leaves alone the notes that no edit is
    for. *)
Lemma land_edits_other (w : World) (other : string) :
  Forall (fun edit => fst edit <> other) (pending w) ->
  vault (snd (land_edits w)) !! other = vault w !! other.
Proof.
  unfold land_edits, modify. cbn [snd vault set_pending set_vault].
  generalize (vault w). induction (pending w) as [|edit rest IH];
    intros v Hall; [reflexivity|].
  apply Forall_cons in Hall as [Hne Hrest]. cbn [foldl].
  rewrite (IH _ Hrest). unfold apply_edit. apply lookup_alter_ne. exact Hne.
Qed.

(** Had each callback run to its end, and its edit been carried out, before
    the next one started, [my_set] would be the same: a push only edits the
    front matter of its own note, and every note is synchronised once. *)
Lemma run_callbacks_in_turn_run (docs : list string) (my_set : gset string)
    (w : World) :
  NoDup docs -> pending w = [] ->
  exists w',
    run_callbacks_in_turn my_set docs w
    = (Ok (add_guids my_set (map (stored_guid w) docs)), w').
Proof.
  revert my_set w. induction docs as [|doc rest IH]; intros my_set w Hnd Hpe.
  - exists w. simpl. unfold ret, add_guids. simpl.
    rewrite (right_id_L ∅ (∪)). reflexivity.
  - apply NoDup_cons in Hnd as [Hfresh Hnd].
    simpl. unfold bind at 1. rewrite getUUIDFromEventFile_run.
    unfold bind at 1, try_catch.
    destruct (syncEventFile doc w) as [res w1] eqn:Hrun.
    destruct (syncEventFile_quiet _ _ _ _ Hrun) as ((_ & _ & _ & Hv) & Hp).
    assert (Hstep : exists w2,
               (match res with
                | Ok a => (Ok a, w1)
                | Throw e => ret tt w1
                end) = (Ok tt, w2)
               /\ vault w2 = vault w
               /\ Forall (fun edit => fst edit = doc) (pending w2)).
    { assert (Hall : Forall (fun edit : string * (gmap string string
                                                  -> gmap string string)
                             => fst edit = doc) (pending w1)).
      { rewrite Hpe in Hp. destruct Hp as [-> | [fn ->]]; repeat constructor. }
      destruct res as [[]|e]; exists w1; auto. }
    destruct Hstep as (w2 & -> & Hv2 & Hp2).
    unfold bind at 1.
    destruct (land_edits w2) as [res3 w3] eqn:Hland.
    assert (Hres3 : res3 = Ok tt /\ pending w3 = []).
    { unfold land_edits, modify in Hland. injection Hland as <- <-. auto. }
    destruct Hres3 as [-> Hp3].
    destruct (IH (my_set_add my_set (stored_guid w doc)) w3 Hnd Hp3)
      as (w' & Hrest).
    exists w'. rewrite Hrest, add_guids_cons. cbn [map].
    assert (Hmap : map (stored_guid w3) rest = map (stored_guid w) rest).
    { apply map_ext_in. intros d Hd. unfold stored_guid, cached_frontmatter.
      assert (Hw3 : w3 = snd (land_edits w2)) by (rewrite Hland; reflexivity).
      rewrite Hw3, land_edits_other, Hv2; [reflexivity|].
      eapply Forall_impl; [exact Hp2|]. intros edit ->. intros ->.
      apply Hfresh, list_elem_of_In, Hd. }
    rewrite Hmap. reflexivity.
Qed.

End ScheduleFacts.

(** X25.  The known-identifiers set does not depend on whether the guids are
    read before the pushes start or between them: when no edit is in flight
    at the start, running each callback to its end and carrying out its edit
    before the next one reads its guid gives the set that the push phase
    gives. *)
Theorem push_phase_in_turn {Server : Type} `{H : Host Server} (w : World) :
  pending w = [] ->
  exists my_set w2,
    run_callbacks_in_turn ∅ (md_files w) w = (Ok my_set, w2)
    /\ (forall res w1, push_phase w = (res, w1) ->
                       res = Ok my_set \/ exists e, res = Throw e)
    /\ (pushable w -> exists w1, push_phase w = (Ok my_set, w1)).
Proof.
  intros Hpe.
  destruct (run_callbacks_in_turn_run (md_files w) ∅ w (md_files_NoDup w) Hpe)
    as (w2 & Hturn).
  destruct (push_phase_run w) as (res & w1 & Hpush & _ & Hres & Hok & _).
  eexists _, w2. split; [exact Hturn|]. split.
  - intros res' w1' Hpush'. rewrite Hpush in Hpush'.
    injection Hpush' as <- <-. exact Hres.
  - intros Hable. exists w1. rewrite Hpush, (Hok Hable). reflexivity.
Qed.

Lemma push_phase_in_turn_witness :
  exists my_set w1 w2,
    run_callbacks_in_turn (H := TestHost.standard) ∅
      (md_files TestHost.all_accepted) TestHost.all_accepted
    = (Ok my_set, w2)
    /\ push_phase (H := TestHost.standard) TestHost.all_accepted
       = (Ok my_set, w1).
Proof.
  destruct (push_phase_in_turn (H := TestHost.standard) TestHost.all_accepted
              eq_refl)
    as (my_set & w2 & Hturn & _ & Hok).
  destruct (Hok all_accepted_pushable) as (w1 & Hpush).
  exists my_set, w1, w2. split; [exact Hturn | exact Hpush].
Defined.


(** X27.  One note whose event cannot be printed stops the pass: its
    callback is rejected, [Promise.all] rejects, and the pass ends with an
    error before the collection is fetched.  Nothing is imported, no notice
    is shown, and the vault is as it was. *)
Theorem unprintable_note_stops_pass {Server : Type} `{H : Host Server}
    (w : World) (doc : string) :
  doc ∈ md_files w ->
  unprintable w doc ->
  exists e w',
    push_phase w = (Throw e, w')
    /\ sync_all_events w = (Throw e, w')
    /\ notices w' = notices w /\ creations w' = creations w
    /\ vault w' = vault w.
Proof.
  intros Hdoc Hbad.
  destruct (push_phase_run w)
    as (res & w' & Hpush & (Hn & Hc & _ & Hv) & _ & _ & Hthrow).
  destruct Hthrow as [e ->]; [eauto|].
  exists e, w'. split; [exact Hpush|]. split; [|auto].
  unfold sync_all_events, bind at 1. rewrite Hpush. reflexivity.
Qed.

Lemma unprintable_note_stops_pass_witness :
  exists w',
    sync_all_events (H := TestHost.standard)
      (TestHost.world (<["Calendar/Someday.md" := TestHost.undated_note]>
                         TestHost.notes)
         [TestHost.answer 201 ""; TestHost.answer 201 "";
          TestHost.answer 207 TestHost.VERIFY;
          TestHost.answer 207 TestHost.VERIFY_TRIP;
          TestHost.answer 207 TestHost.COLLECTION])
    = (Throw "RangeError: Invalid time value", w')
    /\ notices w' = [] /\ creations w' = []
    /\ server w' = [TestHost.answer 207 TestHost.COLLECTION].
Proof.
  destruct (unprintable_note_stops_pass (H := TestHost.standard)
              (TestHost.world (<["Calendar/Someday.md" := TestHost.undated_note]>
                                 TestHost.notes)
                 [TestHost.answer 201 ""; TestHost.answer 201 "";
                  TestHost.answer 207 TestHost.VERIFY;
                  TestHost.answer 207 TestHost.VERIFY_TRIP;
                  TestHost.answer 207 TestHost.COLLECTION])
              "Calendar/Someday.md")
    as (e & w' & _ & Hpass & Hn & Hc & _).
  - vm_compute. apply list_elem_of_In. left. reflexivity.
  - exists TestHost.undated_note, TestHost.undated.
    split; [vm_compute; reflexivity|]. split; [vm_compute; reflexivity|].
    intros w0 ev w1 Hev.
    destruct (toIcsEvent_run (H := TestHost.standard) TestHost.undated w0)
      as (u & w2 & _ & Hrun).
    rewrite Hrun in Hev. injection Hev as <- _.
    exists "RangeError: Invalid time value". reflexivity.
  - assert (Hw : w' = snd (sync_all_events (H := TestHost.standard)
      (TestHost.world (<["Calendar/Someday.md" := TestHost.undated_note]>
                         TestHost.notes)
         [TestHost.answer 201 ""; TestHost.answer 201 "";
          TestHost.answer 207 TestHost.VERIFY;
          TestHost.answer 207 TestHost.VERIFY_TRIP;
          TestHost.answer 207 TestHost.COLLECTION])))
      by (rewrite Hpass; reflexivity).
    assert (He : Throw (A := unit) e = fst (sync_all_events (H := TestHost.standard)
      (TestHost.world (<["Calendar/Someday.md" := TestHost.undated_note]>
                         TestHost.notes)
         [TestHost.answer 201 ""; TestHost.answer 201 "";
          TestHost.answer 207 TestHost.VERIFY;
          TestHost.answer 207 TestHost.VERIFY_TRIP;
          TestHost.answer 207 TestHost.COLLECTION])))
      by (rewrite Hpass; reflexivity).
    exists w'. split; [rewrite Hpass; f_equal; rewrite He; vm_compute; reflexivity|].
    rewrite Hn, Hc. split; [reflexivity|]. split; [reflexivity|].
    rewrite Hw. vm_compute. reflexivity.
Defined.
